(** * Academic records of the [progressive] school-management application

    A shallow embedding of the grading, admission-number, mark-upload,
    dashboard and report code of [progressive_app/models.py] and
    [progressive_app/views.py], with the properties of the specification
    stated over it; and of the assignment, class-report, results and
    semester views and of the sign-in backend of
    [progressive_app/backends.py], with properties of their own.

    Conventions of the embedding:
    - a database table is the list of its rows, in storage order;
    - a Python exception is a value of [exn], carried by [result];
    - a view that writes to the database is a function from the database
      to the database it leaves behind and its outcome (writes are
      committed one by one, so an exception keeps the earlier writes);
    - a finite Python [float] is the rational number it denotes; [nan]
      and the two infinities are values of their own;
    - the framework is Django from version 4.2 on: what its [save],
      [update_or_create] and [DecimalField] do with a [Mark] is modelled
      by hand, next to the code of [models.py] that calls them;
    - strings are ASCII. *)

From Stdlib Require Import QArith Qround Qabs Ascii Lqa.
From stdpp Require Import gmap strings list pretty sorting.

Open Scope Z_scope.

(** ** Python exceptions and results *)

Inductive exn : Type :=
  | ValueError
  | TypeError
  | Http404
  | MultipleObjectsReturned
  | ValidationError
  | InvalidOperation
  | IntegrityError.

Inductive result (A : Type) : Type :=
  | Ok (a : A)
  | Raise (e : exn).
Arguments Ok {A} a.
Arguments Raise {A} e.

Definition result_bind {A B} (r : result A) (k : A → result B) : result B :=
  match r with
  | Ok a => k a
  | Raise e => Raise e
  end.

Declare Scope result_scope.
Delimit Scope result_scope with result.
Notation "'try!' x := r 'in' k" := (result_bind r (λ x, k))
  (at level 10, x name, r at level 100, k at level 200) : result_scope.

(** ** The Python builtins the code calls *)

Module Py.

(** A number: a finite one is the rational it denotes; a [float] can
    also be [nan] or one of the infinities. *)
Inductive number : Type :=
  | finite (q : Q)
  | nan
  | inf
  | neg_inf.

(** A value that [Mark.score] can hold: [None], a string taken from a
    form, or a number (a [Decimal] read from the table, or a [float]). *)
Inductive value : Type :=
  | None_
  | Str (s : string)
  | Num (x : number).

(** [x >= k] for a float [x] and a finite [k]: [nan] compares false
    with everything. *)
Definition ge (x : number) (k : Q) : bool :=
  match x with
  | finite q => Qle_bool k q
  | inf => true
  | nan | neg_inf => false
  end.

(** [str.isspace] on one ASCII character. *)
Definition isspace (c : ascii) : bool :=
  let n := nat_of_ascii c in
  ((9 <=? n)%nat && (n <=? 13)%nat) || ((28 <=? n)%nat && (n <=? 32)%nat).

Definition isdigit (c : ascii) : bool :=
  let n := nat_of_ascii c in (48 <=? n)%nat && (n <=? 57)%nat.

Definition digit_value (c : ascii) : Z := Z.of_nat (nat_of_ascii c) - 48.

Fixpoint lstrip (s : string) : string :=
  match s with
  | String c s' => if isspace c then lstrip s' else s
  | EmptyString => EmptyString
  end.

Definition strip (s : string) : string :=
  String.rev (lstrip (String.rev (lstrip s))).

(** The white space that [int] skips around an integer literal in an
    ASCII string: tab to carriage return, and the space.  (The
    separators 28 to 31, which [str.strip] removes, are not skipped.) *)
Definition int_isspace (c : ascii) : bool :=
  let n := nat_of_ascii c in
  ((9 <=? n)%nat && (n <=? 13)%nat) || (n =? 32)%nat.

Fixpoint int_lstrip (s : string) : string :=
  match s with
  | String c s' => if int_isspace c then int_lstrip s' else s
  | EmptyString => EmptyString
  end.

Definition int_strip (s : string) : string :=
  String.rev (int_lstrip (String.rev (int_lstrip s))).

(** The digits of an integer literal: decimal digits, single
    underscores allowed between two digits. *)
Fixpoint int_digits (acc : Z) (after_digit : bool) (s : string) : option Z :=
  match s with
  | EmptyString => if after_digit then Some acc else None
  | String c s' =>
      if isdigit c then int_digits (10 * acc + digit_value c) true s'
      else if Ascii.eqb c "_"%char && after_digit then int_digits acc false s'
      else None
  end.

(** [int(s)] for a string: [None] stands for [ValueError]. *)
Definition int (s : string) : option Z :=
  match int_strip s with
  | String "+"%char body => int_digits 0 false body
  | String "-"%char body => Z.opp <$> int_digits 0 false body
  | body => int_digits 0 false body
  end.

(** [str(n)] for an integer. *)
Definition str (n : Z) : string := pretty n.

(** [s.startswith(prefix)]. *)
Definition startswith (s prefix : string) : bool := String.prefix prefix s.

(** [s.replace(old, new)] for a non-empty [old]: every occurrence,
    leftmost first, without overlap.  [skip] counts the characters of
    an occurrence already replaced that remain to be dropped. *)
Fixpoint replace_go (old new : string) (skip : nat) (s : string) : string :=
  match s with
  | EmptyString => EmptyString
  | String c s' =>
      match skip with
      | S k => replace_go old new k s'
      | O =>
          if String.prefix old s
          then new +:+ replace_go old new (String.length old - 1) s'
          else String c (replace_go old new 0 s')
      end
  end.

Definition replace (s old new : string) : string := replace_go old new 0 s.

Fixpoint zeros (n : nat) : string :=
  match n with
  | O => EmptyString
  | S k => String "0"%char (zeros k)
  end.

(** [s.zfill(width)]: zeros go after a leading sign. *)
Definition zfill (s : string) (width : nat) : string :=
  let pad := zeros (width - String.length s) in
  match s with
  | String "+"%char s' => String "+"%char (pad +:+ s')
  | String "-"%char s' => String "-"%char (pad +:+ s')
  | _ => pad +:+ s
  end.

(** [x not in [None, ""]]. *)
Definition not_in_none_empty (x : value) : bool :=
  match x with
  | None_ => false
  | Str EmptyString => false
  | _ => true
  end.

End Py.

Coercion Py.finite : Q >-> Py.number.
Arguments Py.Num x%_Q.

(** [float(s)] on a string is the interpreter's parser of floating-point
    literals; the code only relies on it returning a float or raising
    [ValueError] ([None] here). *)
Class FloatParser := float_of_string : string → option Py.number.

Section float.
Context `{FloatParser}.

(** [float(x)].  A number converts to itself: the score column holds
    decimals with two places, whose nearest float lies on the same side
    of every whole number as the decimal does. *)
Definition float (x : Py.value) : result Py.number :=
  match x with
  | Py.None_ => Raise TypeError
  | Py.Str s =>
      match float_of_string s with
      | Some f => Ok f
      | None => Raise ValueError
      end
  | Py.Num f => Ok f
  end.
End float.

(** ** models.py *)

Module models.

Record User := {
  user_id : Z;
  role : string;
  admission_number : option string;
  username : string;
  first_name : string;
  last_name : string;
  email : string;
  user_school_class : option Z;
}.

Record Subject := { subject_id : Z; subject_name : string }.
Record SchoolClass := { class_id : Z; class_name : string }.
Record Semester := { semester_id : Z; semester_name : string }.

Record Announcement := {
  ann_title : string;
  ann_content : string;
  ann_visibility : string;
  created_at : Z;
}.

Record Event := {
  ev_title : string;
  ev_description : string;
  ev_date : Z;
  ev_visibility : string;
}.

Record TeacherSubject := {
  ts_teacher : Z;
  ts_subject : Z;
  ts_school_class : Z;
}.

(** A [Mark]; the foreign keys hold the primary key of the row they
    point to.  [date_recorded], which is filled in on insertion,
    is left out. *)
Record Mark := {
  student : Z;
  subject : Z;
  teacher : Z;
  school_class : Z;
  semester : Z;
  score : Py.value;
  grade : option string;
}.

Definition Mark_set_score (v : Py.value) (m : Mark) : Mark :=
  {| student := student m; subject := subject m; teacher := teacher m;
     school_class := school_class m; semester := semester m;
     score := v; grade := grade m |}.

Definition Mark_set_grade (g : option string) (m : Mark) : Mark :=
  {| student := student m; subject := subject m; teacher := teacher m;
     school_class := school_class m; semester := semester m;
     score := score m; grade := g |}.

(** *** The framework's side of a save

    [score] is a [DecimalField(max_digits=5, decimal_places=2,
    null=True)], [grade] a [CharField] that is not declared with
    [null=True].  On its way to the column a float goes through the
    decimal arithmetic of the standard library: it is read with
    [max_digits] significant digits, and the result is brought to
    [decimal_places] places; both steps round half to even. *)

Definition round_half_even (q : Q) : Z :=
  let n := Qfloor q in
  match (q - inject_Z n ?= 1 # 2)%Q with
  | Lt => n
  | Eq => if Z.even n then n else n + 1
  | Gt => n + 1
  end.

Definition pow10 (e : Z) : Q :=
  if 0 <=? e then inject_Z (10 ^ e) else (/ inject_Z (10 ^ (- e)))%Q.

(** The exponent of the leading digit of a number that is not zero:
    the [e] with [10^e <= |q| < 10^(e+1)], counted on the digits of the
    whole part, or on the zeros after the point. *)
Fixpoint leading_up (fuel : nat) (n : Z) : Z :=
  match fuel with
  | O => 0
  | S fuel => if n <? 10 then 0 else 1 + leading_up fuel (n / 10)
  end.

Fixpoint leading_down (fuel : nat) (q : Q) : Z :=
  match fuel with
  | O => 0
  | S fuel =>
      if Qle_bool 1 (q * 10) then -1 else -1 + leading_down fuel (q * 10)
  end.

Definition adjusted (q : Q) : Z :=
  let a := Qabs q in
  if Qle_bool 1 a then leading_up (S (Z.to_nat (Z.log2 (Qfloor a)))) (Qfloor a)
  else leading_down (Pos.to_nat (Pos.size (Qden a))) a.

(** [Context(prec=prec).create_decimal_from_float(q)]. *)
Definition create_decimal_from_float (prec : Z) (q : Q) : Q :=
  if Qeq_bool q 0 then q
  else
    let e := adjusted q - (prec - 1) in
    (inject_Z (round_half_even (q / pow10 e)) * pow10 e)%Q.

(** [d.quantize(Decimal(1).scaleb(-decimal_places))] in a context of
    precision [max_digits]: a result with more digits than that is an
    [InvalidOperation]. *)
Definition quantize (max_digits decimal_places : Z) (d : Q) : result Q :=
  let n := round_half_even (d * pow10 decimal_places) in
  if 10 ^ max_digits <=? Z.abs n then Raise InvalidOperation
  else Ok (n # Z.to_pos (10 ^ decimal_places)).

(** [DecimalField.to_python], on the values that [Mark.save] leaves in
    [score]: [None], a float, or the empty string, which
    [decimal.Decimal] does not read (every other string has gone
    through [float] before). *)
Definition DecimalField_to_python (max_digits : Z) (value : Py.value)
    : result (option Q) :=
  match value with
  | Py.None_ => Ok None
  | Py.Num (Py.finite q) => Ok (Some (create_decimal_from_float max_digits q))
  | Py.Num _ => Raise ValidationError
  | Py.Str _ => Raise ValidationError
  end.

(** [DecimalField.get_db_prep_save]: the value of the column. *)
Definition DecimalField_get_db_prep_save (max_digits decimal_places : Z)
    (value : Py.value) : result Py.value :=
  (try! d := DecimalField_to_python max_digits value in
   match d with
   | None => Ok Py.None_
   | Some d =>
       try! r := quantize max_digits decimal_places d in
       Ok (Py.Num r)
   end)%result.

(** How an object is saved: as a new row ([Mark.objects.create], or
    [save] of an object without a key), or over the row [stored] that
    the table holds under the key of the object, with the
    [update_fields] of the call. *)
Inductive save_how : Type :=
  | insert
  | update (stored : Mark) (update_fields : option (list string)).

(** [Model.save] for a [Mark]: the row that the table holds afterwards.
    The columns that the statement writes are all of them, or those of
    [update_fields]; their values are prepared first, then the
    statement runs, and a null in [grade] makes it fail. *)
Definition Model_save (how : save_how) (self : Mark) : result Mark :=
  let written (name : string) : bool :=
    match how with
    | update _ (Some update_fields) => bool_decide (name ∈ update_fields)
    | _ => true
    end in
  let stored := match how with update stored _ => stored | insert => self end in
  (try! score_ :=
     (if written "score" then DecimalField_get_db_prep_save 5 2 (score self)
      else Ok (score stored)) in
   if written "grade" && bool_decide (grade self = None) then Raise IntegrityError
   else
     Ok {| student := if written "student" then student self else student stored;
           subject := if written "subject" then subject self else subject stored;
           teacher := if written "teacher" then teacher self else teacher stored;
           school_class :=
             if written "school_class" then school_class self
             else school_class stored;
           semester := if written "semester" then semester self else semester stored;
           score := score_;
           grade := if written "grade" then grade self else grade stored |})%result.

Section Mark_methods.
Context `{FloatParser}.

(** [Mark.calculate_grade].  The handler is for [ValueError] and
    [TypeError], the two exceptions that [float] raises. *)
Definition calculate_grade (self : Mark) : string :=
  match float (score self) with
  | Raise _ => "F"
  | Ok score =>
      if Py.ge score 90 then "A"
      else if Py.ge score 80 then "B"
      else if Py.ge score 70 then "C"
      else if Py.ge score 60 then "D"
      else "F"
  end.

(** [Mark.save]: the code of [models.py], then the framework's [save].
    The result is the object as the call leaves it and the row that the
    table holds afterwards; an exception leaves the table as it was. *)
Definition Mark_save (how : save_how) (self : Mark) : result (Mark * Mark) :=
  (try! self :=
     (if Py.not_in_none_empty (score self) then
        try! f := float (score self) in
        let self := Mark_set_score (Py.Num f) self in
        Ok (Mark_set_grade (Some (calculate_grade self)) self)
      else
        Ok (Mark_set_grade None self)) in
   try! row := Model_save how self in
   Ok (self, row))%result.
End Mark_methods.

End models.
Import models.

(** The database: one list of rows per table. *)
Record DB := {
  users : list User;
  subjects : list Subject;
  classes : list SchoolClass;
  semesters : list Semester;
  teacher_subjects : list TeacherSubject;
  marks : list Mark;
  announcements : list Announcement;
  events : list Event;
}.

Definition DB_set_marks (ms : list Mark) (db : DB) : DB :=
  {| users := users db; subjects := subjects db; classes := classes db;
     semesters := semesters db; teacher_subjects := teacher_subjects db;
     marks := ms; announcements := announcements db; events := events db |}.

(** ** views.py: helpers *)

(** The [admission_number] column of the students whose number starts
    with [prefix] (a null number matches no prefix). *)
Definition student_admission_numbers (prefix : string) (us : list User) : list string :=
  omap (λ u,
    match admission_number u with
    | Some adm =>
        if String.eqb (role u) "student" && Py.startswith adm prefix
        then Some adm else None
    | None => None
    end) us.

Definition _next_admission_number (db : DB) : string :=
  let prefix := "prog" in
  let used := student_admission_numbers prefix (users db) in
  let max_num :=
    fold_left (λ max_num adm,
      match Py.int (Py.replace adm prefix "") with
      | Some num => Z.max max_num num
      | None => max_num
      end) used 0 in
  prefix +:+ Py.zfill (Py.str (max_num + 1)) 4.

Definition _student_email (admission_number : string) : string :=
  admission_number +:+ "@progstudent.sch".


(** ** The request, the response and the object manager *)

Inductive message : Type :=
  | msg_error (text : string)
  | msg_success (text : string)
  | msg_info (text : string).

(** [user] is [None] for a visitor who is not logged in. *)
Record HttpRequest := {
  user : option User;
  method : string;
  POST : gmap string string;
}.

(** What the report card of [student_results_download] is drawn from:
    the student, the three aggregates and the student's marks, one line
    of the card each. *)
Record ReportCard := {
  card_student : User;
  card_total : Q;
  card_average : Q;
  card_subjects_count : nat;
  card_marks : list Mark;
}.

(** The template contexts.  Of the dashboards, the feeds and the
    teacher's assignments are kept; the counts of the admin's page and
    the latest marks of the student's are not. *)
Inductive context : Type :=
  | admin_dashboard (announcements : list Announcement) (events : list Event)
  | teacher_dashboard (teacher_subjects : list TeacherSubject)
      (announcements : list Announcement) (events : list Event)
  | student_dashboard (announcements : list Announcement) (events : list Event)
  | upload_marks_form (registrations : list TeacherSubject)
      (students : option (list User)) (selected_class : option SchoolClass)
      (selected_subject : option Subject) (selected_semester : option Semester)
      (semesters : list Semester) (teachers : option (list User))
  | student_report_page (student : User) (marks : list (Mark * Q))
      (total_marks average_marks : Q) (subjects_count : nat).

Inductive HttpResponse : Type :=
  | login_required_redirect
  | redirect (to : string) (messages : list message)
  | render (template : string) (ctx : context)
  | pdf_attachment (filename : string) (card : ReportCard).

(** [Model.objects.get(...)] behind [get_object_or_404]: the only row
    that satisfies the lookup. *)
Definition get_object_or_404 {A} (P : A → Prop) `{∀ x, Decision (P x)}
    (table : list A) : result A :=
  match filter P table with
  | [] => Raise Http404
  | [x] => Ok x
  | _ :: _ :: _ => Raise MultipleObjectsReturned
  end.

(** A lookup [id=s] with [s] a string of the form: the column converts
    it with [int]. *)
Definition get_by_id_or_404 {A} (pk : A → Z) (P : A → Prop) `{∀ x, Decision (P x)}
    (table : list A) (s : string) : result A :=
  match Py.int s with
  | None => Raise ValueError
  | Some n => get_object_or_404 (λ x, pk x = n ∧ P x) table
  end.

(** Truth value of [request.POST.get(key)]. *)
Definition truthy (v : option string) : bool :=
  match v with
  | Some s => negb (String.eqb s "")
  | None => false
  end.

Definition require_role (u : User) (allowed_roles : list string) : bool :=
  bool_decide (role u ∈ allowed_roles).

Definition forbid_or_redirect_login : HttpResponse :=
  redirect "progressive_app:login"
    [msg_error "You are not authorized to view this page."].

(** [round(d, 2)] for a [Decimal]: two places, half to even. *)
Definition round2 (d : Q) : Q := round_half_even (d * 100) # 100.

(** [order_by("-created_at")] and [order_by("-date")]. *)
Definition by_created_at_desc : relation Announcement :=
  λ a b, created_at b ≤ created_at a.

Definition by_date_desc : relation Event :=
  λ a b, ev_date b ≤ ev_date a.

#[global] Instance by_created_at_desc_dec : RelDecision by_created_at_desc :=
  λ a b, decide (created_at b ≤ created_at a).

#[global] Instance by_date_desc_dec : RelDecision by_date_desc :=
  λ a b, decide (ev_date b ≤ ev_date a).

(** [order_by("school_class__name", "subject__name")] on the rows of
    [TeacherSubject], each with the names of its class and its subject:
    by the name of the class, and under the same name by the name of
    the subject.  Names are compared character by character, by their
    codes (the binary collation). *)
Definition by_class_then_subject : relation (string * string * TeacherSubject) :=
  λ a b, String.le a.1.1 b.1.1 ∧
         (String.le b.1.1 a.1.1 → String.le a.1.2 b.1.2).

#[global] Instance by_class_then_subject_dec : RelDecision by_class_then_subject :=
  λ a b, decide (String.le a.1.1 b.1.1 ∧
                 (String.le b.1.1 a.1.1 → String.le a.1.2 b.1.2)).

(** ** Grading in the report path *)

Section views.
Context `{FloatParser}.

Definition get_grade_and_gpa (score : Py.value) : result (string * Q) :=
  (try! s := float score in
   if Py.ge s 90 then Ok ("A", 4%Q)
   else if Py.ge s 80 then Ok ("B", 3%Q)
   else if Py.ge s 70 then Ok ("C", 2%Q)
   else if Py.ge s 60 then Ok ("D", 1%Q)
   else Ok ("F", 0%Q))%result.

(** ** Dashboard *)

Definition newest_announcements (l : list Announcement) : list Announcement :=
  take 5 (merge_sort by_created_at_desc l).

Definition newest_events (l : list Event) : list Event :=
  take 5 (merge_sort by_date_desc l).

(** The assignments of a teacher, joined with their classes and
    subjects and ordered by their names (rows with the same names are
    kept in table order). *)
Definition joined_assignments (user : User) (db : DB)
    : list (string * string * TeacherSubject) :=
  ts ← filter (λ ts, ts_teacher ts = user_id user) (teacher_subjects db);
  c ← filter (λ c, class_id c = ts_school_class ts) (classes db);
  sj ← filter (λ sj, subject_id sj = ts_subject ts) (subjects db);
  [(class_name c, subject_name sj, ts)].

Definition assignments (user : User) (db : DB) : list TeacherSubject :=
  snd <$> merge_sort by_class_then_subject (joined_assignments user db).

Definition dashboard (request : HttpRequest) (db : DB) : HttpResponse :=
  match user request with
  | None => login_required_redirect
  | Some user =>
      if String.eqb (role user) "admin" then
        render "dashboards/admin.html"
          (admin_dashboard
             (newest_announcements (announcements db))
             (newest_events (events db)))
      else if String.eqb (role user) "teacher" then
        render "dashboards/teacher.html"
          (teacher_dashboard
             (assignments user db)
             (newest_announcements
                (filter (λ a, ann_visibility a = "all" ∨ ann_visibility a = "teacher")
                   (announcements db)))
             (newest_events
                (filter (λ e, ev_visibility e = "all" ∨ ev_visibility e = "teacher")
                   (events db))))
      else
        render "dashboards/student.html"
          (student_dashboard
             (newest_announcements
                (filter (λ a, ann_visibility a = "all" ∨ ann_visibility a = "student")
                   (announcements db)))
             (newest_events
                (filter (λ e, ev_visibility e = "all" ∨ ev_visibility e = "student")
                   (events db))))
  end.

(** The announcements and events of a dashboard page. *)
Definition feed_announcements (r : HttpResponse) : list Announcement :=
  match r with
  | render _ (admin_dashboard a _) => a
  | render _ (teacher_dashboard _ a _) => a
  | render _ (student_dashboard a _) => a
  | _ => []
  end.

Definition feed_events (r : HttpResponse) : list Event :=
  match r with
  | render _ (admin_dashboard _ e) => e
  | render _ (teacher_dashboard _ _ e) => e
  | render _ (student_dashboard _ e) => e
  | _ => []
  end.

(** ** Mark upload *)

Definition five_tuple (m : Mark) : Z * Z * Z * Z * Z :=
  (student m, subject m, teacher m, school_class m, semester m).

(** [Mark.objects.update_or_create(student=, subject=, teacher=,
    school_class=, semester=, defaults={"score": score_value})].  When
    no row is found, a new object is built and saved as a new row.  The
    row found is given the new score and saved with
    [update_fields={"score", "date_recorded"}]: the defaults, and the
    column that is set at insertion.  Several rows found raise
    [MultipleObjectsReturned].  The call runs in a transaction of its
    own: a save that raises writes nothing. *)
Definition update_or_create (key : Z * Z * Z * Z * Z) (score_value : string)
    (db : DB) : DB * result unit :=
  match filter (λ m, five_tuple m = key) (marks db) with
  | [] =>
      let '(st, sj, t, c, sem) := key in
      let obj := {| student := st; subject := sj; teacher := t;
                    school_class := c; semester := sem;
                    score := Py.Str score_value; grade := Some "" |} in
      match Mark_save insert obj with
      | Ok (_, row) => (DB_set_marks (marks db ++ [row]) db, Ok tt)
      | Raise e => (db, Raise e)
      end
  | [obj] =>
      match Mark_save (update obj (Some ["score"; "date_recorded"]))
              (Mark_set_score (Py.Str score_value) obj) with
      | Ok (_, row) =>
          (DB_set_marks
             (map (λ m, if decide (five_tuple m = key) then row else m) (marks db))
             db, Ok tt)
      | Raise e => (db, Raise e)
      end
  | _ :: _ :: _ => (db, Raise MultipleObjectsReturned)
  end.

(** The name of a student's score field: [f"marks_{student.id}"]. *)
Definition marks_field (student_id : Z) : string :=
  "marks_" +:+ Py.str student_id.

(** The loop [for student in students] of [upload_marks].  For a form
    value, [score_value not in (None, "")] is its truth value. *)
Fixpoint save_marks (post : gmap string string) (students : list User)
    (selected_subject teacher selected_class selected_semester : Z)
    (db : DB) : DB * result unit :=
  match students with
  | [] => (db, Ok tt)
  | student :: students =>
      let score_value := post !! marks_field (user_id student) in
      if truthy score_value then
        match update_or_create
                (user_id student, selected_subject, teacher,
                 selected_class, selected_semester)
                (default "" score_value) db with
        | (db, Ok _) =>
            save_marks post students selected_subject teacher
              selected_class selected_semester db
        | (db, Raise e) => (db, Raise e)
        end
      else
        save_marks post students selected_subject teacher
          selected_class selected_semester db
  end.

Definition upload_marks_page (request_user : User) (db : DB)
    (students : option (list User)) (selected_class : option SchoolClass)
    (selected_subject : option Subject) (selected_semester : option Semester)
    : HttpResponse :=
  render "upload_marks.html"
    (upload_marks_form
       (if String.eqb (role request_user) "teacher"
        then filter (λ ts, ts_teacher ts = user_id request_user) (teacher_subjects db)
        else teacher_subjects db)
       students selected_class selected_subject selected_semester
       (semesters db)
       (if String.eqb (role request_user) "admin"
        then Some (filter (λ u, role u = "teacher") (users db))
        else None)).

Definition not_registered : string :=
  "This teacher is not registered to teach this subject in this class.".

Definition marks_uploaded (c : SchoolClass) (sj : Subject) (sem : Semester) : string :=
  "Marks uploaded for " +:+ class_name c +:+ " (" +:+ subject_name sj
    +:+ ") in " +:+ semester_name sem +:+ ".".

(** The part of [upload_marks] that follows the three lookups. *)
Definition upload_marks_selected (request : HttpRequest) (request_user : User)
    (selected_subject : Subject) (selected_class : SchoolClass)
    (selected_semester : Semester) (teacher : User) (db : DB)
    : DB * result HttpResponse :=
  if bool_decide (Exists (λ ts,
       ts_teacher ts = user_id teacher ∧
       ts_subject ts = subject_id selected_subject ∧
       ts_school_class ts = class_id selected_class) (teacher_subjects db))
  then
    let students :=
      filter (λ u, role u = "student" ∧
                   user_school_class u = Some (class_id selected_class))
        (users db) in
    if bool_decide ("save_marks" ∈ dom (POST request)) then
      match save_marks (POST request) students (subject_id selected_subject)
              (user_id teacher) (class_id selected_class)
              (semester_id selected_semester) db with
      | (db, Ok _) =>
          (db, Ok (redirect "progressive_app:teachers_results"
                     [msg_success (marks_uploaded selected_class
                                     selected_subject selected_semester)]))
      | (db, Raise e) => (db, Raise e)
      end
    else
      (db, Ok (upload_marks_page request_user db (Some students)
                 (Some selected_class) (Some selected_subject)
                 (Some selected_semester)))
  else
    (db, Ok (redirect "progressive_app:upload_marks" [msg_error not_registered])).

Definition upload_marks (request : HttpRequest) (db : DB)
    : DB * result HttpResponse :=
  match user request with
  | None => (db, Ok login_required_redirect)
  | Some request_user =>
      if negb (require_role request_user ["teacher"; "admin"]) then
        (db, Ok forbid_or_redirect_login)
      else if String.eqb (method request) "POST" then
        let subject_id_ := POST request !! "subject" in
        let class_id_ := POST request !! "school_class" in
        let semester_id_ := POST request !! "semester" in
        if truthy subject_id_ && truthy class_id_ && truthy semester_id_ then
          match get_by_id_or_404 subject_id (λ _, True) (subjects db)
                  (default "" subject_id_) with
          | Raise e => (db, Raise e)
          | Ok selected_subject =>
          match get_by_id_or_404 class_id (λ _, True) (classes db)
                  (default "" class_id_) with
          | Raise e => (db, Raise e)
          | Ok selected_class =>
          match get_by_id_or_404 semester_id (λ _, True) (semesters db)
                  (default "" semester_id_) with
          | Raise e => (db, Raise e)
          | Ok selected_semester =>
          match
            (if String.eqb (role request_user) "admin" then
               let teacher_id := POST request !! "teacher_id" in
               if truthy teacher_id then
                 get_by_id_or_404 user_id (λ u, role u = "teacher") (users db)
                   (default "" teacher_id)
               else Ok request_user
             else Ok request_user)
          with
          | Raise e => (db, Raise e)
          | Ok teacher =>
              upload_marks_selected request request_user selected_subject
                selected_class selected_semester teacher db
          end end end end
        else
          (db, Ok (upload_marks_page request_user db None None None None))
      else
        (db, Ok (upload_marks_page request_user db None None None None))
  end.

(** ** Reports *)

Definition mark_scores (ms : list Mark) : list Q :=
  omap (λ m, match score m with Py.Num (Py.finite q) => Some q | _ => None end) ms.

(** [Sum("score")] with [or 0]: nulls do not count. *)
Definition total_score (ms : list Mark) : Q :=
  foldr Qplus 0%Q (mark_scores ms).

(** [Avg("score")] with [or 0], before it is rounded.  The aggregates
    are the database's, taken as exact. *)
Definition average_score (ms : list Mark) : Q :=
  match mark_scores ms with
  | [] => 0%Q
  | qs => (foldr Qplus 0%Q qs / inject_Z (Z.of_nat (length qs)))%Q
  end.

(** [Count("subject", distinct=True)]. *)
Definition subjects_count (ms : list Mark) : nat :=
  length (remove_dups (subject <$> ms)).

(** The loop [for m in marks] of [student_report]. *)
Fixpoint grade_marks (ms : list Mark) : result (list (Mark * Q)) :=
  match ms with
  | [] => Ok []
  | m :: ms =>
      (try! gg := get_grade_and_gpa (score m) in
       try! rest := grade_marks ms in
       Ok ((Mark_set_grade (Some gg.1) m, gg.2) :: rest))%result
  end.

Definition student_report (request : HttpRequest) (student_id : Z) (db : DB)
    : result HttpResponse :=
  match user request with
  | None => Ok login_required_redirect
  | Some request_user =>
      if negb (require_role request_user ["admin"; "teacher"; "student"]) then
        Ok forbid_or_redirect_login
      else
        (try! student := get_object_or_404
                           (λ u, user_id u = student_id ∧ role u = "student")
                           (users db) in
         let marks := filter (λ m, models.student m = user_id student) (marks db) in
         try! graded := grade_marks marks in
         Ok (render "reports/student_reports.html"
               (student_report_page student graded (total_score marks)
                  (round2 (average_score marks)) (subjects_count marks))))%result
  end.

Definition student_results_download (request : HttpRequest) (student_id : Z)
    (db : DB) : result HttpResponse :=
  match user request with
  | None => Ok login_required_redirect
  | Some _ =>
      (try! student := get_object_or_404
                         (λ u, user_id u = student_id ∧ role u = "student")
                         (users db) in
       let marks := filter (λ m, models.student m = user_id student) (marks db) in
       Ok (pdf_attachment (username student +:+ "_results.pdf")
             {| card_student := student;
                card_total := total_score marks;
                card_average := average_score marks;
                card_subjects_count := subjects_count marks;
                card_marks := marks |}))%result
  end.

(** [student_report_pdf] simply reuses the existing PDF generator. *)
Definition student_report_pdf (request : HttpRequest) (student_id : Z)
    (db : DB) : result HttpResponse :=
  student_results_download request student_id db.

End views.

(** ** The words of the specification, for comparison with the code *)

(** Section 4.1: the letter grade of a score, read from the lowest
    band upwards. *)
Definition grade_of_score (s : Q) : string :=
  if Qlt_le_dec s 60 then "F"
  else if Qlt_le_dec s 70 then "D"
  else if Qlt_le_dec s 80 then "C"
  else if Qlt_le_dec s 90 then "B"
  else "A".

(** Section 4.1: the grade point of a letter grade. *)
Definition grade_point (g : string) : Q :=
  if String.eqb g "A" then 4
  else if String.eqb g "B" then 3
  else if String.eqb g "C" then 2
  else if String.eqb g "D" then 1
  else 0.

(** [s[n:]]. *)
Fixpoint string_drop (n : nat) (s : string) : string :=
  match n, s with
  | S k, String _ s' => string_drop k s'
  | _, _ => s
  end.

(** Section 4.2: the number after the prefix, the largest one plus one.
    The suffix of a value is what follows the four characters of the
    prefix. *)
Definition next_admission_number_spec (db : DB) : string :=
  let suffixes :=
    string_drop 4 <$> student_admission_numbers "prog" (users db) in
  let numbers := omap Py.int suffixes in
  "prog" +:+ Py.zfill (Py.str (foldr Z.max 0 numbers + 1)) 4.

(** [old] occurs somewhere in [s]. *)
Fixpoint occurs (old s : string) : bool :=
  String.prefix old s ||
  match s with
  | EmptyString => false
  | String _ s' => occurs old s'
  end.

(** Section 4.4: the row that an upsert of a score leaves under a
    five-tuple, with the grade of section 4.1. *)
Definition upserted (key : Z * Z * Z * Z * Z) (s : Q) : Mark :=
  let '(st, sj, t, c, sem) := key in
  {| student := st; subject := sj; teacher := t; school_class := c;
     semester := sem; score := Py.Num s; grade := Some (grade_of_score s) |}.


(** The rows of the [Mark] table under a five-tuple. *)
Definition rows_under (key : Z * Z * Z * Z * Z) (db : DB) : list Mark :=
  filter (λ m, five_tuple m = key) (marks db).

(** The students whose scores the form of a class carries. *)
Definition class_students (c : SchoolClass) (db : DB) : list User :=
  filter (λ u, role u = "student" ∧ user_school_class u = Some (class_id c))
    (users db).

(** The teacher on whose behalf the upload is made. *)
Definition acting_teacher (request : HttpRequest) (u : User) (db : DB)
    : result User :=
  if String.eqb (role u) "admin" then
    if truthy (POST request !! "teacher_id") then
      get_by_id_or_404 user_id (λ u, role u = "teacher") (users db)
        (default "" (POST request !! "teacher_id"))
    else Ok u
  else Ok u.

(** ** Sample data *)

(** A parser of plain decimal literals ([85], [72.5], [-5]) and of
    [nan] and [inf], to run the code on examples. *)
Fixpoint decimal_digits (num : Z) (scale : option positive) (s : string) : option Q :=
  match s with
  | EmptyString => Some (num # default 1%positive scale)
  | String c s' =>
      if Py.isdigit c then
        decimal_digits (10 * num + Py.digit_value c)
          ((λ p, (10 * p)%positive) <$> scale) s'
      else if Ascii.eqb c "."%char then
        match scale with
        | None => decimal_digits num (Some 1%positive) s'
        | Some _ => None
        end
      else None
  end.

Definition unsigned_decimal (s : string) : option Q :=
  if String.eqb s "" || String.eqb s "." then None
  else decimal_digits 0 None s.

Definition plain_decimal : FloatParser :=
  λ s, if String.eqb s "nan" then Some Py.nan
       else if String.eqb s "inf" then Some Py.inf
       else if String.eqb s "-inf" then Some Py.neg_inf
       else match s with
            | String "-" s' => (λ q, Py.finite (- q)) <$> unsigned_decimal s'
            | String "+" s' => Py.finite <$> unsigned_decimal s'
            | _ => Py.finite <$> unsigned_decimal s
            end.

Definition sample_user (id : Z) (r : string) (adm : option string)
    (name : string) (c : option Z) : User :=
  {| user_id := id; role := r; admission_number := adm; username := name;
     first_name := name; last_name := ""; email := name +:+ "@school";
     user_school_class := c |}.

Definition empty_db : DB :=
  {| users := []; subjects := []; classes := []; semesters := [];
     teacher_subjects := []; marks := []; announcements := []; events := [] |}.

Definition DB_set_users (us : list User) (db : DB) : DB :=
  {| users := us; subjects := subjects db; classes := classes db;
     semesters := semesters db; teacher_subjects := teacher_subjects db;
     marks := marks db; announcements := announcements db; events := events db |}.

(** Students numbered [prog0001] and [prog0003]. *)
Definition db_two_students : DB :=
  DB_set_users
    [sample_user 1 "student" (Some "prog0001") "amina" None;
     sample_user 2 "student" (Some "prog0003") "brian" None] empty_db.

(** A student whose number was typed in by hand. *)
Definition db_typed_number : DB :=
  DB_set_users
    [sample_user 1 "student" (Some "prog0001") "amina" None;
     sample_user 2 "student" (Some "progprog12") "brian" None] empty_db.

Definition sample_mark (st sj t c sem : Z) (v : Py.value) (g : option string) : Mark :=
  {| student := st; subject := sj; teacher := t; school_class := c;
     semester := sem; score := v; grade := g |}.

Definition sample_request (u : User) (m : string) (post : list (string * string))
    : HttpRequest :=
  {| user := Some u; method := m; POST := list_to_map post |}.

(** A [Mark] object without a score, as the form of the admin site
    builds it when the score is left blank. *)
Definition null_mark : Mark := sample_mark 2 1 5 1 1 Py.None_ (Some "").

Definition sample_announcement (title visibility : string) (t : Z) : Announcement :=
  {| ann_title := title; ann_content := ""; ann_visibility := visibility;
     created_at := t |}.

Definition DB_set_announcements (l : list Announcement) (db : DB) : DB :=
  {| users := users db; subjects := subjects db; classes := classes db;
     semesters := semesters db; teacher_subjects := teacher_subjects db;
     marks := marks db; announcements := l; events := events db |}.

(** Six announcements for everybody, the first one the oldest. *)
Definition db_six_announcements : DB :=
  DB_set_announcements
    [sample_announcement "term dates" "all" 1;
     sample_announcement "sports day" "all" 2;
     sample_announcement "library" "all" 3;
     sample_announcement "fees" "all" 4;
     sample_announcement "exams" "all" 5;
     sample_announcement "closing" "all" 6] empty_db.

(** One announcement for teachers and one for everybody. *)
Definition db_two_announcements : DB :=
  DB_set_announcements
    [sample_announcement "staff meeting" "teacher" 1;
     sample_announcement "closing" "all" 2] empty_db.

Definition teacher_tom : User := sample_user 5 "teacher" None "tom" None.
Definition student_sara : User := sample_user 3 "student" (Some "prog0002") "sara" (Some 1).

Definition admin_head : User := sample_user 9 "admin" None "head" None.
Definition teacher_uma : User := sample_user 6 "teacher" None "uma" None.
Definition student_brian : User := sample_user 2 "student" (Some "prog0001") "brian" (Some 1).
Definition student_zoe : User := sample_user 4 "student" (Some "prog0003") "zoe" (Some 2).

(** A school with two subjects and two classes.  Tom teaches subject 1
    in class 2 and subject 2 in class 1, Uma subject 1 in class 1.
    Brian has a mark from an earlier term. *)
Definition db_school : DB :=
  {| users := [admin_head; teacher_tom; teacher_uma; student_brian;
               student_sara; student_zoe];
     subjects := [{| subject_id := 1; subject_name := "Mech" |};
                  {| subject_id := 2; subject_name := "Optics" |}];
     classes := [{| class_id := 1; class_name := "10A" |};
                 {| class_id := 2; class_name := "10B" |}];
     semesters := [{| semester_id := 1; semester_name := "Term 1" |};
                   {| semester_id := 2; semester_name := "Term 2" |}];
     teacher_subjects :=
       [{| ts_teacher := 5; ts_subject := 1; ts_school_class := 2 |};
        {| ts_teacher := 5; ts_subject := 2; ts_school_class := 1 |};
        {| ts_teacher := 6; ts_subject := 1; ts_school_class := 1 |}];
     marks := [sample_mark 2 1 6 1 1 (Py.Num 64) (Some "D")];
     announcements := []; events := [] |}.

(** Sara's marks, the second one with the grade of an earlier score. *)
Definition db_sara_marks : DB :=
  DB_set_marks
    [sample_mark 3 1 6 1 1 (Py.Num (6400 # 100)) (Some "D");
     sample_mark 3 1 6 1 2 (Py.Num (9500 # 100)) (Some "D");
     sample_mark 3 2 5 1 2 (Py.Num (4600 # 100)) (Some "F")] db_school.

(** The upload form for subject 1, class 1, semester 2. *)
Definition upload_form (u : User) (fields : list (string * string)) : HttpRequest :=
  sample_request u "POST"
    ([("subject", "1"); ("school_class", "1"); ("semester", "2");
      ("save_marks", "Save")] ++ fields).

(** ** Notions that the properties are stated with *)

(** Every character of [s] is a decimal digit. *)
Fixpoint all_digits (s : string) : bool :=
  match s with
  | EmptyString => true
  | String c s' => Py.isdigit c && all_digits s'
  end.

(** The [max_num] of [_next_admission_number] when its loop ends. *)
Definition scanned_max (db : DB) : Z :=
  fold_left (λ max_num adm,
    match Py.int (Py.replace adm "prog" "") with
    | Some num => Z.max max_num num
    | None => max_num
    end) (student_admission_numbers "prog" (users db)) 0.

(** The table after [User.objects.create_user] has inserted [u]. *)
Definition with_user (u : User) (db : DB) : DB :=
  DB_set_users (users db ++ [u]) db.


(** The row that a save leaves under a five-tuple: a score of the
    column and a grade. *)
Definition row_of (key : Z * Z * Z * Z * Z) (c : Q) (g : string) : Mark :=
  let '(st, sj, t, c_, sem) := key in
  {| student := st; subject := sj; teacher := t; school_class := c_;
     semester := sem; score := Py.Num c; grade := Some g |}.

(** The value that the score column takes for a float. *)
Definition column_value (f : Py.number) : result Py.value :=
  DecimalField_get_db_prep_save 5 2 (Py.Num f).

(** The row that a completed upsert leaves under the five-tuple: a new
    row carries the grade of the score, a row that was there keeps its
    grade. *)
Definition upsert_row (key : Z * Z * Z * Z * Z) (q c : Q) (db : DB) : Mark :=
  match rows_under key db with
  | [] => row_of key c (grade_of_score q)
  | stored :: _ => Mark_set_score (Py.Num c) stored
  end.

Section outcomes.
Context `{FloatParser}.

(** The object that [Mark.save] hands to the framework when the score
    is a number or a string that [float] reads. *)
Definition graded (f : Py.number) (m : Mark) : Mark :=
  Mark_set_grade (Some (calculate_grade (Mark_set_score (Py.Num f) m)))
    (Mark_set_score (Py.Num f) m).

(** What [update_or_create] does with a score [v] under a five-tuple:
    it raises and writes nothing; or there was no row, [float] reads
    [v] as a number that the column takes, and a row with the grade of
    that number is added; or there was one row, and its score is
    replaced. *)
Inductive upsert_outcome (key : Z * Z * Z * Z * Z) (v : string) (db : DB)
    : DB * result unit → Prop :=
  | upsert_raises (e : exn) : upsert_outcome key v db (db, Raise e)
  | upsert_created (q c : Q) :
      v ≠ "" → rows_under key db = [] →
      float_of_string v = Some (Py.finite q) →
      column_value q = Ok (Py.Num c) →
      upsert_outcome key v db
        (DB_set_marks (marks db ++ [row_of key c (grade_of_score q)]) db, Ok tt)
  | upsert_updated (stored : Mark) (q c : Q) :
      v ≠ "" → rows_under key db = [stored] →
      float_of_string v = Some (Py.finite q) →
      column_value q = Ok (Py.Num c) →
      upsert_outcome key v db
        (DB_set_marks
           ((λ m, if decide (five_tuple m = key)
                  then Mark_set_score (Py.Num c) stored else m) <$> marks db)
           db, Ok tt).

End outcomes.

(** The way of saving once more an object that a save has written as
    [row]: over that row, with the same [update_fields]. *)
Definition again (how : save_how) (row : Mark) : save_how :=
  update row
    match how with
    | insert => None
    | update _ update_fields => update_fields
    end.

(** A row with a number in [score], and that number. *)
Definition scored (m : Mark) : Prop := ∃ s : Q, score m = Py.Num s.

Definition score_of (m : Mark) : Q :=
  match score m with
  | Py.Num (Py.finite q) => q
  | _ => 0%Q
  end.

(** [m'] is the row [m] with, perhaps, another score. *)
Definition rescored (m m' : Mark) : Prop :=
  five_tuple m' = five_tuple m ∧ grade m' = grade m.

(** ** Further views *)

Definition DB_set_teacher_subjects (l : list TeacherSubject) (db : DB) : DB :=
  {| users := users db; subjects := subjects db; classes := classes db;
     semesters := semesters db; teacher_subjects := l;
     marks := marks db; announcements := announcements db; events := events db |}.

(** What a canvas draws: a string at a position, or the row of a mark
    (the strings of the row are those of the mark and of the rows it
    points to). *)
Inductive drawn : Type :=
  | text_at (x y : Q) (s : string)
  | mark_row (y : Q) (m : Mark).

(** A calendar date, and a row of the [Semester] table with all its
    columns. *)
Record date := { year : Z; month : Z; day : Z }.

Record Term := {
  term_id : Z;
  term_name : string;
  start_date : date;
  end_date : date;
}.

(** The contexts of the further templates.  Of the assignment page the
    choice lists, which are ordered by name, are left out. *)
Inductive page_context : Type :=
  | assignments_context (is_admin : bool) (existing : list TeacherSubject)
  | results_context (marks : list Mark) (subjects : list Subject)
      (classes : list SchoolClass) (semesters : list Semester)
  | form_context (form_title : string) (semester : option Term).

(** The responses of the further views; [redirect_with] is a redirect
    to an address that takes a key. *)
Inductive Response : Type :=
  | basic (r : HttpResponse)
  | redirect_with (to : string) (pk : Z) (messages : list message)
  | page (template : string) (ctx : page_context)
  | pdf_pages (filename : string) (pages : list (list drawn)).

(** A lookup [id=v] with [v] the value of [request.POST.get]: an
    absent value is looked up as null, which no key is. *)
Definition get_by_posted_id_or_404 {A} (pk : A → Z) (P : A → Prop)
    `{∀ x, Decision (P x)} (table : list A) (v : option string) : result A :=
  match v with
  | None => Raise Http404
  | Some s => get_by_id_or_404 pk P table s
  end.

(** [TeacherSubject.objects.get_or_create(teacher=, subject=,
    school_class=)]. *)
Definition get_or_create (row : TeacherSubject) (db : DB) : DB * result unit :=
  match filter (λ ts, ts_teacher ts = ts_teacher row ∧
                      ts_subject ts = ts_subject row ∧
                      ts_school_class ts = ts_school_class row)
          (teacher_subjects db) with
  | [] => (DB_set_teacher_subjects (teacher_subjects db ++ [row]) db, Ok tt)
  | [_] => (db, Ok tt)
  | _ :: _ :: _ => (db, Raise MultipleObjectsReturned)
  end.

Definition assignment_saved : HttpResponse :=
  redirect "progressive_app:teacher_subjects_manage"
    [msg_success "Teaching assignment saved."].

Definition teacher_subjects_manage (request : HttpRequest) (db : DB)
    : DB * result Response :=
  match user request with
  | None => (db, Ok (basic login_required_redirect))
  | Some request_user =>
      if negb (require_role request_user ["teacher"; "admin"]) then
        (db, Ok (basic forbid_or_redirect_login))
      else if String.eqb (method request) "POST" then
        match get_by_posted_id_or_404 subject_id (λ _, True) (subjects db)
                (POST request !! "subject_id") with
        | Raise e => (db, Raise e)
        | Ok subject =>
        match get_by_posted_id_or_404 class_id (λ _, True) (classes db)
                (POST request !! "class_id") with
        | Raise e => (db, Raise e)
        | Ok school_class =>
        match
          (if String.eqb (role request_user) "admin" then
             get_by_posted_id_or_404 user_id (λ u, role u = "teacher") (users db)
               (POST request !! "teacher_id")
           else Ok request_user)
        with
        | Raise e => (db, Raise e)
        | Ok teacher =>
            match get_or_create
                    {| ts_teacher := user_id teacher;
                       ts_subject := subject_id subject;
                       ts_school_class := class_id school_class |} db with
            | (db, Ok _) => (db, Ok (basic assignment_saved))
            | (db, Raise e) => (db, Raise e)
            end
        end end end
      else
        (db, Ok (page "teachers/teacher_subjects_manage.html"
                   (assignments_context
                      (String.eqb (role request_user) "admin")
                      (if String.eqb (role request_user) "teacher"
                       then filter (λ ts, ts_teacher ts = user_id request_user)
                              (teacher_subjects db)
                       else teacher_subjects db))))
  end.

(** A canvas of the PDF library: the pages closed so far and the page
    being drawn.  [drawString] adds to the page being drawn, [showPage]
    closes it and starts an empty one; fonts are left out. *)
Record Canvas := {
  finished : list (list drawn);
  current : list drawn;
}.

Definition new_canvas : Canvas := {| finished := []; current := [] |}.

Definition drawString (d : drawn) (p : Canvas) : Canvas :=
  {| finished := finished p; current := current p ++ [d] |}.

Definition showPage (p : Canvas) : Canvas :=
  {| finished := finished p ++ [current p]; current := [] |}.

(** The loop [for mark in marks] of [class_marks_pdf]; the two strings
    of a row are drawn at the same height. *)
Fixpoint draw_marks (height : Q) (marks : list Mark) (y : Q) (p : Canvas) : Canvas :=
  match marks with
  | [] => p
  | mark :: marks =>
      let p := drawString (mark_row y mark) p in
      let y := (y - 20)%Q in
      if Qlt_le_dec y 100 then
        draw_marks height marks (height - 100)%Q (showPage p)
      else
        draw_marks height marks y p
  end.

(** [class_marks_pdf]; [height] is the height of the page size [A4] of
    the PDF library. *)
Definition class_marks_pdf (height : Q) (request : HttpRequest)
    (class_id_ subject_id_ : Z) (db : DB) : result Response :=
  match user request with
  | None => Ok (basic login_required_redirect)
  | Some request_user =>
      if negb (String.eqb (role request_user) "teacher") then
        Ok (basic (redirect "progressive_app:dashboard" [msg_error "Access denied."]))
      else
        (try! school_class :=
           get_object_or_404 (λ c, class_id c = class_id_) (classes db) in
         try! subject :=
           get_object_or_404 (λ s, subject_id s = subject_id_) (subjects db) in
         if negb (bool_decide (Exists (λ ts,
              ts_teacher ts = user_id request_user ∧
              ts_subject ts = subject_id subject ∧
              ts_school_class ts = class_id school_class) (teacher_subjects db)))
         then
           Ok (basic (redirect "progressive_app:dashboard"
                        [msg_error "Not authorized for this class/subject."]))
         else
           let marks :=
             filter (λ m, models.school_class m = class_id school_class ∧
                          models.subject m = subject_id subject ∧
                          teacher m = user_id request_user) (marks db) in
           let p := new_canvas in
           let p := drawString
                      (text_at 50 (height - 50)
                         ("Marks Report - " +:+ class_name school_class +:+ " ("
                            +:+ subject_name subject +:+ ")")) p in
           let y := (height - 100)%Q in
           let p := drawString (text_at 50 y "Student") p in
           let p := drawString (text_at 300 y "Score") p in
           let y := (y - 20)%Q in
           let p := draw_marks height marks y p in
           let p := showPage p in
           Ok (pdf_pages
                 ("class_" +:+ Py.str (class_id school_class) +:+ "_"
                    +:+ subject_name subject +:+ "_marks.pdf")
                 (finished p)))%result
  end.

(** The marks of the rows of a document, page after page, and the
    heights of the rows of a page. *)
Definition rows_of (pages : list (list drawn)) : list Mark :=
  omap (λ d, match d with mark_row _ m => Some m | _ => None end) (concat pages).

Definition row_positions (page : list drawn) : list Q :=
  omap (λ d, match d with mark_row y _ => Some y | _ => None end) page.

(** Each row lies 20 below the one before it. *)
Definition spaced (ys : list Q) : Prop :=
  ∀ i y y', ys !! i = Some y → ys !! S i = Some y' → y' = (y - 20)%Q.

(** A page whose rows lie between the bottom margin and the top one,
    20 apart. *)
Definition within_margins (height : Q) (page : list drawn) : Prop :=
  Forall (λ y, (100 <= y)%Q ∧ (y <= height - 100)%Q) (row_positions page) ∧
  spaced (row_positions page).

(** What the loop keeps: finished pages and the page being drawn are
    within the margins, the next row fits, and it comes 20 below the
    last one of the page. *)
Definition ready (height y : Q) (p : Canvas) : Prop :=
  ((100 <= y)%Q ∧ (y <= height - 100)%Q) ∧
  Forall (within_margins height) (finished p) ∧
  within_margins height (current p) ∧
  ∀ y0, last (row_positions (current p)) = Some y0 → y = (y0 - 20)%Q.

(** The document of an answer, and its file name. *)
Definition pages_of (answer : result Response) : list (list drawn) :=
  match answer with
  | Ok (pdf_pages _ pages) => pages
  | _ => []
  end.

Definition file_name_of (answer : result Response) : string :=
  match answer with
  | Ok (pdf_pages name _) => name
  | _ => ""
  end.

(** Uma's class with 32 marks in subject 1. *)
Definition db_full_class : DB :=
  DB_set_marks (replicate 32 (sample_mark 2 1 6 1 1 (Py.Num 64) (Some "D")))
    db_school.

(** ** backends.py *)

Section EmailBackend.
(** [user.check_password] and [ModelBackend.user_can_authenticate] are
    the framework's. *)
Context (check_password : User → string → bool).
Context (user_can_authenticate : User → bool).

(** [EmailBackend.authenticate]: [None] for no user, and the exception
    of [User.objects.get] that the handler does not catch. *)
Definition authenticate (email password : option string) (db : DB)
    : result (option User) :=
  if negb (truthy email) || negb (truthy password) then Ok None
  else
    match filter (λ u, models.email u = default "" email) (users db) with
    | [] => Ok None
    | [user] =>
        if check_password user (default "" password) && user_can_authenticate user
        then Ok (Some user)
        else Ok None
    | _ :: _ :: _ => Raise MultipleObjectsReturned
    end.
End EmailBackend.

(** Two accounts with one address. *)
Definition db_shared_email : DB :=
  DB_set_users
    [sample_user 5 "teacher" None "tom" None;
     {| user_id := 7; role := "teacher"; admission_number := None;
        username := "tom2"; first_name := "tom"; last_name := "";
        email := "tom@school"; user_school_class := None |}] empty_db.

(** [marks.filter(column=value)] under [if value:]: a blank or absent
    value filters nothing; the column converts the value with [int]. *)
Definition filter_by_id (column : Mark → Z) (value : option string)
    (marks : list Mark) : result (list Mark) :=
  if truthy value then
    match Py.int (default "" value) with
    | Some n => Ok (filter (λ m, column m = n) marks)
    | None => Raise ValueError
    end
  else Ok marks.

(** [teachers_results], as the second definition of that name in
    views.py has it (it replaces the first); [query] is [request.GET]. *)
Definition teachers_results (request : HttpRequest) (query : gmap string string)
    (db : DB) : result Response :=
  match user request with
  | None => Ok (basic login_required_redirect)
  | Some request_user =>
      if negb (String.eqb (role request_user) "teacher") then
        Ok (basic (redirect "progressive_app:dashboard" []))
      else
        let marks := filter (λ m, teacher m = user_id request_user) (marks db) in
        let subject_id := query !! "subject" in
        let class_id := query !! "class" in
        let semester_id := query !! "semester" in
        (try! marks := filter_by_id subject subject_id marks in
         try! marks := filter_by_id school_class class_id marks in
         try! marks := filter_by_id semester semester_id marks in
         Ok (page "teachers/teachers_results.html"
               (results_context marks (subjects db) (classes db) (semesters db))))%result
  end.

(** A mark passes the filter that the query gives under [key]. *)
Definition passes (query : gmap string string) (key : string) (column : Mark → Z)
    (m : Mark) : Prop :=
  ∀ s, query !! key = Some s → s ≠ "" → Py.int s = Some (column m).

(** ** Semesters and their dates *)

Definition is_leap (y : Z) : bool :=
  (y mod 4 =? 0) && (negb (y mod 100 =? 0) || (y mod 400 =? 0)).

Definition days_in_month (y m : Z) : Z :=
  if m =? 2 then (if is_leap y then 29 else 28)
  else if (m =? 4) || (m =? 6) || (m =? 9) || (m =? 11) then 30
  else 31.

(** A decimal digit between [lo] and [hi]. *)
Definition digit_between (lo hi : Z) (c : ascii) : bool :=
  Py.isdigit c && (lo <=? Py.digit_value c) && (Py.digit_value c <=? hi).

(** The directive [%Y]: four digits. *)
Definition parse_year (s : string) : option (Z * string) :=
  match s with
  | String a (String b (String c (String d rest))) =>
      if Py.isdigit a && Py.isdigit b && Py.isdigit c && Py.isdigit d then
        Some (1000 * Py.digit_value a + 100 * Py.digit_value b
              + 10 * Py.digit_value c + Py.digit_value d, rest)
      else None
  | _ => None
  end.

(** The directive [%m]: [1[0-2]], or [0[1-9]], or [[1-9]], the first
    that matches. *)
Definition parse_month (s : string) : option (Z * string) :=
  match s with
  | String a rest =>
      let one_digit :=
        if digit_between 1 9 a then Some (Py.digit_value a, rest) else None in
      match rest with
      | String b rest' =>
          if Ascii.eqb a "1" && digit_between 0 2 b then
            Some (10 + Py.digit_value b, rest')
          else if Ascii.eqb a "0" && digit_between 1 9 b then
            Some (Py.digit_value b, rest')
          else one_digit
      | EmptyString => one_digit
      end
  | EmptyString => None
  end.

(** The directive [%d]: [3[01]], or [[12]] and a digit, or [0[1-9]], or
    [[1-9]], or a space and [[1-9]], the first that matches. *)
Definition parse_day (s : string) : option (Z * string) :=
  match s with
  | String a rest =>
      let one_digit :=
        if digit_between 1 9 a then Some (Py.digit_value a, rest) else None in
      match rest with
      | String b rest' =>
          if Ascii.eqb a "3" && digit_between 0 1 b then
            Some (30 + Py.digit_value b, rest')
          else if digit_between 1 2 a && Py.isdigit b then
            Some (10 * Py.digit_value a + Py.digit_value b, rest')
          else if Ascii.eqb a "0" && digit_between 1 9 b then
            Some (Py.digit_value b, rest')
          else if digit_between 1 9 a then one_digit
          else if Ascii.eqb a " " && digit_between 1 9 b then
            Some (Py.digit_value b, rest')
          else None
      | EmptyString => one_digit
      end
  | EmptyString => None
  end.

Definition expect_dash (s : string) : option string :=
  match s with
  | String c rest => if Ascii.eqb c "-" then Some rest else None
  | EmptyString => None
  end.

(** [datetime.strptime(s, "%Y-%m-%d").date()]: [None] stands for
    [ValueError], raised when the string does not match, when something
    follows the day, or when the calendar has no such day. *)
Definition strptime_date (s : string) : option date :=
  '(y, s) ← parse_year s;
  s ← expect_dash s;
  '(m, s) ← parse_month s;
  s ← expect_dash s;
  '(d, s) ← parse_day s;
  if String.eqb s "" && (1 <=? y) && (d <=? days_in_month y m)
  then Some {| year := y; month := m; day := d |}
  else None.

(** [a > b] on dates. *)
Definition date_gtb (a b : date) : bool :=
  (year b <? year a) ||
  ((year a =? year b) &&
   ((month b <? month a) || ((month a =? month b) && (day b <? day a)))).

(** [request.POST.get(key, "").strip()]. *)
Definition posted (request : HttpRequest) (key : string) : string :=
  Py.strip (default "" (POST request !! key)).

(** The checks that [semester_create] and [semester_edit] share: the
    name and the two dates, or the message of the check that fails. *)
Definition semester_form (request : HttpRequest) : (string * date * date) + string :=
  let name := posted request "name" in
  let start_date := posted request "start_date" in
  let end_date := posted request "end_date" in
  if String.eqb name "" || String.eqb start_date "" || String.eqb end_date "" then
    inr "Name, start date, and end date are required."
  else
    match strptime_date start_date, strptime_date end_date with
    | Some sd, Some ed =>
        if date_gtb sd ed then inr "Start date cannot be after end date."
        else inl (name, sd, ed)
    | _, _ => inr "Dates must be in YYYY-MM-DD format."
    end.

(** [semester_create]; [new_id] is the key that the database gives the
    new row. *)
Definition semester_create (request : HttpRequest) (new_id : Z)
    (terms : list Term) : list Term * Response :=
  match user request with
  | None => (terms, basic login_required_redirect)
  | Some request_user =>
      if negb (require_role request_user ["admin"]) then
        (terms, basic forbid_or_redirect_login)
      else if String.eqb (method request) "POST" then
        match semester_form request with
        | inr text =>
            (terms, basic (redirect "progressive_app:semester_create"
                             [msg_error text]))
        | inl (name, sd, ed) =>
            (terms ++ [{| term_id := new_id; term_name := name;
                          start_date := sd; end_date := ed |}],
             basic (redirect "progressive_app:semesters_list"
                      [msg_success ("Semester '" +:+ name +:+ "' created.")]))
        end
      else
        (terms, page "admin/semester_form.html" (form_context "Add Semester" None))
  end.

Definition semester_edit (request : HttpRequest) (pk : Z) (terms : list Term)
    : list Term * result Response :=
  match user request with
  | None => (terms, Ok (basic login_required_redirect))
  | Some request_user =>
      if negb (require_role request_user ["admin"]) then
        (terms, Ok (basic forbid_or_redirect_login))
      else
        match get_object_or_404 (λ t, term_id t = pk) terms with
        | Raise e => (terms, Raise e)
        | Ok semester =>
            if String.eqb (method request) "POST" then
              match semester_form request with
              | inr text =>
                  (terms, Ok (redirect_with "progressive_app:semester_edit" pk
                                [msg_error text]))
              | inl (name, sd, ed) =>
                  ((λ t, if decide (term_id t = pk)
                         then {| term_id := term_id semester; term_name := name;
                                 start_date := sd; end_date := ed |}
                         else t) <$> terms,
                   Ok (basic (redirect "progressive_app:semesters_list"
                                [msg_success "Semester updated successfully."])))
              end
            else
              (terms, Ok (page "admin/semester_form.html"
                            (form_context "Edit Semester" (Some semester))))
        end
  end.

(** A semester that does not end before it starts. *)
Definition in_order (t : Term) : Prop :=
  date_gtb (start_date t) (end_date t) = false.

(** * Properties *)

(** ** The score column *)

Lemma round_half_even_floor (q : Q) :
  round_half_even q = Qfloor q ∨ round_half_even q = Qfloor q + 1.
Proof.
  unfold round_half_even. destruct (_ ?= _)%Q; [|auto..].
  destruct (Z.even _); auto.
Qed.

Lemma round_half_even_Z (n : Z) : round_half_even (inject_Z n) = n.
Proof.
  unfold round_half_even. rewrite Qfloor_Z.
  assert (E : (inject_Z n - inject_Z n ?= 1 # 2)%Q = Lt).
  { apply (proj1 (Qlt_alt _ _)). generalize (inject_Z n). intros x. lra. }
  by rewrite E.
Qed.

Lemma round_half_even_mono (q1 q2 : Q) :
  (q1 <= q2)%Q → round_half_even q1 ≤ round_half_even q2.
Proof.
  intros L. pose proof (Qfloor_resp_le _ _ L) as F.
  destruct (decide (Qfloor q1 = Qfloor q2)) as [E|N].
  - unfold round_half_even. rewrite E.
    destruct (q1 - inject_Z (Qfloor q2) ?= 1 # 2)%Q eqn:C1;
    destruct (q2 - inject_Z (Qfloor q2) ?= 1 # 2)%Q eqn:C2;
    try (destruct (Z.even _)); try lia; exfalso;
    repeat match goal with
    | C : (_ ?= _)%Q = Eq |- _ => apply (proj2 (Qeq_alt _ _)) in C
    | C : (_ ?= _)%Q = Lt |- _ => apply (proj2 (Qlt_alt _ _)) in C
    | C : (_ ?= _)%Q = Gt |- _ => apply (proj2 (Qgt_alt _ _)) in C
    end; lra.
  - destruct (round_half_even_floor q1) as [-> | ->],
             (round_half_even_floor q2) as [-> | ->]; lia.
Qed.

Lemma round_half_even_between (a b : Z) (q : Q) :
  (inject_Z a <= q)%Q → (q <= inject_Z b)%Q →
  a ≤ round_half_even q ≤ b.
Proof.
  intros A B. split.
  - rewrite <- (round_half_even_Z a). by apply round_half_even_mono.
  - rewrite <- (round_half_even_Z b). by apply round_half_even_mono.
Qed.

Lemma leading_up_le (fuel : nat) (n k : Z) :
  0 ≤ k → n < 10 ^ (k + 1) → leading_up fuel n ≤ k.
Proof.
  revert n k. induction fuel as [|fuel IH]; intros n k K L; simpl; [done|].
  destruct (Z.ltb_spec n 10) as [|G]; [done|].
  assert (1 ≤ k).
  { destruct (decide (k = 0)) as [->|]; [simpl in L; lia|lia]. }
  specialize (IH (n / 10) (k - 1)).
  assert (n / 10 < 10 ^ (k - 1 + 1)).
  { apply Z.div_lt_upper_bound; [lia|].
    replace (k - 1 + 1) with k by lia.
    rewrite <- Z.pow_succ_r by lia. by replace (Z.succ k) with (k + 1) by lia. }
  lia.
Qed.

Lemma leading_down_le (fuel : nat) (q : Q) : leading_down fuel q ≤ 0.
Proof.
  revert q. induction fuel as [|fuel IH]; intros q; simpl; [done|].
  destruct (Qle_bool _ _); [done|]. specialize (IH (q * 10)%Q). lia.
Qed.

Lemma adjusted_le (q : Q) : (Qabs q < 1000)%Q → adjusted q ≤ 2.
Proof.
  intros L. unfold adjusted. destruct (Qle_bool 1 (Qabs q)).
  - apply leading_up_le; [done|]. change (10 ^ (2 + 1)) with 1000.
    pose proof (Qfloor_le (Qabs q)) as F.
    assert (inject_Z (Qfloor (Qabs q)) < inject_Z 1000)%Q as I
      by (eapply Qle_lt_trans; [exact F|exact L]).
    by rewrite <- Zlt_Qlt in I.
  - pose proof (leading_down_le (Pos.to_nat (Pos.size (Qden (Qabs q)))) (Qabs q)).
    lia.
Qed.

Lemma leading_up_spec (fuel : nat) (n : Z) :
  1 ≤ n → n < 2 ^ Z.of_nat fuel →
  0 ≤ leading_up fuel n ∧
  10 ^ leading_up fuel n ≤ n < 10 ^ (leading_up fuel n + 1).
Proof.
  revert n. induction fuel as [|fuel IH]; intros n N L.
  { simpl in L. lia. }
  cbn [leading_up]. destruct (Z.ltb_spec n 10) as [|G]; [simpl; lia|].
  rewrite Nat2Z.inj_succ, Z.pow_succ_r in L by lia.
  destruct (IH (n / 10)) as (P & Lo & Hi).
  - apply Z.div_le_lower_bound; lia.
  - apply Z.div_lt_upper_bound; lia.
  - pose proof (Z.div_mod n 10 ltac:(lia)) as D.
    pose proof (Z.mod_pos_bound n 10 ltac:(lia)) as M.
    split; [lia|].
    replace (1 + leading_up fuel (n / 10) + 1)
      with (Z.succ (leading_up fuel (n / 10) + 1)) by lia.
    replace (1 + leading_up fuel (n / 10))
      with (Z.succ (leading_up fuel (n / 10))) by lia.
    rewrite !Z.pow_succ_r by lia. lia.
Qed.

Lemma pow10_succ (e : Z) : (pow10 (e + 1) == 10 * pow10 e)%Q.
Proof.
  unfold pow10.
  destruct (Z.leb_spec 0 e) as [P|N].
  - destruct (Z.leb_spec 0 (e + 1)); [|lia].
    replace (e + 1) with (Z.succ e) by lia.
    rewrite Z.pow_succ_r by lia. by rewrite inject_Z_mult.
  - destruct (Z.leb_spec 0 (e + 1)) as [P'|N'].
    + assert (e = -1) as -> by lia. reflexivity.
    + replace (- e) with (Z.succ (- (e + 1))) by lia.
      rewrite Z.pow_succ_r by lia. rewrite inject_Z_mult.
      assert (I : (0 < inject_Z (10 ^ (- (e + 1))))%Q).
      { change 0%Q with (inject_Z 0). rewrite <- Zlt_Qlt.
        apply Z.pow_pos_nonneg; lia. }
      change (inject_Z 10) with 10%Q. field. lra.
Qed.

Lemma pow10_pred (e : Z) : (pow10 e == 10 * pow10 (-1 + e))%Q.
Proof. rewrite <- pow10_succ. by replace (-1 + e + 1) with e by lia. Qed.

Lemma leading_down_spec (fuel : nat) (a : Q) :
  (0 < a)%Q → (a < 1)%Q → (1 <= a * inject_Z (2 ^ Z.of_nat fuel))%Q →
  (pow10 (leading_down fuel a) <= a)%Q ∧
  (a < pow10 (leading_down fuel a + 1))%Q.
Proof.
  revert a. induction fuel as [|fuel IH]; intros a P L F.
  { change (inject_Z (2 ^ Z.of_nat 0)) with 1%Q in F. lra. }
  cbn [leading_down]. destruct (Qle_bool 1 (a * 10)) eqn:B.
  - apply Qle_bool_iff in B. change (pow10 (-1)) with (1 # 10)%Q.
    change (pow10 (-1 + 1)) with 1%Q. split; lra.
  - assert (B' : (a * 10 < 1)%Q).
    { apply Qnot_le_lt. intros B'. apply Qle_bool_iff in B'. congruence. }
    rewrite Nat2Z.inj_succ, Z.pow_succ_r, inject_Z_mult in F by lia.
    change (inject_Z 2) with 2%Q in F.
    assert (I : (0 < inject_Z (2 ^ Z.of_nat fuel))%Q).
    { change 0%Q with (inject_Z 0). rewrite <- Zlt_Qlt.
      apply Z.pow_pos_nonneg; lia. }
    destruct (IH (a * 10)%Q) as [Lo Hi]; [lra|lra| |].
    + revert F I. generalize (inject_Z (2 ^ Z.of_nat fuel)). intros t F I.
      assert (0 <= a * t)%Q by (apply Qmult_le_0_compat; lra). lra.
    + replace (-1 + leading_down fuel (a * 10) + 1)
        with (leading_down fuel (a * 10)) by lia.
      rewrite pow10_succ in Hi.
      rewrite (pow10_pred (leading_down fuel (a * 10))) in Lo.
      split; lra.
Qed.

(** The exponent of the leading digit is the right one: the fuel of
    the two counts is enough. *)
Lemma adjusted_spec (q : Q) :
  ¬ (q == 0)%Q →
  (pow10 (adjusted q) <= Qabs q)%Q ∧ (Qabs q < pow10 (adjusted q + 1))%Q.
Proof.
  intros N. unfold adjusted.
  assert (P : (0 < Qabs q)%Q).
  { destruct (Qlt_le_dec 0 (Qabs q)) as [|L]; [done|].
    exfalso. apply N. apply Qabs_Qle_condition in L. lra. }
  destruct (Qle_bool 1 (Qabs q)) eqn:B.
  - apply Qle_bool_iff in B.
    assert (F : 1 ≤ Qfloor (Qabs q)).
    { change 1 with (Qfloor 1). by apply Qfloor_resp_le. }
    destruct (leading_up_spec (S (Z.to_nat (Z.log2 (Qfloor (Qabs q)))))
                (Qfloor (Qabs q)) F) as (E & Lo & Hi).
    { rewrite Nat2Z.inj_succ, Z2Nat.id by apply Z.log2_nonneg.
      apply Z.log2_spec. lia. }
    revert E Lo Hi.
    generalize (leading_up (S (Z.to_nat (Z.log2 (Qfloor (Qabs q)))))
                  (Qfloor (Qabs q))).
    intros l E Lo Hi.
    unfold pow10.
    destruct (Z.leb_spec 0 l); [|lia]. destruct (Z.leb_spec 0 (l + 1)); [|lia].
    pose proof (Qfloor_le (Qabs q)) as F1. pose proof (Qlt_floor (Qabs q)) as F2.
    split.
    + eapply Qle_trans; [|exact F1]. by rewrite <- Zle_Qle.
    + eapply Qlt_le_trans; [exact F2|]. rewrite <- Zle_Qle. lia.
  - assert (B' : (Qabs q < 1)%Q).
    { apply Qnot_le_lt. intros B'. apply Qle_bool_iff in B'. congruence. }
    apply leading_down_spec; [done|done|].
    rewrite positive_nat_Z.
    pose proof (Pos.size_gt (Qden (Qabs q))) as S.
    destruct (Qabs q) as [n d] eqn:A. simpl in *.
    unfold Qlt in P. simpl in P. unfold Qle, Qmult. simpl.
    assert (Z.pos d < 2 ^ Z.pos (Pos.size d)).
    { rewrite <- Pos2Z.inj_pow. lia. }
    nia.
Qed.

Lemma pow10_neg (k : Z) : 0 < k → pow10 (- k) = (/ inject_Z (10 ^ k))%Q.
Proof.
  intros K. unfold pow10. destruct (Z.leb_spec 0 (- k)); [lia|].
  by rewrite Z.opp_involutive.
Qed.

Lemma create_decimal_in_range (q : Q) :
  (- (99999 # 100) <= q)%Q → (q <= 99999 # 100)%Q →
  (- (99999 # 100) <= create_decimal_from_float 5 q)%Q ∧
  (create_decimal_from_float 5 q <= 99999 # 100)%Q.
Proof.
  intros Lo Hi. unfold create_decimal_from_float.
  destruct (Qeq_bool q 0); [done|].
  assert (A : adjusted q ≤ 2).
  { apply adjusted_le. apply Qabs_Qlt_condition. split; lra. }
  set (k := - (adjusted q - (5 - 1))).
  replace (adjusted q - (5 - 1)) with (- k) by lia.
  assert (K : 2 ≤ k) by lia.
  rewrite pow10_neg by lia.
  set (p := 10 ^ (k - 2)).
  assert (P : 0 < p) by (apply Z.pow_pos_nonneg; lia).
  assert (E : 10 ^ k = 100 * p).
  { unfold p. replace k with (2 + (k - 2)) at 1 by lia.
    rewrite Z.pow_add_r by lia. done. }
  rewrite E.
  assert (I : (0 < inject_Z p)%Q).
  { change 0%Q with (inject_Z 0). by rewrite <- Zlt_Qlt. }
  assert (E2 : (inject_Z (100 * p) == 100 * inject_Z p)%Q)
    by (by rewrite inject_Z_mult).
  assert (E3 : (q / / inject_Z (100 * p) == q * (100 * inject_Z p))%Q).
  { rewrite E2. field. lra. }
  destruct (round_half_even_between (- (99999 * p)) (99999 * p)
              (q / / inject_Z (100 * p))) as [B1 B2].
  - rewrite E3, inject_Z_opp, inject_Z_mult.
    change (inject_Z 99999) with 99999%Q. revert I. generalize (inject_Z p).
    intros s I.
    assert (0 <= (q + (99999 # 100)) * (100 * s))%Q
      by (apply Qmult_le_0_compat; lra).
    lra.
  - rewrite E3, inject_Z_mult.
    change (inject_Z 99999) with 99999%Q. revert I. generalize (inject_Z p).
    intros s I.
    assert (0 <= ((99999 # 100) - q) * (100 * s))%Q
      by (apply Qmult_le_0_compat; lra).
    lra.
  - revert B1 B2.
    generalize (round_half_even (q / / inject_Z (100 * p))). intros n B1 B2.
    rewrite Zle_Qle, inject_Z_opp, inject_Z_mult in B1.
    rewrite Zle_Qle, inject_Z_mult in B2.
    change (inject_Z 99999) with 99999%Q in B1, B2.
    rewrite E2. clear E2 E3. revert I B1 B2.
    generalize (inject_Z p), (inject_Z n). intros s r I B1 B2.
    assert (Es : (r * / (100 * s) == r / (100 * s))%Q) by reflexivity.
    rewrite Es. split.
    + apply Qle_shift_div_l; lra.
    + apply Qle_shift_div_r; lra.
Qed.

Lemma quantize_in_range (d : Q) :
  (- (99999 # 100) <= d)%Q → (d <= 99999 # 100)%Q →
  ∃ x, quantize 5 2 d = Ok x.
Proof.
  intros Lo Hi. unfold quantize.
  destruct (round_half_even_between (- 99999) 99999 (d * pow10 2)) as [B1 B2].
  - change (pow10 2) with 100%Q. change (inject_Z (- 99999)) with (- 99999)%Q. lra.
  - change (pow10 2) with 100%Q. change (inject_Z 99999) with 99999%Q. lra.
  - destruct (Z.leb_spec (10 ^ 5) (Z.abs (round_half_even (d * pow10 2))));
      [|eauto]. change (10 ^ 5) with 100000 in *. lia.
Qed.

(** The column on some floats: 89.999 goes to 90.00; 89.9949 goes to
    89.995 with five digits, and from there to 90.00; 999.99 is the
    largest value, 1000 has too many digits; [nan] and the infinities
    are refused. *)
Example column_value_rounds :
  column_value (89999 # 1000) = Ok (Py.Num (9000 # 100)) ∧
  column_value (899949 # 10000) = Ok (Py.Num (9000 # 100)) ∧
  column_value (125 # 1000) = Ok (Py.Num (12 # 100)) ∧
  column_value (-5 # 1) = Ok (Py.Num (-500 # 100)).
Proof. vm_compute. repeat split. Qed.

Example column_value_refuses :
  column_value (99999 # 100) = Ok (Py.Num (99999 # 100)) ∧
  column_value (1000 # 1) = Raise InvalidOperation ∧
  column_value (999996 # 1000) = Raise InvalidOperation ∧
  column_value Py.nan = Raise ValidationError ∧
  column_value Py.inf = Raise ValidationError ∧
  column_value Py.neg_inf = Raise ValidationError.
Proof. vm_compute. repeat split. Qed.

(** A float between -999.99 and 999.99 is taken by the score column. *)
Lemma column_value_in_range (q : Q) :
  (- (99999 # 100) <= q)%Q → (q <= 99999 # 100)%Q →
  ∃ x : Q, column_value q = Ok (Py.Num x).
Proof.
  intros Lo Hi. unfold column_value, DecimalField_get_db_prep_save.
  cbn [DecimalField_to_python result_bind].
  destruct (create_decimal_in_range q Lo Hi) as [Lo' Hi'].
  destruct (quantize_in_range _ Lo' Hi') as [x ->]. by exists x.
Qed.

(** ** Grading *)

Section grading.
Context `{FloatParser}.

Lemma Qle_bool_false (x y : Q) : Qle_bool x y = false ↔ (y < x)%Q.
Proof.
  split.
  - intros E. apply Qnot_le_lt. intros L. apply Qle_bool_iff in L. congruence.
  - intros L. destruct (Qle_bool x y) eqn:E; [|done].
    apply Qle_bool_iff in E. exfalso. by apply (Qlt_not_le _ _ L).
Qed.

(** The two grading functions follow the bands of section 4.1. *)
Lemma calculate_grade_spec (m : Mark) (s : Q) :
  score m = Py.Num s → calculate_grade m = grade_of_score s.
Proof.
  intros E. unfold calculate_grade, grade_of_score. rewrite E.
  cbn [float Py.ge].
  repeat match goal with
  | |- context [Qle_bool ?k s] =>
      let E := fresh "E" in
      destruct (Qle_bool k s) eqn:E;
      [apply Qle_bool_iff in E | apply Qle_bool_false in E]
  end;
  repeat match goal with
  | |- context [Qlt_le_dec s ?k] => destruct (Qlt_le_dec s k)
  end;
  try reflexivity; exfalso;
  repeat match goal with
  | L : (_ <= _)%Q |- _ => unfold Qle in L; simpl in L
  | L : (_ < _)%Q |- _ => unfold Qlt in L; simpl in L
  end; lia.
Qed.

Lemma get_grade_and_gpa_spec (s : Q) :
  get_grade_and_gpa (Py.Num s)
  = Ok (grade_of_score s, grade_point (grade_of_score s)).
Proof.
  unfold get_grade_and_gpa, grade_of_score. cbn [float result_bind Py.ge].
  repeat match goal with
  | |- context [Qle_bool ?k s] =>
      let E := fresh "E" in
      destruct (Qle_bool k s) eqn:E;
      [apply Qle_bool_iff in E | apply Qle_bool_false in E]
  end;
  repeat match goal with
  | |- context [Qlt_le_dec s ?k] => destruct (Qlt_le_dec s k)
  end;
  try reflexivity; exfalso;
  repeat match goal with
  | L : (_ <= _)%Q |- _ => unfold Qle in L; simpl in L
  | L : (_ < _)%Q |- _ => unfold Qlt in L; simpl in L
  end; lia.
Qed.

Lemma grade_of_score_bands (s : Q) :
  (grade_of_score s = "A" ↔ (90 <= s)%Q) ∧
  (grade_of_score s = "B" ↔ (80 <= s)%Q ∧ (s < 90)%Q) ∧
  (grade_of_score s = "C" ↔ (70 <= s)%Q ∧ (s < 80)%Q) ∧
  (grade_of_score s = "D" ↔ (60 <= s)%Q ∧ (s < 70)%Q) ∧
  (grade_of_score s = "F" ↔ (s < 60)%Q).
Proof.
  unfold grade_of_score.
  repeat match goal with
  | |- context [Qlt_le_dec s ?k] => destruct (Qlt_le_dec s k)
  end;
  repeat match goal with
  | L : (_ <= _)%Q |- _ => unfold Qle in L; simpl in L
  | L : (_ < _)%Q |- _ => unfold Qlt in L; simpl in L
  end;
  unfold Qle, Qlt; simpl;
  repeat split; try discriminate; try lia; intros; try lia;
  repeat match goal with L : _ ∧ _ |- _ => destruct L end; lia.
Qed.

(** C1: a score in [0,100] is graded "A" iff it is at least 90, "B" iff
    it is in [80,90), "C" iff in [70,80), "D" iff in [60,70) and "F" iff
    below 60, by [Mark.calculate_grade] and by [get_grade_and_gpa] alike;
    the grade point returned by [get_grade_and_gpa] is 4 for "A", 3 for
    "B", 2 for "C", 1 for "D" and 0 for "F". *)
Theorem grade_letter_and_point (m : Mark) (s : Q) :
  (0 <= s)%Q → (s <= 100)%Q →
  let g := calculate_grade (Mark_set_score (Py.Num s) m) in
  (g = "A" ↔ (90 <= s)%Q) ∧
  (g = "B" ↔ (80 <= s)%Q ∧ (s < 90)%Q) ∧
  (g = "C" ↔ (70 <= s)%Q ∧ (s < 80)%Q) ∧
  (g = "D" ↔ (60 <= s)%Q ∧ (s < 70)%Q) ∧
  (g = "F" ↔ (s < 60)%Q) ∧
  ∃ p, get_grade_and_gpa (Py.Num s) = Ok (g, p) ∧
       (g = "A" → p = 4%Q) ∧ (g = "B" → p = 3%Q) ∧ (g = "C" → p = 2%Q) ∧
       (g = "D" → p = 1%Q) ∧ (g = "F" → p = 0%Q).
Proof.
  intros _ _ g.
  assert (Eg : g = grade_of_score s) by (by apply calculate_grade_spec).
  rewrite Eg.
  destruct (grade_of_score_bands s) as (HA & HB & HC & HD & HF).
  repeat (split; [assumption|]).
  exists (grade_point (grade_of_score s)).
  split; [apply get_grade_and_gpa_spec|].
  repeat split; intros ->; reflexivity.
Qed.

(** ** Saving a mark *)

Lemma column_value_finite (q : Q) (x : Py.value) :
  column_value q = Ok x → ∃ c : Q, x = Py.Num c.
Proof.
  unfold column_value, DecimalField_get_db_prep_save.
  cbn [DecimalField_to_python result_bind].
  destruct (quantize 5 2 _) as [r|e]; cbn [result_bind]; [|done].
  intros [= <-]. by exists r.
Qed.

Lemma column_value_not_finite (f : Py.number) (x : Py.value) :
  column_value f = Ok x → ∃ q : Q, f = q.
Proof. destruct f as [q| | |]; [eauto|done..]. Qed.

Lemma Mark_save_float how m f :
  Py.not_in_none_empty (score m) = true → float (score m) = Ok f →
  Mark_save how m
  = (try! row := Model_save how (graded f m) in Ok (graded f m, row))%result.
Proof. intros B F. unfold Mark_save. by rewrite B, F. Qed.

Lemma Mark_save_float_raises how m e :
  Py.not_in_none_empty (score m) = true → float (score m) = Raise e →
  Mark_save how m = Raise e.
Proof. intros B F. unfold Mark_save. by rewrite B, F. Qed.

Lemma Mark_save_blank how m :
  Py.not_in_none_empty (score m) = false →
  Mark_save how m
  = (try! row := Model_save how (Mark_set_grade None m) in
     Ok (Mark_set_grade None m, row))%result.
Proof. intros B. unfold Mark_save. by rewrite B. Qed.


(** A new row: every column is written. *)
Lemma Model_save_insert (m : Mark) (g : string) :
  grade m = Some g →
  Model_save insert m
  = (try! c := DecimalField_get_db_prep_save 5 2 (score m) in
     Ok (Mark_set_score c m))%result.
Proof.
  intros G. unfold Model_save. cbn [andb]. rewrite G.
  rewrite bool_decide_eq_false_2 by done.
  destruct (DecimalField_get_db_prep_save 5 2 (score m)); [|done].
  destruct m. simpl in G |- *. by subst.
Qed.

(** The row found by [update_or_create]: the score is written, and
    nothing else. *)
Lemma Model_save_update_score (stored m : Mark) :
  Model_save (update stored (Some ["score"; "date_recorded"])) m
  = (try! c := DecimalField_get_db_prep_save 5 2 (score m) in
     Ok (Mark_set_score c stored))%result.
Proof.
  unfold Model_save.
  rewrite (bool_decide_eq_true_2 ("score" ∈ ["score"; "date_recorded"]))
    by (by left).
  rewrite !bool_decide_eq_false_2
    by (intros I; repeat (apply elem_of_cons in I as [I|I]; [discriminate I|]);
        by apply elem_of_nil in I).
  cbn [andb]. by destruct stored.
Qed.

Lemma Mark_save_insert_string (obj : Mark) (v : string) (g : string) o row :
  v ≠ "" →
  Mark_save insert (Mark_set_grade (Some g) (Mark_set_score (Py.Str v) obj))
  = Ok (o, row) →
  ∃ q c : Q, float_of_string v = Some (Py.finite q) ∧
             column_value q = Ok (Py.Num c) ∧
             row = row_of (five_tuple obj) c (grade_of_score q).
Proof.
  intros V. destruct v as [|a v]; [done|].
  destruct (float_of_string (String a v)) as [f|] eqn:F.
  - rewrite (Mark_save_float _ _ f); [|done|by cbn [float score Mark_set_grade Mark_set_score]; rewrite F].
    destruct (Model_save insert _) as [r|e] eqn:S; [|done].
    intros [= <- <-]. rewrite (Model_save_insert _ (calculate_grade
      (Mark_set_score (Py.Num f) (Mark_set_grade (Some g)
         (Mark_set_score (Py.Str (String a v)) obj))))) in S by done.
    cbn [score graded Mark_set_grade Mark_set_score] in S.
    fold (column_value f) in S.
    destruct (column_value f) as [x|e] eqn:C; [|done].
    destruct (column_value_not_finite _ _ C) as [q ->].
    destruct (column_value_finite _ _ C) as [c ->].
    injection S as <-. exists q, c. split; [done|]. split; [done|].
    unfold row_of, five_tuple, Mark_set_score, Mark_set_grade.
    destruct obj; simpl. do 2 f_equal. by apply calculate_grade_spec.
  - rewrite (Mark_save_float_raises _ _ ValueError); [done|done|].
    cbn [float score Mark_set_grade Mark_set_score]. by rewrite F.
Qed.

Lemma Mark_save_update_string (obj : Mark) (v : string) o row :
  v ≠ "" →
  Mark_save (update obj (Some ["score"; "date_recorded"]))
    (Mark_set_score (Py.Str v) obj) = Ok (o, row) →
  ∃ q c : Q, float_of_string v = Some (Py.finite q) ∧
             column_value q = Ok (Py.Num c) ∧
             row = Mark_set_score (Py.Num c) obj.
Proof.
  intros V. destruct v as [|a v]; [done|].
  destruct (float_of_string (String a v)) as [f|] eqn:F.
  - rewrite (Mark_save_float _ _ f); [|done|by cbn [float score Mark_set_score]; rewrite F].
    rewrite Model_save_update_score.
    cbn [score graded Mark_set_grade Mark_set_score].
    fold (column_value f).
    destruct (column_value f) as [x|e] eqn:C; [|done].
    destruct (column_value_not_finite _ _ C) as [q ->].
    destruct (column_value_finite _ _ C) as [c ->].
    intros [= <- <-]. by exists q, c.
  - rewrite (Mark_save_float_raises _ _ ValueError); [done|done|].
    cbn [float score Mark_set_score]. by rewrite F.
Qed.

(** A string that [float] reads as a number that the column takes is
    saved, as a new row and over a row. *)
Lemma Mark_save_insert_completes (obj : Mark) (v g : string) (q c : Q) :
  v ≠ "" → float_of_string v = Some (Py.finite q) →
  column_value q = Ok (Py.Num c) →
  ∃ o, Mark_save insert (Mark_set_grade (Some g) (Mark_set_score (Py.Str v) obj))
       = Ok (o, row_of (five_tuple obj) c (grade_of_score q)).
Proof.
  intros V F C. destruct v as [|a v]; [done|].
  rewrite (Mark_save_float _ _ q);
    [|done|by cbn [float score Mark_set_grade Mark_set_score]; rewrite F].
  rewrite (Model_save_insert _ (calculate_grade
    (Mark_set_score (Py.Num q) (Mark_set_grade (Some g)
       (Mark_set_score (Py.Str (String a v)) obj))))) by done.
  cbn [score graded Mark_set_grade Mark_set_score].
  fold (column_value q). rewrite C. cbn [result_bind]. eexists. do 2 f_equal.
  unfold row_of, five_tuple, Mark_set_score, Mark_set_grade.
  destruct obj; simpl. do 2 f_equal. by apply calculate_grade_spec.
Qed.

Lemma Mark_save_update_completes (obj : Mark) (v : string) (q c : Q) :
  v ≠ "" → float_of_string v = Some (Py.finite q) →
  column_value q = Ok (Py.Num c) →
  ∃ o, Mark_save (update obj (Some ["score"; "date_recorded"]))
         (Mark_set_score (Py.Str v) obj)
       = Ok (o, Mark_set_score (Py.Num c) obj).
Proof.
  intros V F C. destruct v as [|a v]; [done|].
  rewrite (Mark_save_float _ _ q);
    [|done|by cbn [float score Mark_set_score]; rewrite F].
  rewrite Model_save_update_score.
  cbn [score graded Mark_set_grade Mark_set_score].
  fold (column_value q). rewrite C. cbn [result_bind]. by eexists.
Qed.

(** A string that [float] rejects is not saved, whatever the way. *)
Lemma Mark_save_rejected how (obj : Mark) (v : string) :
  v ≠ "" → float_of_string v = None →
  Mark_save how (Mark_set_score (Py.Str v) obj) = Raise ValueError.
Proof.
  intros V F. destruct v as [|a v]; [done|].
  apply Mark_save_float_raises; [done|].
  cbn [float score Mark_set_score]. by rewrite F.
Qed.




(** C5: [get_grade_and_gpa] has no handler around [float]: a null score
    makes it raise [TypeError], and a string that [float] rejects
    [ValueError], where [Mark.calculate_grade], which has the handler,
    answers "F".  On the side of the store, a mark without a score is
    not saved with a null grade: the save raises [IntegrityError]. *)
Theorem report_grading_of_missing_score :
  get_grade_and_gpa Py.None_ = Raise TypeError ∧
  calculate_grade null_mark = "F" ∧
  (∀ v, match float_of_string v with
        | Some _ => True
        | None =>
            get_grade_and_gpa (Py.Str v) = Raise ValueError ∧
            calculate_grade (Mark_set_score (Py.Str v) null_mark) = "F"
        end) ∧
  Mark_save insert null_mark = Raise IntegrityError.
Proof.
  do 2 (split; [reflexivity|]). split; [|reflexivity].
  intros v. destruct (float_of_string v) eqn:E; [done|].
  unfold get_grade_and_gpa, calculate_grade. simpl. by rewrite E.
Qed.

End grading.

(** C7: a mark without a score is not stored with a null grade.
    [Mark.save] sets its grade to [None], and the framework's save fails
    on the column [grade], which is not nullable: [IntegrityError], and
    no row; with the empty string as score, the save fails on the column
    [score].  A mark with a score is stored as a new row with the grade
    of the score, whatever grade it had before; saved over its row by
    [update_or_create], it leaves that row with the grade that it
    had. *)
Theorem save_without_score :
  @Mark_save plain_decimal insert null_mark = Raise IntegrityError ∧
  @Mark_save plain_decimal insert (Mark_set_score (Py.Str "") null_mark)
  = Raise ValidationError ∧
  @Mark_save plain_decimal insert (sample_mark 3 1 6 1 2 (Py.Str "85") (Some "A"))
  = Ok (sample_mark 3 1 6 1 2 (Py.Num 85) (Some "B"),
        sample_mark 3 1 6 1 2 (Py.Num (8500 # 100)) (Some "B")) ∧
  let stored := sample_mark 2 1 6 1 1 (Py.Num (6400 # 100)) (Some "D") in
  @Mark_save plain_decimal (update stored (Some ["score"; "date_recorded"]))
     (Mark_set_score (Py.Str "95") stored)
  = Ok (sample_mark 2 1 6 1 1 (Py.Num 95) (Some "A"),
        sample_mark 2 1 6 1 1 (Py.Num (9500 # 100)) (Some "D")).
Proof. vm_compute. repeat split. Qed.

Lemma grade_letter_and_point_witness :
  ((0 <= 85)%Q ∧ (85 <= 100)%Q) ∧
  @calculate_grade plain_decimal (Mark_set_score (Py.Num 85) null_mark) = "B" ∧
  @get_grade_and_gpa plain_decimal (Py.Num 85) = Ok ("B", 3%Q).
Proof.
  assert (L0 : (0 <= 85)%Q) by (unfold Qle; simpl; lia).
  assert (L1 : (85 <= 100)%Q) by (unfold Qle; simpl; lia).
  split; [by split|].
  destruct (@grade_letter_and_point plain_decimal null_mark 85 L0 L1)
    as (_ & HB & _ & _ & _ & p & Ep & _ & Hp & _).
  assert (G : @calculate_grade plain_decimal
                (Mark_set_score (Py.Num 85) null_mark) = "B").
  { apply HB. split; unfold Qle, Qlt; simpl; lia. }
  split; [exact G|].
  rewrite Ep. rewrite (Hp G). by rewrite G.
Defined.

(** ** Admission numbers *)

Example next_after_0001_0003 : _next_admission_number db_two_students = "prog0004".
Proof. reflexivity. Qed.

Lemma replace_go_absent (old new s : string) :
  occurs old s = false → Py.replace_go old new 0 s = s.
Proof.
  induction s as [|c s IH]; [done|].
  intros E. cbn [occurs] in E. apply orb_false_iff in E as [E1 E2].
  cbn [Py.replace_go]. rewrite E1. f_equal. by apply IH.
Qed.

Lemma prefix_cons_inv (a : ascii) (s1 s2 : string) :
  String.prefix (String a s1) s2 = true →
  ∃ s2', s2 = String a s2' ∧ String.prefix s1 s2' = true.
Proof.
  destruct s2 as [|b s2]; simpl; [done|].
  destruct (Ascii.ascii_dec a b) as [->|]; [eauto|done].
Qed.

Lemma replace_prefix_prog (adm : string) :
  Py.startswith adm "prog" = true →
  occurs "prog" (string_drop 4 adm) = false →
  Py.replace adm "prog" "" = string_drop 4 adm.
Proof.
  unfold Py.startswith, Py.replace. intros P E.
  pose proof P as P0.
  apply prefix_cons_inv in P as (s1 & -> & P).
  apply prefix_cons_inv in P as (s2 & -> & P).
  apply prefix_cons_inv in P as (s3 & -> & P).
  apply prefix_cons_inv in P as (rest & -> & _).
  cbn [string_drop] in E |- *.
  cbn [Py.replace_go]. rewrite P0.
  cbn [String.length Nat.sub Py.replace_go String.append].
  by apply replace_go_absent.
Qed.

Lemma student_admission_numbers_prefix (prefix adm : string) (us : list User) :
  adm ∈ student_admission_numbers prefix us → Py.startswith adm prefix = true.
Proof.
  unfold student_admission_numbers. rewrite list_elem_of_omap.
  intros (u & _ & E). destruct (admission_number u) as [a|]; [|done].
  destruct (String.eqb (role u) "student" && Py.startswith a prefix) eqn:B; [|done].
  apply andb_true_iff in B as [_ B]. congruence.
Qed.

Lemma foldr_max_init (a n : Z) (l : list Z) :
  foldr Z.max (Z.max a n) l = Z.max n (foldr Z.max a l).
Proof. induction l as [|y l IH]; simpl; lia. Qed.

Lemma scan_max (f : string → option Z) (l : list string) (a : Z) :
  fold_left (λ max_num adm,
    match f adm with
    | Some num => Z.max max_num num
    | None => max_num
    end) l a
  = foldr Z.max a (omap f l).
Proof.
  revert a. induction l as [|x l IH]; intros a; [done|].
  cbn [fold_left omap list_omap]. rewrite IH.
  destruct (f x) as [n|]; [|done].
  cbn [foldr]. apply foldr_max_init.
Qed.

(** Where no suffix contains the prefix again, the scan computes the
    number of section 4.2. *)
Lemma next_admission_number_agrees (db : DB) :
  Forall (λ adm, occurs "prog" (string_drop 4 adm) = false)
    (student_admission_numbers "prog" (users db)) →
  _next_admission_number db = next_admission_number_spec db.
Proof.
  intros A. unfold _next_admission_number, next_admission_number_spec.
  do 3 f_equal. rewrite scan_max.
  assert (E : omap (λ adm, Py.int (Py.replace adm "prog" ""))
                (student_admission_numbers "prog" (users db))
              = omap Py.int (string_drop 4 <$> student_admission_numbers "prog" (users db))).
  { assert (P := student_admission_numbers_prefix "prog").
    specialize (λ adm, P adm (users db)).
    induction (student_admission_numbers "prog" (users db)) as [|x l IH]; [done|].
    apply Forall_cons in A as [Ax A]. cbn [omap list_omap fmap list_fmap].
    rewrite replace_prefix_prog; [|apply P; left|done].
    rewrite IH; [done|done|]. intros adm I. apply P. by right. }
  by rewrite E.
Qed.

(** C2: with the numbers prog0001 and progprog12 in the table, the
    scan deletes both occurrences of the prefix from the second value,
    reads 12 and allocates prog0013; the suffix of that value, prog12,
    is no integer, so that section 4.2 skips it and gives prog0002. *)
Theorem next_admission_number_typed :
  _next_admission_number db_typed_number = "prog0013" ∧
  next_admission_number_spec db_typed_number = "prog0002" ∧
  Py.int (string_drop 4 "progprog12") = None ∧
  Py.int (Py.replace "progprog12" "prog" "") = Some 12.
Proof. repeat split. Qed.

(** ** Dashboard feeds *)

#[global] Instance by_created_at_desc_trans : Transitive by_created_at_desc.
Proof. unfold by_created_at_desc. intros a b c. lia. Qed.

#[global] Instance by_created_at_desc_total : Total by_created_at_desc.
Proof. unfold by_created_at_desc. intros a b. lia. Qed.

#[global] Instance by_date_desc_trans : Transitive by_date_desc.
Proof. unfold by_date_desc. intros a b c. lia. Qed.

#[global] Instance by_date_desc_total : Total by_date_desc.
Proof. unfold by_date_desc. intros a b. lia. Qed.

#[global] Instance by_class_then_subject_trans : Transitive by_class_then_subject.
Proof.
  unfold by_class_then_subject. intros a b c [A1 A2] [B1 B2]. split.
  - by trans b.1.1.
  - intros C. trans b.1.2.
    + apply A2. by trans c.1.1.
    + apply B2. by trans a.1.1.
Qed.

#[global] Instance by_class_then_subject_total : Total by_class_then_subject.
Proof.
  unfold by_class_then_subject. intros a b.
  destruct (total String.le a.1.1 b.1.1) as [C|C],
           (total String.le a.1.2 b.1.2) as [S|S].
  - left. by split.
  - destruct (decide (String.le b.1.1 a.1.1)) as [C'|C'].
    + right. by split.
    + left. by split.
  - destruct (decide (String.le a.1.1 b.1.1)) as [C'|C'].
    + left. by split.
    + right. by split.
  - right. by split.
Qed.



Section newest.
Context {A : Type} (R : relation A).
Context `{!RelDecision R, !Transitive R, !Total R}.
Context (P : A → Prop) `{!∀ x, Decision (P x)}.

Lemma newest_shown (n : nat) (l : list A) (x : A) :
  x ∈ take n (merge_sort R (filter P l)) → x ∈ l ∧ P x.
Proof.
  intros I. apply (subseteq_take n) in I.
  rewrite merge_sort_Permutation in I. by apply list_elem_of_filter in I as [? ?].
Qed.

Lemma newest_all (n : nat) (l : list A) (x : A) :
  (length (filter P l) ≤ n)%nat →
  x ∈ take n (merge_sort R (filter P l)) ↔ x ∈ l ∧ P x.
Proof.
  intros L. rewrite take_ge.
  - rewrite merge_sort_Permutation, list_elem_of_filter. tauto.
  - by rewrite merge_sort_Permutation.
Qed.

Lemma newest_first (n : nat) (l : list A) (x y : A) :
  x ∈ take n (merge_sort R (filter P l)) →
  y ∈ l → P y → y ∉ take n (merge_sort R (filter P l)) → R x y.
Proof.
  intros Ix Iy Py Ny.
  assert (S := StronglySorted_merge_sort R (filter P l)).
  rewrite <- (take_drop n (merge_sort R (filter P l))) in S.
  apply (StronglySorted_app_1_elem_of _ _ _ _ _ S Ix).
  assert (I : y ∈ (take n (merge_sort R (filter P l))
                  ++ drop n (merge_sort R (filter P l)))).
  { rewrite take_drop, merge_sort_Permutation. by apply list_elem_of_filter. }
  apply elem_of_app in I as [I|I]; [by destruct Ny|done].
Qed.

End newest.

Ltac feed_properties tag :=
  let PA := constr:(λ a, ann_visibility a = "all" ∨ ann_visibility a = tag) in
  let PE := constr:(λ e, ev_visibility e = "all" ∨ ev_visibility e = tag) in
  refine (conj _ (conj _ (conj _ (conj _ (conj _ (conj _ (conj _ _)))))));
  [ apply (newest_shown by_created_at_desc PA)
  | apply (newest_shown by_date_desc PE)
  | rewrite length_take; lia
  | rewrite length_take; lia
  | intros a b; apply (newest_first by_created_at_desc PA)
  | intros e f; apply (newest_first by_date_desc PE)
  | intros L a; by apply (newest_all by_created_at_desc PA)
  | intros L e; by apply (newest_all by_date_desc PE) ].


(** C8, as the code has it: an item is in the dashboard feed of a
    teacher or a student only if its visibility tag is "all" or the
    viewer's role; the feed holds at most five items, the newest ones of
    those with such a tag (none left out is newer than one shown); when
    at most five items carry such a tag, an item is in the feed iff its
    tag is "all" or the viewer's role. *)
Theorem dashboard_feed (request : HttpRequest) (db : DB) (viewer : User) :
  user request = Some viewer →
  role viewer = "teacher" ∨ role viewer = "student" →
  let shown := λ tag : string, tag = "all" ∨ tag = role viewer in
  let page := dashboard request db in
  (∀ a, a ∈ feed_announcements page →
        a ∈ announcements db ∧ shown (ann_visibility a)) ∧
  (∀ e, e ∈ feed_events page → e ∈ events db ∧ shown (ev_visibility e)) ∧
  (length (feed_announcements page) ≤ 5)%nat ∧
  (length (feed_events page) ≤ 5)%nat ∧
  (∀ a b, a ∈ feed_announcements page → b ∈ announcements db →
          shown (ann_visibility b) → b ∉ feed_announcements page →
          created_at b ≤ created_at a) ∧
  (∀ e f, e ∈ feed_events page → f ∈ events db →
          shown (ev_visibility f) → f ∉ feed_events page →
          ev_date f ≤ ev_date e) ∧
  ((length (filter (λ a, shown (ann_visibility a)) (announcements db)) ≤ 5)%nat →
   ∀ a, a ∈ feed_announcements page ↔
        a ∈ announcements db ∧ shown (ann_visibility a)) ∧
  ((length (filter (λ e, shown (ev_visibility e)) (events db)) ≤ 5)%nat →
   ∀ e, e ∈ feed_events page ↔ e ∈ events db ∧ shown (ev_visibility e)).
Proof.
  intros U [E|E] shown page; subst shown page; unfold dashboard;
    rewrite U, E; simpl; unfold newest_announcements, newest_events.
  - feed_properties "teacher".
  - feed_properties "student".
Qed.

Lemma dashboard_feed_witness :
  let page_of u := dashboard (sample_request u "GET" []) db_two_announcements in
  (sample_announcement "staff meeting" "teacher" 1
     ∈ feed_announcements (page_of teacher_tom)) ∧
  (sample_announcement "staff meeting" "teacher" 1
     ∉ feed_announcements (page_of student_sara)) ∧
  (sample_announcement "closing" "all" 2
     ∈ feed_announcements (page_of student_sara)).
Proof.
  intros page_of. subst page_of.
  destruct (dashboard_feed (sample_request teacher_tom "GET" [])
              db_two_announcements teacher_tom eq_refl (or_introl eq_refl))
    as (_ & _ & _ & _ & _ & _ & T & _).
  destruct (dashboard_feed (sample_request student_sara "GET" [])
              db_two_announcements student_sara eq_refl (or_intror eq_refl))
    as (S1 & _ & _ & _ & _ & _ & S2 & _).
  split; [|split].
  - apply T; [simpl; lia|]. split; [left|by right].
  - intros I. apply S1 in I as [_ [I|I]]; discriminate I.
  - apply S2; [vm_compute; lia|]. split; [right; left|by left].
Defined.

(** C8, as the specification has it, fails: with six announcements for
    everybody, the oldest one is not in a teacher's feed. *)
Lemma dashboard_feed_sixth :
  let oldest := sample_announcement "term dates" "all" 1 in
  oldest ∈ announcements db_six_announcements ∧
  ann_visibility oldest = "all" ∧
  oldest ∉ feed_announcements
             (dashboard (sample_request teacher_tom "GET" [])
                db_six_announcements).
Proof.
  split; [left|]. split; [done|].
  vm_compute. intros I.
  repeat (apply elem_of_cons in I as [I|I]; [discriminate I|]).
  by apply elem_of_nil in I.
Qed.

(** ** Mark upload *)

Lemma DB_set_marks_id (db : DB) : DB_set_marks (marks db) db = db.
Proof. by destruct db. Qed.

Lemma DB_set_marks_twice (ms ms' : list Mark) (db : DB) :
  DB_set_marks ms (DB_set_marks ms' db) = DB_set_marks ms db.
Proof. done. Qed.

Section replace_rows.
Context {A : Type} (P Q : A → Prop).
Context `{!∀ x, Decision (P x), !∀ x, Decision (Q x)}.

(** Rows replaced in place: those under the lookup all become [new]. *)
Lemma filter_replaced (new : A) (l : list A) :
  P new →
  filter P ((λ x, if decide (P x) then new else x) <$> l)
  = (λ _, new) <$> filter P l.
Proof.
  intros Pn. induction l as [|x l IH]; [done|].
  cbn [fmap list_fmap]. destruct (decide (P x)) as [Px|Px].
  - rewrite !filter_cons_True by done. cbn [fmap list_fmap]. by f_equal.
  - by rewrite !filter_cons_False by done.
Qed.

(** ... and the rows outside the lookup stay as they are. *)
Lemma filter_not_replaced (new : A) (l : list A) :
  (∀ x, P x → ¬ Q x) → ¬ Q new →
  filter Q ((λ x, if decide (P x) then new else x) <$> l) = filter Q l.
Proof.
  intros PQ Qn. induction l as [|x l IH]; [done|].
  cbn [fmap list_fmap]. destruct (decide (P x)) as [Px|Px].
  - rewrite filter_cons_False by done.
    rewrite filter_cons_False by by apply PQ. done.
  - destruct (decide (Q x)).
    + rewrite !filter_cons_True by done. by f_equal.
    + by rewrite !filter_cons_False by done.
Qed.

End replace_rows.

Section upload.
Context `{FloatParser}.

Lemma Mark_save_empty_string how (obj : Mark) :
  (match how with update _ (Some fs) => "score" ∈ fs | _ => True end) →
  Mark_save how (Mark_set_score (Py.Str "") obj) = Raise ValidationError.
Proof.
  intros W. rewrite Mark_save_blank by done. unfold Model_save.
  destruct how as [|stored [fs|]]; [done| |done].
  by rewrite (bool_decide_eq_true_2 _ W).
Qed.

Lemma five_tuple_row_of key c g : five_tuple (row_of key c g) = key.
Proof. by destruct key as [[[[st sj] t] c_] sem]. Qed.

Lemma five_tuple_set_score x m : five_tuple (Mark_set_score x m) = five_tuple m.
Proof. done. Qed.

(** The three outcomes of [update_or_create]. *)
Lemma update_or_create_outcome key v db :
  upsert_outcome key v db (update_or_create key v db).
Proof.
  unfold update_or_create.
  destruct (filter _ (marks db)) as [|obj [|obj' l]] eqn:F.
  - destruct key as [[[[st sj] t] c_] sem].
    set (base := {| student := st; subject := sj; teacher := t;
                    school_class := c_; semester := sem; score := Py.None_;
                    grade := None |}).
    change (Mark_save insert _)
      with (Mark_save insert
              (Mark_set_grade (Some "") (Mark_set_score (Py.Str v) base))).
    destruct (Mark_save insert _) as [[o row]|e] eqn:S; [|constructor].
    destruct (decide (v = "")) as [->|V].
    { change (Mark_set_grade (Some "") (Mark_set_score (Py.Str "") base))
        with (Mark_set_score (Py.Str "") (Mark_set_grade (Some "") base)) in S.
      by rewrite Mark_save_empty_string in S. }
    apply Mark_save_insert_string in S as (q & c & Fq & C & ->); [|done].
    by apply (upsert_created _ _ _ q c).
  - destruct (Mark_save (update obj _) _) as [[o row]|e] eqn:S; [|constructor].
    destruct (decide (v = "")) as [->|V].
    { rewrite Mark_save_empty_string in S; [done|by left]. }
    apply Mark_save_update_string in S as (q & c & Fq & C & ->); [|done].
    by apply (upsert_updated _ _ _ obj q c).
  - constructor.
Qed.

(** [update_or_create] writes to the [Mark] table only. *)
Lemma update_or_create_tables key v db :
  ∃ ms, (update_or_create key v db).1 = DB_set_marks ms db.
Proof.
  destruct (update_or_create_outcome key v db); simpl; eauto.
  exists (marks db). by rewrite DB_set_marks_id.
Qed.

Lemma rows_under_found key db obj l :
  filter (λ m, five_tuple m = key) (marks db) = obj :: l → five_tuple obj = key.
Proof.
  intros F. assert (I : obj ∈ filter (λ m, five_tuple m = key) (marks db))
    by (rewrite F; left).
  by apply list_elem_of_filter in I as [? _].
Qed.

(** Rows that a lookup outside the five-tuple selects are left alone,
    whatever the outcome. *)
Lemma update_or_create_frame (Q : Mark → Prop) `{!∀ m, Decision (Q m)} key v db :
  (∀ m, five_tuple m = key → ¬ Q m) →
  filter Q (marks (update_or_create key v db).1) = filter Q (marks db).
Proof.
  intros KQ.
  destruct (update_or_create_outcome key v db) as [e|q c V F Fq C|obj q c V F Fq C];
    simpl; [done| |].
  - rewrite filter_app, filter_cons_False, filter_nil, app_nil_r; [done|].
    apply KQ, five_tuple_row_of.
  - apply (filter_not_replaced (λ m, five_tuple m = key) Q); [done|].
    apply KQ. rewrite five_tuple_set_score. by apply (rows_under_found _ db _ []).
Qed.

Lemma update_or_create_row key v db db' :
  update_or_create key v db = (db', Ok tt) →
  ∃ q c : Q, v ≠ "" ∧ float_of_string v = Some (Py.finite q) ∧
             column_value q = Ok (Py.Num c) ∧
             rows_under key db' = [upsert_row key q c db].
Proof.
  intros U. pose proof (update_or_create_outcome key v db) as O.
  rewrite U in O. unfold upsert_row.
  inversion O as [e|q c V F Fq C|obj q c V F Fq C]; subst; exists q, c;
    (do 3 (split; [done|])); unfold rows_under in *; simpl.
  - rewrite filter_app, F, filter_cons_True, filter_nil by apply five_tuple_row_of.
    done.
  - rewrite (filter_replaced (λ m, five_tuple m = key)).
    + by rewrite F.
    + rewrite five_tuple_set_score. by apply (rows_under_found _ db _ []).
Qed.


Lemma update_or_create_at_most_one key' key v db :
  (length (rows_under key' db) ≤ 1)%nat →
  (length (rows_under key' (update_or_create key v db).1) ≤ 1)%nat.
Proof.
  intros L. destruct (decide (key = key')) as [->|N].
  - destruct (update_or_create key' v db) as [db1 [[]|e]] eqn:U; cbn [fst].
    + apply update_or_create_row in U as (q & c & _ & _ & _ & ->). done.
    + pose proof (update_or_create_outcome key' v db) as O. rewrite U in O.
      by inversion O; subst.
  - unfold rows_under in *.
    rewrite update_or_create_frame; [done|]. intros m Em. congruence.
Qed.

(** An upsert of a score that [float] reads as a number that the column
    takes completes, unless the five-tuple has several rows already. *)
Lemma update_or_create_completes key v db (q c : Q) :
  v ≠ "" → float_of_string v = Some (Py.finite q) →
  column_value q = Ok (Py.Num c) →
  (length (rows_under key db) ≤ 1)%nat →
  (update_or_create key v db).2 = Ok tt.
Proof.
  intros V Fq C L. unfold update_or_create, rows_under in *.
  destruct (filter _ (marks db)) as [|obj [|obj' l]]; [| |simpl in L; lia].
  - destruct key as [[[[st sj] t] c_] sem].
    destruct (Mark_save_insert_completes
                {| student := st; subject := sj; teacher := t;
                   school_class := c_; semester := sem; score := Py.None_;
                   grade := None |} v "" q c V Fq C) as [o E].
    unfold Mark_set_score, Mark_set_grade in E. simpl in E. by rewrite E.
  - destruct (Mark_save_update_completes obj v q c V Fq C) as [o E].
    by rewrite E.
Qed.

(** An upsert of a score that [float] rejects raises [ValueError],
    unless the five-tuple has several rows already. *)
Lemma update_or_create_rejected key v db :
  v ≠ "" → float_of_string v = None →
  (length (rows_under key db) ≤ 1)%nat →
  update_or_create key v db = (db, Raise ValueError).
Proof.
  intros V F L. unfold update_or_create, rows_under in *.
  destruct (filter _ (marks db)) as [|obj [|obj' l]]; [| |simpl in L; lia].
  - destruct key as [[[[st sj] t] c_] sem].
    pose proof (Mark_save_rejected insert
                  {| student := st; subject := sj; teacher := t;
                     school_class := c_; semester := sem; score := Py.None_;
                     grade := Some "" |} v V F) as E.
    unfold Mark_set_score in E. simpl in E. by rewrite E.
  - by rewrite Mark_save_rejected.
Qed.


(** An upsert never rewrites a grade: the rows of before are there
    afterwards, in their places, each with its five-tuple and its
    grade, and at most one row is added. *)
Lemma update_or_create_rescored key v db :
  ∃ kept new, marks (update_or_create key v db).1 = kept ++ new ∧
              Forall2 rescored (marks db) kept.
Proof.
  assert (R : ∀ l : list Mark, Forall2 rescored l l).
  { intros l. induction l; constructor; [by unfold rescored|done]. }
  destruct (update_or_create_outcome key v db) as [e|q c V F Fq C|obj q c V F Fq C];
    simpl.
  - exists (marks db), []. by rewrite app_nil_r.
  - by exists (marks db), [row_of key c (grade_of_score q)].
  - eexists _, []. rewrite app_nil_r. split; [done|].
    apply Forall2_fmap_r, Forall_Forall2_diag, Forall_forall. intros m I.
    unfold rescored, compose.
    destruct (decide (five_tuple m = key)) as [K|K]; [|done].
    assert (J : m ∈ filter (λ m, five_tuple m = key) (marks db))
      by by apply list_elem_of_filter.
    unfold rows_under in F. rewrite F in J.
    by apply list_elem_of_singleton in J as ->.
Qed.

Lemma truthy_Some (o : option string) :
  truthy o = true → ∃ v, o = Some v ∧ v ≠ "".
Proof.
  destruct o as [v|]; [|done]. simpl. intros E. exists v. split; [done|].
  intros ->. done.
Qed.

Lemma truthy_of_Some (v : string) : v ≠ "" → truthy (Some v) = true.
Proof. intros V. simpl. by destruct v. Qed.

Section loop.
Context (post : gmap string string) (sj t c sem : Z).

Lemma save_marks_tables students db :
  ∃ ms, (save_marks post students sj t c sem db).1 = DB_set_marks ms db.
Proof.
  revert db. induction students as [|s students IH]; intros db; simpl.
  { exists (marks db). by rewrite DB_set_marks_id. }
  destruct (truthy _); [|apply IH].
  destruct (update_or_create_tables (user_id s, sj, t, c, sem)
              (default "" (post !! marks_field (user_id s))) db) as [ms E].
  destruct (update_or_create _ _ db) as [db1 [[]|e]]; simpl in E; subst db1.
  - destruct (IH (DB_set_marks ms db)) as [ms' E']. exists ms'.
    by rewrite E', DB_set_marks_twice.
  - eauto.
Qed.

(** The loop leaves alone the rows of a lookup that excludes the
    five-tuples of the students with a submitted score. *)
Lemma save_marks_frame (Q : Mark → Prop) `{!∀ m, Decision (Q m)} students db :
  (∀ s m, s ∈ students → truthy (post !! marks_field (user_id s)) = true →
          five_tuple m = (user_id s, sj, t, c, sem) → ¬ Q m) →
  filter Q (marks (save_marks post students sj t c sem db).1) = filter Q (marks db).
Proof.
  revert db. induction students as [|s students IH]; intros db KQ; [done|].
  simpl. destruct (truthy _) eqn:T.
  - pose proof (update_or_create_frame Q (user_id s, sj, t, c, sem)
                  (default "" (post !! marks_field (user_id s))) db) as F.
    destruct (update_or_create _ _ db) as [db1 [[]|e]]; simpl in F.
    + rewrite IH, F; [done| |].
      * intros m. apply KQ; [left|done].
      * intros s' m I. apply KQ. by right.
    + simpl. apply F. intros m. apply KQ; [left|done].
  - apply IH. intros s' m I. apply KQ. by right.
Qed.





(** The loop completes when [float] reads every submitted score as a
    number that the column takes, and no five-tuple of the form has
    several rows. *)
Lemma save_marks_completes students db :
  (∀ s v, s ∈ students → post !! marks_field (user_id s) = Some v → v ≠ "" →
          ∃ q x : Q, float_of_string v = Some (Py.finite q) ∧
                     column_value q = Ok (Py.Num x)) →
  (∀ s, s ∈ students →
        (length (rows_under (user_id s, sj, t, c, sem) db) ≤ 1)%nat) →
  (save_marks post students sj t c sem db).2 = Ok tt.
Proof.
  revert db. induction students as [|s students IH]; intros db F L; [done|].
  simpl. destruct (truthy _) eqn:T.
  - apply truthy_Some in T as (v & Ev & V). rewrite Ev. simpl.
    destruct (F s v) as (q & x & Fq & C); [left|done|done|].
    pose proof (update_or_create_completes (user_id s, sj, t, c, sem) v db q x
                  V Fq C) as Cp.
    assert (A := λ s', update_or_create_at_most_one
                         (user_id s', sj, t, c, sem) (user_id s, sj, t, c, sem) v db).
    destruct (update_or_create _ v db) as [db1 out]. simpl in Cp, A.
    rewrite Cp.
    + apply IH.
      * intros s' v' I. apply F. by right.
      * intros s' I. apply A, L. by right.
    + apply L. left.
  - apply IH.
    + intros s' v' I. apply F. by right.
    + intros s' I. apply L. by right.
Qed.

(** The loop never rewrites a grade. *)
Lemma save_marks_rescored students db :
  ∃ kept new, marks (save_marks post students sj t c sem db).1 = kept ++ new ∧
              Forall2 rescored (marks db) kept.
Proof.
  assert (R : ∀ l : list Mark, Forall2 rescored l l).
  { intros l. induction l; constructor; [by unfold rescored|done]. }
  revert db. induction students as [|s students IH]; intros db.
  { exists (marks db), []. by rewrite app_nil_r. }
  simpl. destruct (truthy _); [|apply IH].
  destruct (update_or_create_rescored (user_id s, sj, t, c, sem)
              (default "" (post !! marks_field (user_id s))) db)
    as (k1 & n1 & E1 & R1).
  destruct (update_or_create _ _ db) as [db1 [[]|e]]; simpl in E1; [|eauto].
  destruct (IH db1) as (k & n & E & Rk). rewrite E1 in Rk.
  apply Forall2_app_inv_l in Rk as (k' & k'' & Rk' & _ & ->).
  exists k', (k'' ++ n). rewrite E, app_assoc. split; [done|].
  eapply Forall2_trans; [|exact R1|exact Rk'].
  unfold rescored. intros m1 m2 m3 [? ?] [? ?]. split; congruence.
Qed.

End loop.

Lemma get_by_id_or_404_found {A} (pk : A → Z) (P : A → Prop)
    `{!∀ x, Decision (P x)} (table : list A) (s : string) (x : A) :
  get_by_id_or_404 pk P table s = Ok x →
  Py.int s = Some (pk x) ∧ x ∈ table ∧ P x.
Proof.
  unfold get_by_id_or_404, get_object_or_404.
  destruct (Py.int s) as [n|]; [|done].
  destruct (filter _ table) as [|y [|y' l]] eqn:F; [done| |done].
  intros [= ->].
  assert (I : x ∈ filter (λ x, pk x = n ∧ P x) table) by (rewrite F; left).
  apply list_elem_of_filter in I as [[<- Px] I]. done.
Qed.

(** A posted form that names a subject, a class and a semester that
    exist reaches the assignment check. *)
Lemma upload_marks_reaches_check request db u sj_s c_s sem_s sj c sem t :
  user request = Some u →
  role u = "teacher" ∨ role u = "admin" →
  method request = "POST" →
  POST request !! "subject" = Some sj_s → sj_s ≠ "" →
  POST request !! "school_class" = Some c_s → c_s ≠ "" →
  POST request !! "semester" = Some sem_s → sem_s ≠ "" →
  get_by_id_or_404 subject_id (λ _, True) (subjects db) sj_s = Ok sj →
  get_by_id_or_404 class_id (λ _, True) (classes db) c_s = Ok c →
  get_by_id_or_404 semester_id (λ _, True) (semesters db) sem_s = Ok sem →
  acting_teacher request u db = Ok t →
  upload_marks request db = upload_marks_selected request u sj c sem t db.
Proof.
  intros U R M Psj Vsj Pc Vc Psem Vsem Gsj Gc Gsem T.
  unfold upload_marks. rewrite U.
  assert (require_role u ["teacher"; "admin"] = true) as ->.
  { unfold require_role. apply bool_decide_eq_true.
    destruct R as [-> | ->]; [left|right; left]. }
  cbn [negb]. rewrite M. cbn [String.eqb Ascii.eqb Bool.eqb].
  rewrite Psj, Pc, Psem, !truthy_of_Some by done.
  simpl. rewrite Gsj, Gc, Gsem.
  unfold acting_teacher in T. by rewrite T.
Qed.

(** The mark table after [upload_marks] is the one of before, or the
    one the loop leaves. *)
Lemma upload_marks_effect request db :
  ∃ students sj t c sem,
    (upload_marks request db).1
    = (save_marks (POST request) students sj t c sem db).1.
Proof.
  assert (N : ∃ students sj t c sem,
            db = (save_marks (POST request) students sj t c sem db).1)
    by (by exists [], 0, 0, 0, 0).
  unfold upload_marks.
  destruct (user request) as [u|]; [|done].
  destruct (negb _); [done|].
  destruct (String.eqb (method request) "POST"); [|done].
  destruct (_ && _); [|done].
  destruct (get_by_id_or_404 subject_id _ _ _) as [sj|]; [|done].
  destruct (get_by_id_or_404 class_id _ _ _) as [c|]; [|done].
  destruct (get_by_id_or_404 semester_id _ _ _) as [sem|]; [|done].
  match goal with |- context [match ?x with Ok _ => _ | Raise _ => _ end] =>
    destruct x as [t|] end; [|done].
  unfold upload_marks_selected.
  destruct (bool_decide (Exists _ _)); [|done].
  destruct (bool_decide (_ ∈ dom _)); [|done].
  exists (class_students c db), (subject_id sj), (user_id t), (class_id c),
    (semester_id sem).
  unfold class_students.
  by destruct (save_marks _ _ _ _ _ _ db) as [db1 [[]|e]].
Qed.


(** X23: a posted form for a subject and a class assigned to the acting
    teacher, with [save_marks] pressed, scores that [float] reads as
    numbers between -999.99 and 999.99, and no five-tuple stored twice,
    ends on the results page. *)
Lemma upload_marks_completes request db u sj_s c_s sem_s sj c sem t :
  user request = Some u →
  role u = "teacher" ∨ role u = "admin" →
  method request = "POST" →
  POST request !! "subject" = Some sj_s → sj_s ≠ "" →
  POST request !! "school_class" = Some c_s → c_s ≠ "" →
  POST request !! "semester" = Some sem_s → sem_s ≠ "" →
  get_by_id_or_404 subject_id (λ _, True) (subjects db) sj_s = Ok sj →
  get_by_id_or_404 class_id (λ _, True) (classes db) c_s = Ok c →
  get_by_id_or_404 semester_id (λ _, True) (semesters db) sem_s = Ok sem →
  acting_teacher request u db = Ok t →
  Exists (λ ts, ts_teacher ts = user_id t ∧ ts_subject ts = subject_id sj ∧
                ts_school_class ts = class_id c) (teacher_subjects db) →
  "save_marks" ∈ dom (POST request) →
  (∀ s v, s ∈ class_students c db →
          POST request !! marks_field (user_id s) = Some v → v ≠ "" →
          ∃ q : Q, float_of_string v = Some (Py.finite q) ∧
                   (- (99999 # 100) <= q)%Q ∧ (q <= 99999 # 100)%Q) →
  (∀ s, s ∈ class_students c db →
        (length (rows_under (user_id s, subject_id sj, user_id t, class_id c,
                             semester_id sem) db) ≤ 1)%nat) →
  (upload_marks request db).2
  = Ok (redirect "progressive_app:teachers_results"
          [msg_success (marks_uploaded c sj sem)]).
Proof.
  intros U R M Psj Vsj Pc Vc Psem Vsem Gsj Gc Gsem T A B F L.
  rewrite (upload_marks_reaches_check request db u sj_s c_s sem_s sj c sem t);
    try done.
  unfold upload_marks_selected.
  rewrite !bool_decide_eq_true_2 by done.
  fold (class_students c db).
  assert (F' : ∀ s v, s ∈ class_students c db →
            POST request !! marks_field (user_id s) = Some v → v ≠ "" →
            ∃ q x : Q, float_of_string v = Some (Py.finite q) ∧
                       column_value q = Ok (Py.Num x)).
  { intros s v I Pv V. destruct (F s v I Pv V) as (q & Fq & Lo & Hi).
    destruct (column_value_in_range q Lo Hi) as [x C]. by exists q, x. }
  pose proof (save_marks_completes (POST request) (subject_id sj) (user_id t)
                (class_id c) (semester_id sem) (class_students c db) db F' L) as C.
  destruct (save_marks _ _ _ _ _ _ db) as [db1 out]. simpl in C. by subst out.
Qed.

(** The assignment check of [upload_marks]. *)
Lemma upload_marks_selected_check request u sj c sem t db :
  let registered :=
    Exists (λ ts, ts_teacher ts = user_id t ∧ ts_subject ts = subject_id sj ∧
                  ts_school_class ts = class_id c) (teacher_subjects db) in
  (¬ registered →
   upload_marks_selected request u sj c sem t db
   = (db, Ok (redirect "progressive_app:upload_marks" [msg_error not_registered]))) ∧
  (registered →
   (upload_marks_selected request u sj c sem t db).2
   ≠ Ok (redirect "progressive_app:upload_marks" [msg_error not_registered])).
Proof.
  intros registered. subst registered. unfold upload_marks_selected.
  split; intros E.
  - by rewrite bool_decide_eq_false_2.
  - rewrite bool_decide_eq_true_2 by done.
    destruct (bool_decide (_ ∈ dom _)); [|done].
    by destruct (save_marks _ _ _ _ _ _ db) as [db1 [[]|e]].
Qed.

(** The rows of a student whose field is blank or absent are those of
    before. *)
Lemma upload_marks_frame request db sid :
  truthy (POST request !! marks_field sid) = false →
  filter (λ m, student m = sid) (marks (upload_marks request db).1)
  = filter (λ m, student m = sid) (marks db).
Proof.
  intros T.
  destruct (upload_marks_effect request db) as (students & sj & t & c & sem & ->).
  apply save_marks_frame. intros s m _ Ts Em Qm.
  unfold five_tuple in Em. injection Em as Em _ _ _ _.
  rewrite <- Qm, Em in T. congruence.
Qed.

(** C6: a teacher who posts the upload form for a subject and a class
    that no [TeacherSubject] row links to them is sent back to the form
    with an error message, and the database is the one of before; rows
    that link the teacher to the subject in another class, or to the
    class with another subject, do not count. *)
Theorem teacher_without_assignment_rejected request db u sj_s c_s sem_s sj c sem :
  user request = Some u →
  role u = "teacher" →
  method request = "POST" →
  POST request !! "subject" = Some sj_s → sj_s ≠ "" →
  POST request !! "school_class" = Some c_s → c_s ≠ "" →
  POST request !! "semester" = Some sem_s → sem_s ≠ "" →
  get_by_id_or_404 subject_id (λ _, True) (subjects db) sj_s = Ok sj →
  get_by_id_or_404 class_id (λ _, True) (classes db) c_s = Ok c →
  get_by_id_or_404 semester_id (λ _, True) (semesters db) sem_s = Ok sem →
  ¬ Exists (λ ts, ts_teacher ts = user_id u ∧ ts_subject ts = subject_id sj ∧
                  ts_school_class ts = class_id c) (teacher_subjects db) →
  upload_marks request db
  = (db, Ok (redirect "progressive_app:upload_marks" [msg_error not_registered])).
Proof.
  intros U R M Psj Vsj Pc Vc Psem Vsem Gsj Gc Gsem N.
  rewrite (upload_marks_reaches_check request db u sj_s c_s sem_s sj c sem u);
    try done.
  - by apply upload_marks_selected_check.
  - by left.
  - unfold acting_teacher. by rewrite R.
Qed.

(** C4, as the code has it: the assignment check applies to an admin's
    upload too.  It is made for the teacher the admin selected (for the
    admin's own account when none is selected): without a
    [TeacherSubject] row linking that teacher to the subject and the
    class the upload is refused and the database is the one of before;
    with such a row it is not refused. *)
Theorem admin_upload_checks_assignment request db u sj_s c_s sem_s sj c sem t :
  user request = Some u →
  role u = "admin" →
  method request = "POST" →
  POST request !! "subject" = Some sj_s → sj_s ≠ "" →
  POST request !! "school_class" = Some c_s → c_s ≠ "" →
  POST request !! "semester" = Some sem_s → sem_s ≠ "" →
  get_by_id_or_404 subject_id (λ _, True) (subjects db) sj_s = Ok sj →
  get_by_id_or_404 class_id (λ _, True) (classes db) c_s = Ok c →
  get_by_id_or_404 semester_id (λ _, True) (semesters db) sem_s = Ok sem →
  acting_teacher request u db = Ok t →
  let registered :=
    Exists (λ ts, ts_teacher ts = user_id t ∧ ts_subject ts = subject_id sj ∧
                  ts_school_class ts = class_id c) (teacher_subjects db) in
  (¬ registered →
   upload_marks request db
   = (db, Ok (redirect "progressive_app:upload_marks" [msg_error not_registered]))) ∧
  (registered →
   (upload_marks request db).2
   ≠ Ok (redirect "progressive_app:upload_marks" [msg_error not_registered])).
Proof.
  intros U R M Psj Vsj Pc Vc Psem Vsem Gsj Gc Gsem T.
  rewrite (upload_marks_reaches_check request db u sj_s c_s sem_s sj c sem t);
    try done.
  - apply upload_marks_selected_check.
  - by right.
Qed.

(** C9: a student whose score field is blank or absent in the posted
    form keeps exactly the Mark rows of before, whatever the outcome of
    the upload; every row that is new or changed belongs to a student
    whose field was filled in. *)
Theorem upload_leaves_blank_students request db sid :
  truthy (POST request !! marks_field sid) = false →
  let db' := (upload_marks request db).1 in
  filter (λ m, student m = sid) (marks db')
  = filter (λ m, student m = sid) (marks db) ∧
  ∀ m, m ∈ marks db' →
       m ∈ marks db ∨ truthy (POST request !! marks_field (student m)) = true.
Proof.
  intros T db'. split; [by apply upload_marks_frame|].
  intros m I.
  destruct (truthy (POST request !! marks_field (student m))) eqn:Tm; [by right|].
  left. apply (upload_marks_frame request db) in Tm.
  assert (J : m ∈ filter (λ m', student m' = student m) (marks db')).
  { by apply list_elem_of_filter. }
  subst db'. rewrite Tm in J. by apply list_elem_of_filter in J as [_ ?].
Qed.


End upload.

(** ** Report download *)

(** C10: [student_results_download], and [student_report_pdf] with it,
    asks for a login and nothing more: whoever is logged in, admin,
    teacher or student, receives the report card of the student named
    in the address, when that student exists. *)
Theorem report_download_any_user request viewer student_id db student :
  user request = Some viewer →
  get_object_or_404 (λ u, user_id u = student_id ∧ role u = "student") (users db)
  = Ok student →
  let marks := filter (λ m, models.student m = user_id student) (marks db) in
  let report :=
    pdf_attachment (username student +:+ "_results.pdf")
      {| card_student := student; card_total := total_score marks;
         card_average := average_score marks;
         card_subjects_count := subjects_count marks; card_marks := marks |} in
  student_results_download request student_id db = Ok report ∧
  student_report_pdf request student_id db = Ok report.
Proof.
  intros U G marks report. unfold student_report_pdf, student_results_download.
  by rewrite U, G.
Qed.


Lemma report_download_any_user_witness :
  role student_sara = "student" ∧
  ∃ card,
    student_report_pdf (sample_request student_sara "GET" []) 2 db_school
    = Ok (pdf_attachment "brian_results.pdf" card) ∧
    card_student card = student_brian ∧
    card_marks card = [sample_mark 2 1 6 1 1 (Py.Num 64) (Some "D")].
Proof.
  split; [reflexivity|].
  destruct (report_download_any_user (sample_request student_sara "GET" [])
              student_sara 2 db_school student_brian eq_refl eq_refl) as [_ E].
  eexists. split; [exact E|]. split; reflexivity.
Defined.

(** ** The uploads on the sample school *)

(** Tom teaches subject 1 in class 2 and subject 2 in class 1; his
    upload for subject 1 in class 1 is refused. *)
Lemma teacher_without_assignment_rejected_witness :
  @upload_marks plain_decimal (upload_form teacher_tom [("marks_3", "85")]) db_school
  = (db_school,
     Ok (redirect "progressive_app:upload_marks" [msg_error not_registered])).
Proof.
  apply (@teacher_without_assignment_rejected plain_decimal
           (upload_form teacher_tom [("marks_3", "85")]) db_school teacher_tom
           "1" "1" "2"
           {| subject_id := 1; subject_name := "Mech" |}
           {| class_id := 1; class_name := "10A" |}
           {| semester_id := 2; semester_name := "Term 2" |});
    try (vm_compute; reflexivity); try discriminate.
  refine (bool_decide_eq_false_1 _ _). vm_compute. reflexivity.
Defined.

(** C4, as the specification has it, fails: an admin who uploads
    marks on behalf of Tom for subject 1 in class 1, which no row
    assigns to Tom, is refused, and the database is the one of before. *)
Lemma admin_upload_refused :
  role admin_head = "admin" ∧
  @upload_marks plain_decimal
     (upload_form admin_head [("teacher_id", "5"); ("marks_3", "85")]) db_school
  = (db_school,
     Ok (redirect "progressive_app:upload_marks" [msg_error not_registered])).
Proof. split; [reflexivity|]. vm_compute. reflexivity. Qed.

Lemma admin_upload_checks_assignment_witness :
  @upload_marks plain_decimal
     (upload_form admin_head [("teacher_id", "5"); ("marks_3", "85")]) db_school
  = (db_school,
     Ok (redirect "progressive_app:upload_marks" [msg_error not_registered])) ∧
  (@upload_marks plain_decimal
      (upload_form admin_head [("teacher_id", "6"); ("marks_3", "85")]) db_school).2
  ≠ Ok (redirect "progressive_app:upload_marks" [msg_error not_registered]).
Proof.
  split.
  - refine (proj1 (@admin_upload_checks_assignment plain_decimal
           (upload_form admin_head [("teacher_id", "5"); ("marks_3", "85")])
           db_school admin_head "1" "1" "2"
           {| subject_id := 1; subject_name := "Mech" |}
           {| class_id := 1; class_name := "10A" |}
           {| semester_id := 2; semester_name := "Term 2" |}
           teacher_tom _ _ _ _ _ _ _ _ _ _ _ _ _) _);
      try (vm_compute; reflexivity); try discriminate.
    refine (bool_decide_eq_false_1 _ _). vm_compute. reflexivity.
  - refine (proj2 (@admin_upload_checks_assignment plain_decimal
           (upload_form admin_head [("teacher_id", "6"); ("marks_3", "85")])
           db_school admin_head "1" "1" "2"
           {| subject_id := 1; subject_name := "Mech" |}
           {| class_id := 1; class_name := "10A" |}
           {| semester_id := 2; semester_name := "Term 2" |}
           teacher_uma _ _ _ _ _ _ _ _ _ _ _ _ _) _);
      try (vm_compute; reflexivity); try discriminate.
    refine (bool_decide_eq_true_1 _ _). vm_compute. reflexivity.
Defined.

(** Uma uploads 85 for Sara and leaves Brian's field blank: Brian's
    rows are those of before. *)
Lemma upload_leaves_blank_students_witness :
  let request :=
    upload_form teacher_uma [("marks_3", "85"); ("marks_2", "")] in
  truthy (POST request !! marks_field 2) = false ∧
  filter (λ m, student m = 2) (marks (@upload_marks plain_decimal request db_school).1)
  = [sample_mark 2 1 6 1 1 (Py.Num 64) (Some "D")].
Proof.
  intros request.
  assert (T : truthy (POST request !! marks_field 2) = false)
    by (vm_compute; reflexivity).
  split; [exact T|].
  destruct (@upload_leaves_blank_students plain_decimal request db_school 2 T)
    as [E _].
  rewrite E. reflexivity.
Defined.

(** Uma uploads 89.999 for Sara: the row has 90.00, and the "B" of the
    float. *)
Example upload_rounds_score :
  rows_under (3, 1, 6, 1, 2)
    (@upload_marks plain_decimal (upload_form teacher_uma [("marks_3", "89.999")])
       db_school).1
  = [sample_mark 3 1 6 1 2 (Py.Num (9000 # 100)) (Some "B")].
Proof. vm_compute. reflexivity. Qed.

(** C3: Uma uploads 64 for Sara, and then 95 under the same
    five-tuple.  One row is left under it, and it carries the second
    score; its grade is still the "D" of the first score, where the
    grade derived from 95 is "A": the second save writes the column
    [score] and leaves [grade] as it is. *)
Theorem upload_twice_first_grade :
  let request1 := upload_form teacher_uma [("marks_3", "64")] in
  let request2 := upload_form teacher_uma [("marks_3", "95")] in
  let db1 := (@upload_marks plain_decimal request1 db_school).1 in
  let second := @upload_marks plain_decimal request2 db1 in
  rows_under (3, 1, 6, 1, 2) db_school = [] ∧
  rows_under (3, 1, 6, 1, 2) db1
  = [sample_mark 3 1 6 1 2 (Py.Num (6400 # 100)) (Some "D")] ∧
  second.2 = Ok (redirect "progressive_app:teachers_results"
                   [msg_success "Marks uploaded for 10A (Mech) in Term 2."]) ∧
  rows_under (3, 1, 6, 1, 2) second.1
  = [sample_mark 3 1 6 1 2 (Py.Num (9500 # 100)) (Some "D")] ∧
  @calculate_grade plain_decimal
     (sample_mark 3 1 6 1 2 (Py.Num (9500 # 100)) (Some "D")) = "A" ∧
  upserted (3, 1, 6, 1, 2) 95 = sample_mark 3 1 6 1 2 (Py.Num 95) (Some "A").
Proof. vm_compute. repeat split. Qed.


(** ** Integers, printed and read back *)

Lemma rev_app_rev_app (s1 s2 s3 : string) :
  String.rev_app (String.rev_app s1 s2) s3 = String.rev_app s2 (s1 +:+ s3).
Proof.
  revert s2 s3. induction s1 as [|a s1 IH]; intros s2 s3; [done|].
  cbn [String.rev_app]. by rewrite IH.
Qed.

Lemma append_String (a : ascii) (s t : string) :
  String a s +:+ t = String a (s +:+ t).
Proof. reflexivity. Qed.

Lemma append_empty_r (s : string) : s +:+ "" = s.
Proof. induction s as [|a s IH]; [done|]. by rewrite append_String, IH. Qed.

Lemma rev_rev (s : string) : String.rev (String.rev s) = s.
Proof. unfold String.rev. rewrite rev_app_rev_app. apply append_empty_r. Qed.

Lemma all_digits_app (s1 s2 : string) :
  all_digits (s1 +:+ s2) = all_digits s1 && all_digits s2.
Proof.
  induction s1 as [|a s1 IH]; [done|]. rewrite append_String. cbn [all_digits].
  by rewrite IH, andb_assoc.
Qed.

Lemma all_digits_rev_app (s1 s2 : string) :
  all_digits (String.rev_app s1 s2) = all_digits s1 && all_digits s2.
Proof.
  revert s2. induction s1 as [|a s1 IH]; intros s2; [done|].
  cbn [String.rev_app all_digits]. rewrite IH. cbn [all_digits].
  destruct (Py.isdigit a), (all_digits s1), (all_digits s2); done.
Qed.

Lemma isdigit_not_space (c : ascii) : Py.isdigit c = true → Py.int_isspace c = false.
Proof.
  unfold Py.isdigit, Py.int_isspace. intros D.
  apply andb_true_iff in D as [D1 D2].
  apply Nat.leb_le in D1.
  apply orb_false_iff. split; [apply andb_false_iff; right; apply Nat.leb_gt; lia|].
  apply Nat.eqb_neq. lia.
Qed.

Lemma lstrip_digits (s : string) : all_digits s = true → Py.int_lstrip s = s.
Proof.
  destruct s as [|c s]; [done|]. cbn [all_digits Py.int_lstrip].
  intros D. apply andb_true_iff in D as [D _].
  by rewrite (isdigit_not_space c D).
Qed.

Lemma strip_digits (s : string) : all_digits s = true → Py.int_strip s = s.
Proof.
  intros D. unfold Py.int_strip. rewrite (lstrip_digits s D).
  rewrite lstrip_digits; [apply rev_rev|].
  unfold String.rev. rewrite all_digits_rev_app, D. done.
Qed.

Lemma pretty_N_char_digit (r : N) :
  (r < 10)%N →
  Py.isdigit (pretty_N_char r) = true ∧
  Py.digit_value (pretty_N_char r) = Z.of_N r.
Proof.
  intros L.
  assert (r = 0 ∨ r = 1 ∨ r = 2 ∨ r = 3 ∨ r = 4 ∨ r = 5 ∨ r = 6 ∨ r = 7 ∨
          r = 8 ∨ r = 9)%N as C by lia.
  repeat (destruct C as [-> | C]; [done|]). by subst r.
Qed.

Lemma all_digits_pretty_N_go (x : N) (s : string) :
  all_digits s = true → all_digits (pretty_N_go x s) = true.
Proof.
  revert s. induction (N.lt_wf_0 x) as [x _ IH]. intros s D.
  destruct (decide (x = 0)%N) as [->|N0]; [by rewrite pretty_N_go_0|].
  rewrite pretty_N_go_step by lia. apply IH.
  - apply N.div_lt; lia.
  - cbn [all_digits]. rewrite D.
    destruct (pretty_N_char_digit (x `mod` 10)) as [-> _]; [|done].
    apply N.mod_lt. lia.
Qed.

(** Reading the digits that [pretty] writes gives the number back. *)
Lemma int_digits_pretty_N_go (x : N) (s : string) (b : bool) :
  (0 < x)%N →
  Py.int_digits 0 b (pretty_N_go x s) = Py.int_digits (Z.of_N x) true s.
Proof.
  revert s b. induction (N.lt_wf_0 x) as [x _ IH]. intros s b L.
  rewrite pretty_N_go_step by done.
  destruct (pretty_N_char_digit (x `mod` 10)) as [D V]; [apply N.mod_lt; lia|].
  destruct (decide (x `div` 10 = 0)%N) as [E|N0].
  - rewrite E, pretty_N_go_0. cbn [Py.int_digits]. rewrite D, V.
    f_equal. pose proof (N.div_mod x 10). lia.
  - rewrite IH; [|apply N.div_lt; lia|by apply N.neq_0_lt_0].
    cbn [Py.int_digits]. rewrite D, V. f_equal.
    pose proof (N.div_mod x 10). lia.
Qed.

Lemma str_positive (n : Z) :
  0 < n → Py.str n = pretty_N_go (Z.to_N n) "".
Proof.
  intros L. destruct n as [|p|p]; try lia.
  unfold Py.str, pretty, pretty_Z, pretty, pretty_positive, pretty, pretty_N.
  by rewrite decide_False.
Qed.

Lemma str_digits (n : Z) : 0 < n → all_digits (Py.str n) = true.
Proof. intros L. rewrite str_positive by done. by apply all_digits_pretty_N_go. Qed.

Lemma int_digits_zeros (k : nat) (s : string) (b : bool) :
  Py.int_digits 0 b (Py.zeros k +:+ s)
  = Py.int_digits 0 (match k with O => b | S _ => true end) s.
Proof.
  revert b. induction k as [|k IH]; intros b; [done|].
  cbn [Py.zeros]. rewrite append_String. cbn [Py.int_digits].
  change (Py.isdigit "0") with true. cbn iota.
  change (10 * 0 + Py.digit_value "0") with 0. rewrite IH. by destruct k.
Qed.

Lemma all_digits_zeros (k : nat) : all_digits (Py.zeros k) = true.
Proof. induction k; [done|]. cbn [Py.zeros all_digits]. by rewrite IHk. Qed.

Lemma zfill_digits (s : string) (width : nat) :
  all_digits s = true → Py.zfill s width = Py.zeros (width - String.length s) +:+ s.
Proof.
  intros D. unfold Py.zfill. destruct s as [|c s]; [done|].
  cbn [all_digits] in D. apply andb_true_iff in D as [D _].
  generalize (Py.zeros (width - String.length (String c s))). intros pad.
  destruct c as [[] [] [] [] [] [] [] []]; try reflexivity;
    vm_compute in D; discriminate D.
Qed.

Lemma int_digits_only (s : string) :
  all_digits s = true → Py.int s = Py.int_digits 0 false s.
Proof.
  intros D. unfold Py.int. rewrite strip_digits by done.
  destruct s as [|c s]; [done|].
  cbn [all_digits] in D. apply andb_true_iff in D as [D _].
  destruct c as [[] [] [] [] [] [] [] []]; try reflexivity;
    vm_compute in D; discriminate D.
Qed.

(** [int(str(n).zfill(width)) == n] for a positive [n]. *)
Lemma int_zfill_str (n : Z) (width : nat) :
  0 < n → Py.int (Py.zfill (Py.str n) width) = Some n.
Proof.
  intros L. pose proof (str_digits n L) as D.
  rewrite zfill_digits by done.
  rewrite int_digits_only by (by rewrite all_digits_app, all_digits_zeros, D).
  rewrite int_digits_zeros, str_positive by done.
  rewrite int_digits_pretty_N_go by lia. cbn [Py.int_digits].
  f_equal. lia.
Qed.

(** ** Admission numbers, one after the other *)

Lemma length_append (s1 s2 : string) :
  String.length (s1 +:+ s2) = (String.length s1 + String.length s2)%nat.
Proof.
  induction s1 as [|a s1 IH]; [done|]. rewrite append_String. simpl. by rewrite IH.
Qed.

Lemma length_zeros (k : nat) : String.length (Py.zeros k) = k.
Proof. induction k; [done|]. simpl. by f_equal. Qed.

Lemma next_admission_number_scanned (db : DB) :
  _next_admission_number db = "prog" +:+ Py.zfill (Py.str (scanned_max db + 1)) 4.
Proof. reflexivity. Qed.

Lemma scanned_max_foldr (db : DB) :
  scanned_max db
  = foldr Z.max 0 (omap (λ adm, Py.int (Py.replace adm "prog" ""))
                     (student_admission_numbers "prog" (users db))).
Proof. apply scan_max. Qed.

Lemma foldr_max_ge (a : Z) (l : list Z) : a ≤ foldr Z.max a l.
Proof. induction l as [|y l IH]; simpl; lia. Qed.

Lemma foldr_max_elem (a n : Z) (l : list Z) : n ∈ l → n ≤ foldr Z.max a l.
Proof.
  induction l as [|y l IH]; intros I; [by apply elem_of_nil in I|].
  apply elem_of_cons in I as [->|I]; simpl; [lia|]. specialize (IH I). lia.
Qed.

Lemma foldr_max_perm (a : Z) (l l' : list Z) :
  l ≡ₚ l' → foldr Z.max a l = foldr Z.max a l'.
Proof. induction 1; simpl; [done|congruence|lia|congruence]. Qed.

Lemma scanned_max_nonneg (db : DB) : 0 ≤ scanned_max db.
Proof. rewrite scanned_max_foldr. apply foldr_max_ge. Qed.

Lemma all_digits_no_prog (s : string) :
  all_digits s = true → occurs "prog" s = false.
Proof.
  induction s as [|c s IH]; [done|]. cbn [all_digits occurs].
  intros D. apply andb_true_iff in D as [D Ds]. rewrite (IH Ds), orb_false_r.
  destruct (String.prefix "prog" (String c s)) eqn:P; [|done].
  apply prefix_cons_inv in P as (s' & [= -> _] & _). discriminate D.
Qed.

(** The scan reads an allocated number back as the number it holds. *)
Lemma scan_reads_allocated (n : Z) :
  0 < n →
  Py.startswith ("prog" +:+ Py.zfill (Py.str n) 4) "prog" = true ∧
  Py.int (Py.replace ("prog" +:+ Py.zfill (Py.str n) 4) "prog" "") = Some n.
Proof.
  intros L.
  assert (D : all_digits (Py.zfill (Py.str n) 4) = true).
  { rewrite zfill_digits by by apply str_digits.
    by rewrite all_digits_app, all_digits_zeros, str_digits. }
  assert (P : Py.startswith ("prog" +:+ Py.zfill (Py.str n) 4) "prog" = true).
  { unfold Py.startswith. rewrite !append_String. simpl.
    repeat (destruct (Ascii.ascii_dec _ _); [|done]). by destruct (Py.zfill _ _). }
  split; [exact P|].
  rewrite replace_prefix_prog; [| exact P | by apply all_digits_no_prog].
  cbn [string_drop String.append]. by apply int_zfill_str.
Qed.

(** X1: the number allocated is the prefix followed by decimal digits,
    four of them at least. *)
Theorem next_admission_number_format (db : DB) :
  ∃ digits,
    _next_admission_number db = "prog" +:+ digits ∧
    all_digits digits = true ∧
    (4 ≤ String.length digits)%nat.
Proof.
  exists (Py.zfill (Py.str (scanned_max db + 1)) 4).
  pose proof (scanned_max_nonneg db) as N.
  split; [done|].
  rewrite zfill_digits by (apply str_digits; lia).
  rewrite all_digits_app, all_digits_zeros, str_digits by lia.
  split; [done|]. rewrite length_append, length_zeros. lia.
Qed.

(** X2: the number allocated is the number of no student in the
    table. *)
Theorem next_admission_number_fresh (db : DB) (u : User) :
  u ∈ users db → role u = "student" →
  admission_number u ≠ Some (_next_admission_number db).
Proof.
  intros I R E. pose proof (scanned_max_nonneg db) as N.
  rewrite next_admission_number_scanned in E.
  destruct (scan_reads_allocated (scanned_max db + 1)) as [P Rd]; [lia|].
  assert (J : "prog" +:+ Py.zfill (Py.str (scanned_max db + 1)) 4
              ∈ student_admission_numbers "prog" (users db)).
  { unfold student_admission_numbers. apply list_elem_of_omap.
    exists u. split; [done|]. by rewrite E, R, P. }
  assert (K : scanned_max db + 1 ≤ scanned_max db).
  { rewrite scanned_max_foldr at 2. apply foldr_max_elem.
    apply list_elem_of_omap. eexists. split; [exact J|exact Rd]. }
  lia.
Qed.

(** X3: once a student with the allocated number is in the table, the
    next number allocated is the one after it. *)
Theorem next_admission_number_advances (db : DB) (u : User) :
  role u = "student" →
  admission_number u = Some (_next_admission_number db) →
  ∃ n, 0 < n ∧
    _next_admission_number db = "prog" +:+ Py.zfill (Py.str n) 4 ∧
    _next_admission_number (with_user u db)
    = "prog" +:+ Py.zfill (Py.str (n + 1)) 4.
Proof.
  intros R E. pose proof (scanned_max_nonneg db) as N.
  exists (scanned_max db + 1). split; [lia|]. split; [done|].
  rewrite next_admission_number_scanned. do 3 f_equal.
  destruct (scan_reads_allocated (scanned_max db + 1)) as [P Rd]; [lia|].
  unfold scanned_max at 1, with_user. simpl.
  unfold student_admission_numbers. rewrite omap_app, fold_left_app.
  fold (student_admission_numbers "prog" (users db)). fold (scanned_max db).
  simpl. rewrite E, R. rewrite next_admission_number_scanned, P. simpl.
  rewrite Rd. lia.
Qed.

(** X4: the number allocated does not depend on the order in which the
    table yields its rows. *)
Theorem next_admission_number_any_order (db db' : DB) :
  users db ≡ₚ users db' →
  _next_admission_number db = _next_admission_number db'.
Proof.
  intros P. rewrite !next_admission_number_scanned.
  assert (E : scanned_max db = scanned_max db'); [|by rewrite E].
  rewrite !scanned_max_foldr.
  apply foldr_max_perm. unfold student_admission_numbers. by rewrite P.
Qed.

Lemma next_admission_number_fresh_witness :
  Some "prog0003" ≠ Some (_next_admission_number db_two_students).
Proof.
  apply (next_admission_number_fresh db_two_students
           (sample_user 2 "student" (Some "prog0003") "brian" None)).
  - right. left.
  - reflexivity.
Defined.

Lemma next_admission_number_advances_witness :
  ∃ n, 0 < n ∧
    _next_admission_number db_two_students = "prog" +:+ Py.zfill (Py.str n) 4 ∧
    _next_admission_number
      (with_user (sample_user 3 "student" (Some "prog0004") "carol" None)
         db_two_students)
    = "prog" +:+ Py.zfill (Py.str (n + 1)) 4.
Proof.
  exact (next_admission_number_advances db_two_students
           (sample_user 3 "student" (Some "prog0004") "carol" None)
           eq_refl eq_refl).
Defined.

Lemma next_admission_number_any_order_witness :
  _next_admission_number db_two_students
  = _next_admission_number
      (DB_set_users
         [sample_user 2 "student" (Some "prog0003") "brian" None;
          sample_user 1 "student" (Some "prog0001") "amina" None] empty_db).
Proof.
  apply next_admission_number_any_order. simpl. apply Permutation_swap.
Defined.

(** ** Grades, saved and compared *)

Section grades.
Context `{FloatParser}.

Lemma Model_save_again how (obj row : Mark) :
  Model_save how obj = Ok row → Model_save (again how row) obj = Ok row.
Proof.
  destruct how as [|stored [fs|]]; [done| |done].
  unfold Model_save, again.
  generalize (bool_decide ("student" ∈ fs)), (bool_decide ("subject" ∈ fs)),
    (bool_decide ("teacher" ∈ fs)), (bool_decide ("school_class" ∈ fs)),
    (bool_decide ("semester" ∈ fs)), (bool_decide ("score" ∈ fs)),
    (bool_decide ("grade" ∈ fs)).
  intros b1 b2 b3 b4 b5 b6 b7.
  destruct b6; cbn [result_bind].
  - destruct (DecimalField_get_db_prep_save 5 2 (score obj)) as [x|e];
      cbn [result_bind]; [|done].
    destruct (b7 && bool_decide (grade obj = None)); [done|].
    intros [= <-]. by destruct b1, b2, b3, b4, b5, b7.
  - destruct (b7 && bool_decide (grade obj = None)); [done|].
    intros [= <-]. by destruct b1, b2, b3, b4, b5, b7.
Qed.

(** X5: saving once more the object that a save has left, over the row
    that it has written, changes neither the object nor the row. *)
Theorem Mark_save_again how (m obj row : Mark) :
  Mark_save how m = Ok (obj, row) →
  Mark_save (again how row) obj = Ok (obj, row).
Proof.
  destruct (Py.not_in_none_empty (score m)) eqn:B.
  - destruct (float (score m)) as [f|e] eqn:F.
    + rewrite (Mark_save_float _ _ f) by done.
      destruct (Model_save how (graded f m)) as [r|e] eqn:S; [|done].
      intros [= <- <-].
      rewrite (Mark_save_float _ _ f) by done.
      change (graded f (graded f m)) with (graded f m).
      by rewrite (Model_save_again _ _ _ S).
    + by rewrite (Mark_save_float_raises _ _ e).
  - rewrite Mark_save_blank by done.
    destruct (Model_save how (Mark_set_grade None m)) as [r|e] eqn:S; [|done].
    intros [= <- <-].
    rewrite Mark_save_blank by done.
    change (Mark_set_grade None (Mark_set_grade None m))
      with (Mark_set_grade None m).
    by rewrite (Model_save_again _ _ _ S).
Qed.

Lemma grade_point_le (s1 s2 : Q) :
  (s1 <= s2)%Q →
  (grade_point (grade_of_score s1) <= grade_point (grade_of_score s2))%Q.
Proof.
  intros L. unfold grade_of_score.
  repeat match goal with
  | |- context [Qlt_le_dec ?s ?k] => destruct (Qlt_le_dec s k)
  end; try (vm_compute; discriminate);
  exfalso;
  repeat match goal with
  | A : (?k <= s1)%Q, B : (s2 < ?k)%Q |- _ =>
      apply (Qlt_not_le _ _ B), (Qle_trans _ s1); [exact A|exact L]
  | A : (?k <= s1)%Q |- _ => clear A
  | B : (s2 < ?k)%Q |- _ => clear B
  | A : (s1 < ?k)%Q |- _ => clear A
  | B : (?k <= s2)%Q |- _ => clear B
  end.
Qed.

(** X6: of two scores, the higher one never gets the lower grade point. *)
Theorem grade_point_monotone (s1 s2 : Q) :
  (s1 <= s2)%Q →
  ∃ g1 p1 g2 p2,
    get_grade_and_gpa (Py.Num s1) = Ok (g1, p1) ∧
    get_grade_and_gpa (Py.Num s2) = Ok (g2, p2) ∧
    (p1 <= p2)%Q.
Proof.
  intros L. rewrite !get_grade_and_gpa_spec.
  do 4 eexists. split; [done|]. split; [done|]. by apply grade_point_le.
Qed.

End grades.

(** Sara's 72.5 is saved as a new row, and saved once more. *)
Lemma Mark_save_again_witness :
  let obj := sample_mark 3 1 6 1 2 (Py.Num (725 # 10)) (Some "C") in
  let row := sample_mark 3 1 6 1 2 (Py.Num (7250 # 100)) (Some "C") in
  @Mark_save plain_decimal insert (sample_mark 3 1 6 1 2 (Py.Str "72.5") (Some ""))
  = Ok (obj, row) ∧
  @Mark_save plain_decimal (update row None) obj = Ok (obj, row).
Proof.
  intros obj row.
  assert (S : @Mark_save plain_decimal insert
                (sample_mark 3 1 6 1 2 (Py.Str "72.5") (Some "")) = Ok (obj, row))
    by (vm_compute; reflexivity).
  split; [exact S|].
  exact (@Mark_save_again plain_decimal insert _ obj row S).
Defined.

Lemma grade_point_monotone_witness :
  ∃ g1 p1 g2 p2,
    @get_grade_and_gpa plain_decimal (Py.Num 59) = Ok (g1, p1) ∧
    @get_grade_and_gpa plain_decimal (Py.Num 60) = Ok (g2, p2) ∧
    (p1 <= p2)%Q.
Proof.
  apply (@grade_point_monotone plain_decimal 59 60). 
  unfold Qle. simpl. lia.
Defined.

(** ** What an upload writes *)

Section upload_more.
Context `{FloatParser}.

(** X7: [upload_marks] never rewrites a grade.  Whatever the request
    and its outcome, the rows of before are in the table afterwards, in
    their places, each with its five-tuple and its grade; the rows that
    are new come after them. *)
Theorem upload_marks_never_regrades request db :
  ∃ kept new,
    marks (upload_marks request db).1 = kept ++ new ∧
    Forall2 rescored (marks db) kept.
Proof.
  destruct (upload_marks_effect request db) as (students & sj & t & c & sem & ->).
  apply save_marks_rescored.
Qed.

Lemma grade_marks_scored (ms : list Mark) :
  Forall scored ms →
  grade_marks ms
  = Ok ((λ m, (Mark_set_grade (Some (grade_of_score (score_of m))) m,
               grade_point (grade_of_score (score_of m)))) <$> ms).
Proof.
  induction 1 as [|m ms [s Es] W IH]; [done|].
  cbn [grade_marks fmap list_fmap]. rewrite Es, get_grade_and_gpa_spec, IH.
  unfold score_of. by rewrite Es.
Qed.

Lemma round_half_even_close (q : Q) :
  (Qabs (inject_Z (round_half_even q) - q) <= 1 # 2)%Q.
Proof.
  unfold round_half_even.
  pose proof (Qfloor_le q) as F1. pose proof (Qlt_floor q) as F2.
  rewrite inject_Z_plus in F2. change (inject_Z 1) with 1%Q in F2.
  apply Qabs_Qle_condition.
  destruct (q - inject_Z (Qfloor q) ?= 1 # 2)%Q eqn:C;
    [apply (proj2 (Qeq_alt _ _)) in C | apply (proj2 (Qlt_alt _ _)) in C
    | apply (proj2 (Qgt_alt _ _)) in C];
    try destruct (Z.even _); rewrite ?inject_Z_plus;
    change (inject_Z 1) with 1%Q;
    revert F1 F2 C; generalize (inject_Z (Qfloor q)); intros n F1 F2 C;
    split; lra.
Qed.

(** [round(d, 2)] is within half a hundredth of [d]. *)
Lemma round2_close (d : Q) : (Qabs (round2 d - d) <= 1 # 200)%Q.
Proof.
  pose proof (round_half_even_close (d * 100)) as C. unfold round2.
  apply Qabs_Qle_condition in C as [C1 C2]. apply Qabs_Qle_condition.
  revert C1 C2. generalize (round_half_even (d * 100)). intros n C1 C2.
  assert (E : (n # 100 == inject_Z n * (1 # 100))%Q).
  { unfold Qeq, Qmult, inject_Z. simpl. lia. }
  rewrite E. clear E. revert C1 C2. generalize (inject_Z n). intros r C1 C2.
  split; lra.
Qed.

(** X8: [student_report] grades the marks anew.  When the marks of the
    student have a number as score, the report does not fail; it shows
    each mark with the grade of the band of its stored score, and the
    grade point of that grade, whatever grade the table holds; and the
    average it shows is the average of the stored scores to within half
    a hundredth. *)
Theorem student_report_regrades request viewer student_id db student :
  user request = Some viewer →
  role viewer ∈ ["admin"; "teacher"; "student"] →
  get_object_or_404 (λ u, user_id u = student_id ∧ role u = "student") (users db)
  = Ok student →
  let marks := filter (λ m, models.student m = user_id student) (marks db) in
  Forall scored marks →
  student_report request student_id db
  = Ok (render "reports/student_reports.html"
          (student_report_page student
             ((λ m, (Mark_set_grade (Some (grade_of_score (score_of m))) m,
                     grade_point (grade_of_score (score_of m)))) <$> marks)
             (total_score marks) (round2 (average_score marks))
             (subjects_count marks))) ∧
  (Qabs (round2 (average_score marks) - average_score marks) <= 1 # 200)%Q.
Proof.
  intros U R G marks W. split; [|apply round2_close].
  unfold student_report. rewrite U.
  unfold require_role. rewrite bool_decide_eq_true_2 by done. simpl.
  rewrite G. simpl. fold marks. by rewrite grade_marks_scored.
Qed.

Lemma save_marks_app post l1 l2 sj t c sem db :
  save_marks post (l1 ++ l2) sj t c sem db
  = match save_marks post l1 sj t c sem db with
    | (db1, Ok _) => save_marks post l2 sj t c sem db1
    | (db1, Raise e) => (db1, Raise e)
    end.
Proof.
  revert db. induction l1 as [|s l1 IH]; intros db; [done|].
  cbn [app save_marks]. destruct (truthy _); [|apply IH].
  destruct (update_or_create _ _ db) as [db1 [[]|e]]; [apply IH|done].
Qed.

(** X9: a score that [float] rejects stops the loop with [ValueError]:
    the students before it in the class have their rows written, the
    student and those after it have not. *)
Theorem save_marks_stops_at_rejected_score
    post before bad after sj t c sem db db1 v :
  save_marks post before sj t c sem db = (db1, Ok tt) →
  post !! marks_field (user_id bad) = Some v → v ≠ "" →
  float_of_string v = None →
  (length (rows_under (user_id bad, sj, t, c, sem) db1) ≤ 1)%nat →
  save_marks post (before ++ bad :: after) sj t c sem db = (db1, Raise ValueError).
Proof.
  intros B Pv V F L. rewrite save_marks_app, B. cbn [save_marks].
  rewrite Pv, truthy_of_Some by done. simpl.
  by rewrite update_or_create_rejected.
Qed.


(** X10: [upload_marks] writes to the [Mark] table alone, and only for
    a teacher or an admin who posts the form with [save_marks]. *)
Theorem upload_marks_writes_marks_only request db :
  let db' := (upload_marks request db).1 in
  (users db' = users db ∧ subjects db' = subjects db ∧ classes db' = classes db ∧
   semesters db' = semesters db ∧ teacher_subjects db' = teacher_subjects db ∧
   announcements db' = announcements db ∧ events db' = events db) ∧
  (marks db' ≠ marks db →
   ∃ u, user request = Some u ∧ (role u = "teacher" ∨ role u = "admin") ∧
        method request = "POST" ∧ "save_marks" ∈ dom (POST request)).
Proof.
  intros db'. subst db'. split.
  - destruct (upload_marks_effect request db) as (students & sj & t & c & sem & ->).
    destruct (save_marks_tables (POST request) sj t c sem students db) as [ms ->].
    done.
  - unfold upload_marks.
    destruct (user request) as [u|]; [|done].
    destruct (require_role u ["teacher"; "admin"]) eqn:R; [|done]. simpl.
    destruct (String.eqb (method request) "POST") eqn:M; [|done].
    destruct (_ && _); [|done].
    destruct (get_by_id_or_404 subject_id _ _ _) as [sj|]; [|done].
    destruct (get_by_id_or_404 class_id _ _ _) as [c|]; [|done].
    destruct (get_by_id_or_404 semester_id _ _ _) as [sem|]; [|done].
    match goal with |- context [match ?x with Ok _ => _ | Raise _ => _ end] =>
      destruct x as [t|] end; [|done].
    unfold upload_marks_selected.
    destruct (bool_decide (Exists _ _)); [|done].
    destruct (bool_decide (_ ∈ dom _)) eqn:S; [|done].
    intros _. exists u. split; [done|].
    apply bool_decide_eq_true_1 in R, S. apply String.eqb_eq in M.
    split; [|done].
    apply elem_of_cons in R as [R|R]; [by left|].
    apply elem_of_cons in R as [R|R]; [by right|]. by apply elem_of_nil in R.
Qed.

End upload_more.

(** Sara's report on a table where her 95 still has the grade "D" of
    an earlier upload: the report shows "A" with 4 points; the average
    of 64, 95 and 46, a third of 205, is shown as 68.33. *)
Lemma student_report_regrades_witness :
  ∃ total,
    @student_report plain_decimal (sample_request student_sara "GET" []) 3
      db_sara_marks
    = Ok (render "reports/student_reports.html"
            (student_report_page student_sara
               [(sample_mark 3 1 6 1 1 (Py.Num (6400 # 100)) (Some "D"), 1%Q);
                (sample_mark 3 1 6 1 2 (Py.Num (9500 # 100)) (Some "A"), 4%Q);
                (sample_mark 3 2 5 1 2 (Py.Num (4600 # 100)) (Some "F"), 0%Q)]
               total (6833 # 100) 2)) ∧
    (total == 205)%Q.
Proof.
  destruct (@student_report_regrades plain_decimal
              (sample_request student_sara "GET" []) student_sara 3 db_sara_marks
              student_sara eq_refl ltac:(right; right; left) eq_refl) as [E _].
  - vm_compute filter. repeat constructor; by eexists.
  - eexists. split; [rewrite E; reflexivity|]. vm_compute. reflexivity.
Defined.

Lemma save_marks_stops_at_rejected_score_witness :
  let post : gmap string string :=
    list_to_map [("marks_2", "64"); ("marks_3", "n/a"); ("marks_4", "70")] in
  @save_marks plain_decimal post [student_brian; student_sara; student_zoe]
    1 6 1 2 db_school
  = ((@save_marks plain_decimal post [student_brian] 1 6 1 2 db_school).1,
     Raise ValueError).
Proof.
  intros post.
  apply (@save_marks_stops_at_rejected_score plain_decimal post
           [student_brian] student_sara [student_zoe] 1 6 1 2 db_school _ "n/a");
    try (vm_compute; reflexivity); try discriminate.
  vm_compute. lia.
Defined.


Lemma upload_marks_writes_marks_only_witness :
  ∃ u, user (upload_form teacher_uma [("marks_3", "85")]) = Some u ∧
       (role u = "teacher" ∨ role u = "admin") ∧
       method (upload_form teacher_uma [("marks_3", "85")]) = "POST" ∧
       "save_marks" ∈ dom (POST (upload_form teacher_uma [("marks_3", "85")])).
Proof.
  apply (@upload_marks_writes_marks_only plain_decimal
           (upload_form teacher_uma [("marks_3", "85")]) db_school).
  vm_compute. discriminate.
Defined.

(** ** Teaching assignments *)

Lemma get_or_create_found row db db' :
  get_or_create row db = (db', Ok tt) →
  get_or_create row db' = (db', Ok tt) ∧
  row ∈ teacher_subjects db' ∧
  (db' = db ∨ db' = DB_set_teacher_subjects (teacher_subjects db ++ [row]) db).
Proof.
  unfold get_or_create.
  destruct (filter _ (teacher_subjects db)) as [|ts [|ts' l]] eqn:F; [| |done].
  - intros [= <-]. simpl. rewrite filter_app, F, filter_cons_True by done.
    split; [done|]. split; [|by right]. apply elem_of_app. right. left.
  - intros [= <-]. rewrite F. split; [done|]. split; [|by left].
    assert (I : ts ∈ filter (λ ts, ts_teacher ts = ts_teacher row ∧
                                   ts_subject ts = ts_subject row ∧
                                   ts_school_class ts = ts_school_class row)
                       (teacher_subjects db)) by (rewrite F; left).
    apply list_elem_of_filter in I as [(E1 & E2 & E3) I].
    destruct ts, row. simpl in *. by subst.
Qed.

(** X11: an assignment form that was saved can be posted again: the
    second post is answered like the first and writes nothing; the
    first has added one row at most. *)
Theorem assignment_saved_once request db db' :
  teacher_subjects_manage request db = (db', Ok (basic assignment_saved)) →
  teacher_subjects_manage request db' = (db', Ok (basic assignment_saved)) ∧
  (db' = db ∨
   ∃ row, db' = DB_set_teacher_subjects (teacher_subjects db ++ [row]) db).
Proof.
  unfold teacher_subjects_manage.
  destruct (user request) as [u|]; [|done].
  destruct (negb _); [done|].
  destruct (String.eqb (method request) "POST"); [|done].
  destruct (get_by_posted_id_or_404 subject_id _ (subjects db) _) as [sj|] eqn:Gsj;
    [|done].
  destruct (get_by_posted_id_or_404 class_id _ (classes db) _) as [c|] eqn:Gc;
    [|done].
  match goal with |- context [match ?x with Ok _ => _ | Raise _ => _ end] =>
    destruct x as [t|] eqn:Gt end; [|done].
  destruct (get_or_create _ db) as [db1 [[]|e]] eqn:G; [|done].
  intros [= <-]. apply get_or_create_found in G as (G' & _ & D).
  assert (T : users db1 = users db ∧ subjects db1 = subjects db ∧
              classes db1 = classes db) by (by destruct D as [->| ->]).
  destruct T as (-> & -> & ->). rewrite Gsj, Gc, Gt, G'. split; [done|].
  destruct D as [D|D]; [by left|right; eauto].
Qed.



Lemma teacher_subjects_manage_saved request db db' :
  teacher_subjects_manage request db = (db', Ok (basic assignment_saved)) →
  ∃ u sj c t,
    user request = Some u ∧
    get_by_posted_id_or_404 subject_id (λ _, True) (subjects db)
      (POST request !! "subject_id") = Ok sj ∧
    get_by_posted_id_or_404 class_id (λ _, True) (classes db)
      (POST request !! "class_id") = Ok c ∧
    (if String.eqb (role u) "admin" then
       get_by_posted_id_or_404 user_id (λ u, role u = "teacher") (users db)
         (POST request !! "teacher_id")
     else Ok u) = Ok t ∧
    (role u = "teacher" ∨ role u = "admin") ∧
    get_or_create {| ts_teacher := user_id t; ts_subject := subject_id sj;
                     ts_school_class := class_id c |} db = (db', Ok tt).
Proof.
  unfold teacher_subjects_manage.
  destruct (user request) as [u|]; [|done].
  destruct (require_role u ["teacher"; "admin"]) eqn:R; [|done]. simpl.
  destruct (String.eqb (method request) "POST"); [|done].
  destruct (get_by_posted_id_or_404 subject_id _ (subjects db) _) as [sj|] eqn:Gsj;
    [|done].
  destruct (get_by_posted_id_or_404 class_id _ (classes db) _) as [c|] eqn:Gc;
    [|done].
  match goal with |- context [match ?x with Ok _ => _ | Raise _ => _ end] =>
    destruct x as [t|] eqn:Gt end; [|done].
  destruct (get_or_create _ db) as [db1 [[]|e]] eqn:G; [|done].
  intros [= <-]. exists u, sj, c, t. repeat (split; [done|]).
  split; [|done]. apply bool_decide_eq_true_1 in R.
  apply elem_of_cons in R as [R|R]; [by left|].
  apply elem_of_cons in R as [R|R]; [by right|]. by apply elem_of_nil in R.
Qed.

Lemma get_by_posted_id_or_404_found {A} (pk : A → Z) (P : A → Prop)
    `{!∀ x, Decision (P x)} (table : list A) (v : option string) (x : A) :
  get_by_posted_id_or_404 pk P table v = Ok x →
  ∃ s, v = Some s ∧ s ≠ "" ∧ get_by_id_or_404 pk P table s = Ok x.
Proof.
  destruct v as [s|]; [|done]. simpl. intros G. exists s. split; [done|].
  split; [|done]. intros ->. by vm_compute in G.
Qed.

Section assignments.
Context `{FloatParser}.

(** X12: a teacher who has saved the assignment form for a subject and
    a class is not refused by the assignment check when uploading marks
    for that subject and that class. *)
Theorem registered_teacher_may_upload request upload db db' u sem_s sem :
  teacher_subjects_manage request db = (db', Ok (basic assignment_saved)) →
  user request = Some u → role u = "teacher" →
  user upload = Some u → method upload = "POST" →
  POST upload !! "subject" = POST request !! "subject_id" →
  POST upload !! "school_class" = POST request !! "class_id" →
  POST upload !! "semester" = Some sem_s → sem_s ≠ "" →
  get_by_id_or_404 semester_id (λ _, True) (semesters db) sem_s = Ok sem →
  (upload_marks upload db').2
  ≠ Ok (redirect "progressive_app:upload_marks" [msg_error not_registered]).
Proof.
  intros S U R U2 M Esj Ec Psem Vsem Gsem.
  apply teacher_subjects_manage_saved in S
    as (u' & sj & c & t & U' & Gsj & Gc & Gt & _ & G).
  rewrite U in U'. injection U' as <-. rewrite R in Gt. simpl in Gt.
  injection Gt as <-.
  apply get_by_posted_id_or_404_found in Gsj as (sj_s & Psj & Vsj & Gsj).
  apply get_by_posted_id_or_404_found in Gc as (c_s & Pc & Vc & Gc).
  apply get_or_create_found in G as (_ & I & D).
  assert (T : subjects db' = subjects db ∧ classes db' = classes db ∧
              semesters db' = semesters db) by (by destruct D as [->| ->]).
  destruct T as (Tsj & Tc & Tsem).
  rewrite (upload_marks_reaches_check upload db' u sj_s c_s sem_s sj c sem u);
    try done; try congruence.
  - apply upload_marks_selected_check. apply Exists_exists. eexists.
    split; [exact I|done].
  - by left.
  - unfold acting_teacher. by rewrite R.
Qed.

End assignments.

(** X13: a row that [teacher_subjects_manage] adds names a user whose
    role is teacher, the user or one of the table, and a subject and a
    class of the tables; no other table is written. *)
Theorem assignments_only_for_teachers request db :
  let db' := (teacher_subjects_manage request db).1 in
  (users db' = users db ∧ subjects db' = subjects db ∧ classes db' = classes db ∧
   semesters db' = semesters db ∧ marks db' = marks db ∧
   announcements db' = announcements db ∧ events db' = events db) ∧
  ∀ row, row ∈ teacher_subjects db' →
    row ∈ teacher_subjects db ∨
    ∃ t sj c,
      role t = "teacher" ∧ (user request = Some t ∨ t ∈ users db) ∧
      sj ∈ subjects db ∧ c ∈ classes db ∧
      row = {| ts_teacher := user_id t; ts_subject := subject_id sj;
               ts_school_class := class_id c |}.
Proof.
  intros db'. subst db'. unfold teacher_subjects_manage.
  destruct (user request) as [u|]; [|by split; [|left]].
  destruct (require_role u ["teacher"; "admin"]) eqn:R; [|by split; [|left]].
  simpl.
  destruct (String.eqb (method request) "POST"); [|by split; [|left]].
  destruct (get_by_posted_id_or_404 subject_id _ (subjects db) _) as [sj|] eqn:Gsj;
    [|by split; [|left]].
  destruct (get_by_posted_id_or_404 class_id _ (classes db) _) as [c|] eqn:Gc;
    [|by split; [|left]].
  match goal with |- context [match ?x with Ok _ => _ | Raise _ => _ end] =>
    destruct x as [t|] eqn:Gt end; [|by split; [|left]].
  apply get_by_posted_id_or_404_found in Gsj as (sj_s & _ & _ & Gsj).
  apply get_by_posted_id_or_404_found in Gc as (c_s & _ & _ & Gc).
  apply get_by_id_or_404_found in Gsj as (_ & Isj & _), Gc as (_ & Ic & _).
  assert (T : role t = "teacher" ∧ (Some u = Some t ∨ t ∈ users db)).
  { destruct (String.eqb (role u) "admin") eqn:A.
    - apply get_by_posted_id_or_404_found in Gt as (t_s & _ & _ & Gt).
      apply get_by_id_or_404_found in Gt as (_ & It & Rt). by split; [|right].
    - injection Gt as <-. split; [|by left].
      apply bool_decide_eq_true_1 in R.
      apply elem_of_cons in R as [R|R]; [done|].
      apply elem_of_cons in R as [R|R]; [|by apply elem_of_nil in R].
      rewrite R in A. done. }
  destruct T as [Rt It].
  unfold get_or_create.
  destruct (filter _ (teacher_subjects db)) as [|ts [|ts' l]];
    simpl; [|by split; [|left]..].
  split; [done|]. intros row I. apply elem_of_app in I as [I|I]; [by left|].
  apply list_elem_of_singleton in I as ->. right. by exists t, sj, c.
Qed.

(** Tom saves the assignment form for subject 1 in class 1. *)
Lemma assignment_saved_once_witness :
  let request :=
    sample_request teacher_tom "POST" [("subject_id", "1"); ("class_id", "1")] in
  let db' := (teacher_subjects_manage request db_school).1 in
  teacher_subjects_manage request db' = (db', Ok (basic assignment_saved)).
Proof.
  intros request db'.
  apply (assignment_saved_once request db_school db'). vm_compute. reflexivity.
Defined.

(** After that, his upload for subject 1 in class 1 is not refused. *)
Lemma registered_teacher_may_upload_witness :
  let request :=
    sample_request teacher_tom "POST" [("subject_id", "1"); ("class_id", "1")] in
  let db' := (teacher_subjects_manage request db_school).1 in
  (@upload_marks plain_decimal (upload_form teacher_tom [("marks_3", "85")]) db').2
  ≠ Ok (redirect "progressive_app:upload_marks" [msg_error not_registered]).
Proof.
  intros request db'.
  apply (@registered_teacher_may_upload plain_decimal request
           (upload_form teacher_tom [("marks_3", "85")]) db_school db'
           teacher_tom "2" {| semester_id := 2; semester_name := "Term 2" |});
    try (vm_compute; reflexivity); try discriminate.
Defined.

Lemma assignments_only_for_teachers_witness :
  let request :=
    sample_request admin_head "POST"
      [("subject_id", "2"); ("class_id", "2"); ("teacher_id", "6")] in
  let row := {| ts_teacher := 6; ts_subject := 2; ts_school_class := 2 |} in
  row ∈ teacher_subjects db_school ∨
  ∃ t sj c,
    role t = "teacher" ∧ (user request = Some t ∨ t ∈ users db_school) ∧
    sj ∈ subjects db_school ∧ c ∈ classes db_school ∧
    row = {| ts_teacher := user_id t; ts_subject := subject_id sj;
             ts_school_class := class_id c |}.
Proof.
  intros request row.
  apply (proj2 (assignments_only_for_teachers request db_school)).
  vm_compute. do 3 right. left.
Defined.

(** ** The class report *)

Section pages.
Context (height : Q).

Lemma rows_of_draw_marks marks y p :
  rows_of (finished (draw_marks height marks y p) ++ [current (draw_marks height marks y p)])
  = rows_of (finished p ++ [current p]) ++ marks.
Proof.
  revert y p. induction marks as [|m marks IH]; intros y p.
  { by rewrite app_nil_r. }
  cbn [draw_marks].
  unfold rows_of in *.
  destruct (Qlt_le_dec (y - 20) 100).
  - rewrite IH. simpl. rewrite !concat_app, !omap_app. simpl.
    rewrite !app_nil_r, !omap_app. simpl. by rewrite <- !app_assoc.
  - rewrite IH. simpl. rewrite !concat_app, !omap_app. simpl.
    rewrite !app_nil_r, !omap_app. simpl. by rewrite <- !app_assoc.
Qed.

Lemma spaced_snoc ys y :
  spaced ys → (∀ y0, last ys = Some y0 → y = (y0 - 20)%Q) → spaced (ys ++ [y]).
Proof.
  intros Sp L i a b Ha Hb.
  destruct (decide (S i < length ys)%nat) as [Lt|Ge].
  - rewrite lookup_app_l in Ha by lia. rewrite lookup_app_l in Hb by lia.
    by apply (Sp i).
  - assert (length (ys ++ [y]) = S (length ys)) as Len
      by (rewrite length_app; simpl; lia).
    pose proof (lookup_lt_Some _ _ _ Hb) as Lb. rewrite Len in Lb.
    assert (S i = length ys) as Ei by lia.
    rewrite lookup_app_l in Ha by lia.
    rewrite lookup_app_r in Hb by lia.
    replace (S i - length ys)%nat with 0%nat in Hb by lia.
    injection Hb as <-. apply L. rewrite last_lookup.
    by replace (pred (length ys)) with i by lia.
Qed.

Lemma draw_marks_within_margins marks y p :
  (200 <= height)%Q → ready height y p →
  Forall (within_margins height) (finished (draw_marks height marks y p)) ∧
  within_margins height (current (draw_marks height marks y p)).
Proof.
  intros Hh. revert y p. induction marks as [|m marks IH]; intros y p R.
  { by destruct R as (_ & ? & ? & _). }
  destruct R as (By & Fp & [Bc Sc] & Lc). cbn [draw_marks].
  assert (W : within_margins height (current p ++ [mark_row y m])).
  { unfold within_margins, row_positions. rewrite omap_app. simpl. split.
    - apply Forall_app. split; [done|]. by apply Forall_singleton.
    - by apply spaced_snoc. }
  destruct (Qlt_le_dec (y - 20) 100) as [Lt|Ge]; apply IH.
  - split; [split; lra|]. split; [|split; [|done]].
    + simpl. apply Forall_app. split; [done|]. by apply Forall_singleton.
    + simpl. split; [constructor|]. intros i a b Ha. done.
  - split; [split; lra|]. split; [done|]. split; [done|].
    simpl. unfold row_positions. rewrite omap_app. simpl.
    intros y0. rewrite last_snoc. by intros [= <-].
Qed.

Lemma draw_marks_last_page marks y p :
  marks ≠ [] →
  let p' := draw_marks height marks y p in
  ∃ y' m,
    last (concat (finished p' ++ [current p'])) = Some (mark_row y' m) ∧
    (current p' = [] ↔ (y' - 20 < 100)%Q).
Proof.
  revert y p. induction marks as [|m marks IH]; intros y p N; [done|].
  cbn [draw_marks]. destruct marks as [|m' marks].
  - cbn [draw_marks]. destruct (Qlt_le_dec (y - 20) 100) as [Lt|Ge]; simpl.
    + exists y, m. split; [|done].
      rewrite !concat_app. simpl. rewrite !app_nil_r, app_assoc. apply last_snoc.
    + exists y, m. split.
      * rewrite concat_app. simpl. rewrite app_nil_r, app_assoc. apply last_snoc.
      * split; [intros E; by destruct (current p)|intros Lt; lra].
  - destruct (Qlt_le_dec (y - 20) 100); by apply IH.
Qed.

End pages.

(** X14: [class_marks_pdf] answers with a document only to a teacher
    with the assignment for the class and the subject; the rows of the
    document are that teacher's marks for them, each one once, in table
    order. *)
Theorem class_marks_pdf_rows height request class_id subject_id db name pages :
  class_marks_pdf height request class_id subject_id db = Ok (pdf_pages name pages) →
  ∃ u, user request = Some u ∧ role u = "teacher" ∧
       Exists (λ ts, ts_teacher ts = user_id u ∧ ts_subject ts = subject_id ∧
                     ts_school_class ts = class_id) (teacher_subjects db) ∧
       rows_of pages
       = filter (λ m, school_class m = class_id ∧ subject m = subject_id ∧
                      teacher m = user_id u) (marks db).
Proof.
  unfold class_marks_pdf.
  destruct (user request) as [u|]; [|done].
  destruct (String.eqb (role u) "teacher") eqn:R; [|done]. simpl.
  unfold get_object_or_404.
  destruct (filter _ (classes db)) as [|c [|c' l]] eqn:Fc; [done| |done]. simpl.
  destruct (filter _ (subjects db)) as [|sj [|sj' l]] eqn:Fsj; [done| |done]. simpl.
  assert (Ec : models.class_id c = class_id).
  { assert (I : c ∈ filter (λ c, models.class_id c = class_id) (classes db))
      by (rewrite Fc; left). by apply list_elem_of_filter in I as [? _]. }
  assert (Esj : models.subject_id sj = subject_id).
  { assert (I : sj ∈ filter (λ s, models.subject_id s = subject_id) (subjects db))
      by (rewrite Fsj; left). by apply list_elem_of_filter in I as [? _]. }
  rewrite Ec, Esj.
  destruct (bool_decide (Exists _ _)) eqn:A; [|done]. simpl.
  intros [= _ <-]. exists u. split; [done|].
  split; [by apply String.eqb_eq|]. split; [by apply bool_decide_eq_true_1 in A|].
  rewrite rows_of_draw_marks. done.
Qed.

(** X15: on a page at least 220 high, every row of the document lies
    between 100 and 100 below the top, and the rows of a page lie 20
    apart. *)
Theorem class_marks_pdf_margins height request class_id subject_id db name pages :
  (220 <= height)%Q →
  class_marks_pdf height request class_id subject_id db = Ok (pdf_pages name pages) →
  Forall (within_margins height) pages.
Proof.
  intros Hh. unfold class_marks_pdf.
  destruct (user request) as [u|]; [|done].
  destruct (negb _); [done|].
  destruct (get_object_or_404 _ (classes db)) as [c|]; [|done]. simpl.
  destruct (get_object_or_404 _ (subjects db)) as [sj|]; [|done]. simpl.
  destruct (negb _); [done|].
  intros [= _ <-]. simpl.
  match goal with |- context [draw_marks height ?ms ?y ?p] =>
    destruct (draw_marks_within_margins height ms y p) as [F C] end.
  - lra.
  - split; [split; lra|]. split; [constructor|]. split; [|done].
    split; [constructor|]. intros i a b Ha. done.
  - apply Forall_app. split; [done|]. by apply Forall_singleton.
Qed.

(** X16: the document ends with an empty page exactly when the last
    row was drawn less than 20 above the bottom margin; a document
    without rows is its heading page. *)
Theorem class_marks_pdf_last_page height request class_id subject_id db name pages :
  class_marks_pdf height request class_id subject_id db = Ok (pdf_pages name pages) →
  ∃ before final,
    pages = before ++ [final] ∧
    match last (concat pages) with
    | Some (mark_row y _) => final = [] ↔ (y - 20 < 100)%Q
    | _ => before = [] ∧ final ≠ []
    end.
Proof.
  unfold class_marks_pdf.
  destruct (user request) as [u|]; [|done].
  destruct (negb _); [done|].
  destruct (get_object_or_404 _ (classes db)) as [c|]; [|done]. simpl.
  destruct (get_object_or_404 _ (subjects db)) as [sj|]; [|done]. simpl.
  destruct (negb _); [done|].
  intros [= _ <-]. simpl.
  match goal with |- context [draw_marks height ?ms ?y ?p] =>
    generalize ms; intros ms'; set (y0 := y); set (p0 := p) end.
  exists (finished (draw_marks height ms' y0 p0)),
    (current (draw_marks height ms' y0 p0)).
  split; [done|].
  destruct ms' as [|m ms'].
  - simpl. done.
  - destruct (draw_marks_last_page height (m :: ms') y0 p0) as (y' & m' & L & I);
      [done|].
    cbv zeta in L, I. by rewrite L.
Qed.

Lemma class_marks_pdf_rows_witness :
  let request := sample_request teacher_uma "GET" [] in
  let answer := class_marks_pdf (213840 # 254) request 1 1 db_school in
  rows_of (pages_of answer) = [sample_mark 2 1 6 1 1 (Py.Num 64) (Some "D")].
Proof.
  intros request answer.
  destruct (class_marks_pdf_rows (213840 # 254) request 1 1 db_school
              (file_name_of answer) (pages_of answer) eq_refl)
    as (u & U & _ & _ & R).
  injection U as <-. rewrite R. reflexivity.
Defined.

Lemma class_marks_pdf_margins_witness :
  let request := sample_request teacher_uma "GET" [] in
  let answer := class_marks_pdf (213840 # 254) request 1 1 db_full_class in
  Forall (within_margins (213840 # 254)) (pages_of answer).
Proof.
  intros request answer.
  apply (class_marks_pdf_margins (213840 # 254) request 1 1 db_full_class
           (file_name_of answer)).
  - unfold Qle. simpl. lia.
  - vm_compute. reflexivity.
Defined.

(** With the 32 marks of [db_full_class] on a page of height [A4], the
    document has a second page, which is empty. *)
Lemma class_marks_pdf_last_page_witness :
  let request := sample_request teacher_uma "GET" [] in
  let answer := class_marks_pdf (213840 # 254) request 1 1 db_full_class in
  ∃ first, pages_of answer = [first; []].
Proof.
  intros request answer.
  destruct (class_marks_pdf_last_page (213840 # 254) request 1 1 db_full_class
              (file_name_of answer) (pages_of answer))
    as (before & final & E & L).
  { vm_compute. reflexivity. }
  assert (Lc : last (concat (pages_of answer))
               = Some (mark_row (25880 # 254)
                         (sample_mark 2 1 6 1 1 (Py.Num 64) (Some "D"))))
    by (vm_compute; reflexivity).
  rewrite Lc in L.
  assert (F : final = []).
  { apply L. unfold Qlt. simpl. lia. }
  subst final.
  assert (Len : length (pages_of answer) = 2%nat) by (vm_compute; reflexivity).
  rewrite E in Len |- *. rewrite length_app in Len. simpl in Len.
  destruct before as [|first [|second before]]; simpl in Len; try lia.
  by exists first.
Defined.

(** ** Signing in *)

Section signing_in.
Context (check_password : User → string → bool).
Context (user_can_authenticate : User → bool).

(** X17: the backend returns a user exactly when the address and the
    password are not blank, the user is the one row with that address,
    the password checks and the user may authenticate. *)
Theorem authenticate_returns email password db u :
  authenticate check_password user_can_authenticate email password db = Ok (Some u)
  ↔ ∃ e pw,
      email = Some e ∧ e ≠ "" ∧ password = Some pw ∧ pw ≠ "" ∧
      filter (λ u, models.email u = e) (users db) = [u] ∧
      check_password u pw = true ∧ user_can_authenticate u = true.
Proof.
  unfold authenticate. split.
  - destruct (truthy email) eqn:Te; [|done].
    destruct (truthy password) eqn:Tp; [|done]. simpl.
    apply truthy_Some in Te as (e & -> & Ve), Tp as (pw & -> & Vpw). simpl.
    destruct (filter _ (users db)) as [|u0 [|u1 l]] eqn:F; [done| |done].
    destruct (check_password u0 pw) eqn:C; [|done].
    destruct (user_can_authenticate u0) eqn:A; [|done]. simpl.
    intros [= <-]. by exists e, pw.
  - intros (e & pw & -> & Ve & -> & Vpw & F & C & A).
    rewrite !truthy_of_Some by done. simpl. by rewrite F, C, A.
Qed.

(** X18: when two rows have the address, the backend raises
    [MultipleObjectsReturned] whatever the password: the handler is for
    [DoesNotExist] alone. *)
Theorem authenticate_shared_email e pw db :
  e ≠ "" → pw ≠ "" →
  (2 ≤ length (filter (λ u, models.email u = e) (users db)))%nat →
  authenticate check_password user_can_authenticate (Some e) (Some pw) db
  = Raise MultipleObjectsReturned.
Proof.
  intros Ve Vpw L. unfold authenticate.
  rewrite !truthy_of_Some by done. simpl.
  destruct (filter _ (users db)) as [|u0 [|u1 l]]; simpl in L; [lia|lia|done].
Qed.

End signing_in.

Lemma authenticate_returns_witness :
  authenticate (λ _ pw, String.eqb pw "1234") (λ _, true)
    (Some "tom@school") (Some "1234") db_school = Ok (Some teacher_tom).
Proof.
  apply authenticate_returns. exists "tom@school", "1234".
  repeat split; done.
Defined.

Lemma authenticate_shared_email_witness :
  authenticate (λ _ pw, String.eqb pw "1234") (λ _, true)
    (Some "tom@school") (Some "1234") db_shared_email
  = Raise MultipleObjectsReturned.
Proof.
  apply authenticate_shared_email; [done|done|]. vm_compute. lia.
Defined.

(** ** The results of a teacher *)

Lemma filter_by_id_elem column value marks shown (m : Mark) :
  filter_by_id column value marks = Ok shown →
  shown `sublist_of` marks ∧
  (m ∈ shown ↔
   m ∈ marks ∧ ∀ s, value = Some s → s ≠ "" → Py.int s = Some (column m)).
Proof.
  unfold filter_by_id. destruct (truthy value) eqn:T.
  - apply truthy_Some in T as (s & -> & V). simpl.
    destruct (Py.int s) as [n|] eqn:E; [|done]. intros [= <-].
    split; [apply sublist_filter|]. rewrite list_elem_of_filter. split.
    + intros [-> I]. split; [done|]. by intros s' [= <-] _.
    + intros [I A]. split; [|done]. specialize (A s eq_refl V). congruence.
  - intros [= <-]. split; [done|]. split; [|by intros [? _]].
    intros I. split; [done|]. intros s -> V.
    by rewrite truthy_of_Some in T.
Qed.

(** X19: the page of [teachers_results] lists, in table order, the
    marks given by the teacher that pass every filter of the query, and
    no other mark. *)
Theorem teachers_results_marks request query db template shown sjs cs sems :
  teachers_results request query db
  = Ok (page template (results_context shown sjs cs sems)) →
  ∃ u, user request = Some u ∧ role u = "teacher" ∧
       shown `sublist_of` marks db ∧
       ∀ m, m ∈ shown ↔
            m ∈ marks db ∧ teacher m = user_id u ∧
            passes query "subject" subject m ∧
            passes query "class" school_class m ∧
            passes query "semester" semester m.
Proof.
  unfold teachers_results.
  destruct (user request) as [u|]; [|done].
  destruct (String.eqb (role u) "teacher") eqn:R; [|done]. simpl.
  destruct (filter_by_id subject _ _) as [l1|] eqn:F1; [|done]. simpl.
  destruct (filter_by_id school_class _ _) as [l2|] eqn:F2; [|done]. simpl.
  destruct (filter_by_id semester _ _) as [l3|] eqn:F3; [|done]. simpl.
  intros [= _ <- _ _ _]. exists u. split; [done|].
  split; [by apply String.eqb_eq|].
  split.
  - destruct (filter_by_id_elem _ _ _ _ (sample_mark 0 0 0 0 0 Py.None_ None) F1)
      as [S1 _].
    destruct (filter_by_id_elem _ _ _ _ (sample_mark 0 0 0 0 0 Py.None_ None) F2)
      as [S2 _].
    destruct (filter_by_id_elem _ _ _ _ (sample_mark 0 0 0 0 0 Py.None_ None) F3)
      as [S3 _].
    etrans; [exact S3|]. etrans; [exact S2|]. etrans; [exact S1|].
    apply sublist_filter.
  - intros m.
    destruct (filter_by_id_elem _ _ _ _ m F1) as [_ E1].
    destruct (filter_by_id_elem _ _ _ _ m F2) as [_ E2].
    destruct (filter_by_id_elem _ _ _ _ m F3) as [_ E3].
    rewrite E3, E2, E1, list_elem_of_filter. unfold passes. tauto.
Qed.

Lemma teachers_results_marks_witness :
  let query : gmap string string := list_to_map [("subject", "1"); ("class", "")] in
  ∃ u, user (sample_request teacher_uma "GET" []) = Some u ∧ role u = "teacher" ∧
       [sample_mark 2 1 6 1 1 (Py.Num 64) (Some "D")] `sublist_of` marks db_school ∧
       ∀ m, m ∈ [sample_mark 2 1 6 1 1 (Py.Num 64) (Some "D")] ↔
            m ∈ marks db_school ∧ teacher m = user_id u ∧
            passes query "subject" subject m ∧
            passes query "class" school_class m ∧
            passes query "semester" semester m.
Proof.
  intros query.
  apply (teachers_results_marks (sample_request teacher_uma "GET" []) query
           db_school "teachers/teachers_results.html" _
           (subjects db_school) (classes db_school) (semesters db_school)).
  vm_compute. reflexivity.
Defined.

(** ** Semesters *)

Example strptime_iso : strptime_date "2024-02-29"
                       = Some {| year := 2024; month := 2; day := 29 |}.
Proof. reflexivity. Qed.

Example strptime_unpadded : strptime_date "2024-2-5"
                            = Some {| year := 2024; month := 2; day := 5 |}.
Proof. reflexivity. Qed.

Example strptime_no_such_day : strptime_date "2023-02-29" = None.
Proof. reflexivity. Qed.

Example strptime_short_year : strptime_date "24-02-05" = None.
Proof. reflexivity. Qed.

Lemma digit_value_range (c : ascii) :
  Py.isdigit c = true → 0 ≤ Py.digit_value c ≤ 9.
Proof.
  unfold Py.isdigit, Py.digit_value. intros D.
  apply andb_true_iff in D as [D1 D2]. apply Nat.leb_le in D1, D2. lia.
Qed.

Lemma digit_between_range (lo hi : Z) (c : ascii) :
  digit_between lo hi c = true → lo ≤ Py.digit_value c ≤ hi.
Proof.
  unfold digit_between. intros D.
  apply andb_true_iff in D as [D D2]. apply andb_true_iff in D as [_ D1]. lia.
Qed.

Lemma parse_year_range s y rest : parse_year s = Some (y, rest) → 0 ≤ y ≤ 9999.
Proof.
  unfold parse_year. destruct s as [|a [|b [|c [|d s]]]]; try done.
  destruct (Py.isdigit a) eqn:Da; [|done]. destruct (Py.isdigit b) eqn:Db; [|done].
  destruct (Py.isdigit c) eqn:Dc; [|done]. destruct (Py.isdigit d) eqn:Dd; [|done].
  simpl. intros [= <- _].
  apply digit_value_range in Da, Db, Dc, Dd. lia.
Qed.

Lemma parse_month_range s m rest : parse_month s = Some (m, rest) → 1 ≤ m ≤ 12.
Proof.
  unfold parse_month. destruct s as [|a [|b s]]; [done| |].
  - destruct (digit_between 1 9 a) eqn:D; [|done]. intros [= <- _].
    apply digit_between_range in D. lia.
  - destruct (Ascii.eqb a "1" && digit_between 0 2 b) eqn:A1.
    { intros [= <- _]. apply andb_true_iff in A1 as [_ D].
      apply digit_between_range in D. lia. }
    destruct (Ascii.eqb a "0" && digit_between 1 9 b) eqn:A2.
    { intros [= <- _]. apply andb_true_iff in A2 as [_ D].
      apply digit_between_range in D. lia. }
    destruct (digit_between 1 9 a) eqn:D; [|done]. intros [= <- _].
    apply digit_between_range in D. lia.
Qed.

Lemma parse_day_range s d rest : parse_day s = Some (d, rest) → 1 ≤ d.
Proof.
  unfold parse_day. destruct s as [|a [|b s]]; [done| |].
  - destruct (digit_between 1 9 a) eqn:D; [|done]. intros [= <- _].
    apply digit_between_range in D. lia.
  - destruct (Ascii.eqb a "3" && digit_between 0 1 b) eqn:A1.
    { intros [= <- _]. apply andb_true_iff in A1 as [_ D].
      apply digit_between_range in D. lia. }
    destruct (digit_between 1 2 a && Py.isdigit b) eqn:A2.
    { intros [= <- _]. apply andb_true_iff in A2 as [D1 D2].
      apply digit_between_range in D1. apply digit_value_range in D2. lia. }
    destruct (Ascii.eqb a "0" && digit_between 1 9 b) eqn:A3.
    { intros [= <- _]. apply andb_true_iff in A3 as [_ D].
      apply digit_between_range in D. lia. }
    destruct (digit_between 1 9 a) eqn:D.
    { intros [= <- _]. apply digit_between_range in D. lia. }
    destruct (Ascii.eqb a " " && digit_between 1 9 b) eqn:A4; [|done].
    intros [= <- _]. apply andb_true_iff in A4 as [_ D4].
    apply digit_between_range in D4. lia.
Qed.

(** X20: a date that [strptime_date] accepts is a day of the calendar,
    in a year from 1 to 9999. *)
Theorem strptime_date_calendar (s : string) (d : date) :
  strptime_date s = Some d →
  1 ≤ year d ≤ 9999 ∧ 1 ≤ month d ≤ 12 ∧
  1 ≤ day d ≤ days_in_month (year d) (month d).
Proof.
  unfold strptime_date.
  destruct (parse_year s) as [[y s1]|] eqn:Py; [|done]. simpl.
  destruct (expect_dash s1) as [s2|]; [|done]. simpl.
  destruct (parse_month s2) as [[m s3]|] eqn:Pm; [|done]. simpl.
  destruct (expect_dash s3) as [s4|]; [|done]. simpl.
  destruct (parse_day s4) as [[dd s5]|] eqn:Pd; [|done]. simpl.
  destruct (String.eqb s5 ""); [|done]. simpl.
  destruct (1 <=? y) eqn:Ly; [|done]. simpl.
  destruct (dd <=? days_in_month y m) eqn:Ld; [|done].
  intros [= <-]. simpl.
  apply parse_year_range in Py. apply parse_month_range in Pm.
  apply parse_day_range in Pd. lia.
Qed.

Lemma get_object_or_404_found {A} (P : A → Prop) `{!∀ x, Decision (P x)}
    (table : list A) (x : A) :
  get_object_or_404 P table = Ok x → P x ∧ x ∈ table.
Proof.
  unfold get_object_or_404.
  destruct (filter P table) as [|y [|y' l]] eqn:F; [done| |done].
  intros [= ->]. assert (I : x ∈ filter P table) by (rewrite F; left).
  by apply list_elem_of_filter in I.
Qed.

Lemma semester_form_in_order request name sd ed :
  semester_form request = inl (name, sd, ed) →
  name ≠ "" ∧ date_gtb sd ed = false ∧
  strptime_date (posted request "start_date") = Some sd ∧
  strptime_date (posted request "end_date") = Some ed.
Proof.
  unfold semester_form.
  destruct (String.eqb (posted request "name") "") eqn:N; [done|]. simpl.
  destruct (_ || _); [done|].
  destruct (strptime_date (posted request "start_date")) as [sd'|]; [|done].
  destruct (strptime_date (posted request "end_date")) as [ed'|]; [|done].
  destruct (date_gtb sd' ed') eqn:G; [done|]. intros [= <- <- <-].
  split; [|done]. intros E. by rewrite E in N.
Qed.

(** X21: a posted semester whose start date lies after its end date is
    turned down by [semester_create], and no row is added. *)
Theorem semester_create_inverted_dates request new_id terms u sd ed :
  user request = Some u → role u = "admin" → method request = "POST" →
  posted request "name" ≠ "" →
  strptime_date (posted request "start_date") = Some sd →
  strptime_date (posted request "end_date") = Some ed →
  date_gtb sd ed = true →
  semester_create request new_id terms
  = (terms, basic (redirect "progressive_app:semester_create"
                     [msg_error "Start date cannot be after end date."])).
Proof.
  intros U R M N Ps Pe G. unfold semester_create. rewrite U.
  unfold require_role. rewrite bool_decide_eq_true_2 by (rewrite R; left).
  simpl. rewrite M. simpl. unfold semester_form.
  destruct (String.eqb (posted request "name") "") eqn:En;
    [by apply String.eqb_eq in En|].
  assert (Ns : String.eqb (posted request "start_date") "" = false).
  { destruct (String.eqb (posted request "start_date") "") eqn:E; [|done].
    apply String.eqb_eq in E. by rewrite E in Ps. }
  assert (Ne : String.eqb (posted request "end_date") "" = false).
  { destruct (String.eqb (posted request "end_date") "") eqn:E; [|done].
    apply String.eqb_eq in E. by rewrite E in Pe. }
  rewrite Ns, Ne. simpl. by rewrite Ps, Pe, G.
Qed.

(** X22: when no semester of the table ends before it starts, that is
    so after [semester_create] and after [semester_edit], whatever the
    request; the rows that the request does not name are those of
    before. *)
Theorem semester_views_keep_order request new_id pk terms :
  Forall in_order terms →
  Forall in_order (semester_create request new_id terms).1 ∧
  Forall in_order (semester_edit request pk terms).1 ∧
  (∃ added, (semester_create request new_id terms).1 = terms ++ added ∧
            (length added ≤ 1)%nat) ∧
  filter (λ t, term_id t ≠ pk) (semester_edit request pk terms).1
  = filter (λ t, term_id t ≠ pk) terms.
Proof.
  intros O. unfold semester_create, semester_edit.
  assert (A0 : ∃ added : list Term, terms = terms ++ added ∧ (length added ≤ 1)%nat).
  { exists []. split; [by rewrite app_nil_r|simpl; lia]. }
  destruct (user request) as [u|]; [|done].
  destruct (negb _); [done|].
  destruct (String.eqb (method request) "POST").
  - destruct (semester_form request) as [[[name sd] ed]|text] eqn:F.
    + apply semester_form_in_order in F as (_ & G & _). simpl.
      split; [|split; [|split]].
      * apply Forall_app. split; [done|]. by apply Forall_singleton.
      * destruct (get_object_or_404 _ terms) as [semester|]; [|done]. simpl.
        apply Forall_fmap. eapply Forall_impl; [exact O|].
        intros t Ot. simpl. by destruct (decide _).
      * eexists. split; [done|]. simpl. lia.
      * destruct (get_object_or_404 _ terms) as [semester|] eqn:Gs; [|done].
        apply get_object_or_404_found in Gs as [Es _]. simpl.
        apply (filter_not_replaced (λ t, term_id t = pk) (λ t, term_id t ≠ pk)).
        -- intros t E N. by apply N.
        -- simpl. intros N. by apply N.
    + simpl. split; [done|].
      split; [by destruct (get_object_or_404 _ terms)|]. split; [done|].
      by destruct (get_object_or_404 _ terms).
  - simpl. split; [done|].
    split; [by destruct (get_object_or_404 _ terms)|]. split; [done|].
    by destruct (get_object_or_404 _ terms).
Qed.

Lemma strptime_date_calendar_witness :
  1 ≤ 2024 ≤ 9999 ∧ 1 ≤ 2 ≤ 12 ∧ 1 ≤ 29 ≤ days_in_month 2024 2.
Proof.
  exact (strptime_date_calendar "2024-02-29"
           {| year := 2024; month := 2; day := 29 |} eq_refl).
Defined.

(** A semester posted with its two dates exchanged. *)
Lemma semester_create_inverted_dates_witness :
  let request :=
    sample_request admin_head "POST"
      [("name", " Term 3 "); ("start_date", "2025-05-01");
       ("end_date", "2025-01-31")] in
  semester_create request 3 []
  = ([], basic (redirect "progressive_app:semester_create"
                  [msg_error "Start date cannot be after end date."])).
Proof.
  intros request.
  apply (semester_create_inverted_dates request 3 [] admin_head
           {| year := 2025; month := 5; day := 1 |}
           {| year := 2025; month := 1; day := 31 |});
    try (vm_compute; reflexivity).
  vm_compute. discriminate.
Defined.

Lemma semester_views_keep_order_witness :
  let request :=
    sample_request admin_head "POST"
      [("name", "Term 3"); ("start_date", "2025-01-06");
       ("end_date", "2025-3-28")] in
  let terms :=
    [{| term_id := 1; term_name := "Term 1";
        start_date := {| year := 2024; month := 1; day := 8 |};
        end_date := {| year := 2024; month := 3; day := 29 |} |}] in
  Forall in_order (semester_create request 2 terms).1 ∧
  (semester_edit request 1 terms).1
  = [{| term_id := 1; term_name := "Term 3";
        start_date := {| year := 2025; month := 1; day := 6 |};
        end_date := {| year := 2025; month := 3; day := 28 |} |}].
Proof.
  intros request terms.
  destruct (semester_views_keep_order request 2 1 terms) as (C & _ & _ & _).
  { apply Forall_singleton. reflexivity. }
  split; [exact C|]. vm_compute. reflexivity.
Defined.

(** ** An upload that completes *)

(** Uma, who has the assignment, uploads scores that [float] accepts. *)
Lemma upload_marks_completes_witness :
  (@upload_marks plain_decimal
     (upload_form teacher_uma [("marks_3", "85"); ("marks_2", "64.5")])
     db_school).2
  = Ok (redirect "progressive_app:teachers_results"
          [msg_success "Marks uploaded for 10A (Mech) in Term 2."]).
Proof.
  apply (@upload_marks_completes plain_decimal
           (upload_form teacher_uma [("marks_3", "85"); ("marks_2", "64.5")])
           db_school teacher_uma "1" "1" "2"
           {| subject_id := 1; subject_name := "Mech" |}
           {| class_id := 1; class_name := "10A" |}
           {| semester_id := 2; semester_name := "Term 2" |} teacher_uma);
    try (vm_compute; reflexivity); try discriminate.
  - by left.
  - refine (bool_decide_eq_true_1 _ _). vm_compute. reflexivity.
  - intros s v I. change (class_students _ db_school)
      with [student_brian; student_sara] in I.
    apply elem_of_cons in I as [->|I].
    { vm_compute. intros [= <-] _. by eexists. }
    apply list_elem_of_singleton in I as ->.
    vm_compute. intros [= <-] _. by eexists.
  - intros s I. change (class_students _ db_school)
      with [student_brian; student_sara] in I.
    apply elem_of_cons in I as [->|I]; [vm_compute; lia|].
    apply list_elem_of_singleton in I as ->. vm_compute. lia.
Defined.
